(** * adlfs: a filesystem view of Azure Datalake and Azure Blob storage

    A shallow embedding of [adlfs/aio/core.py]: the Gen1 file handle's
    [seek], the blob filesystem's [split_path], [ls], [_details], [walk],
    [find], [info], [exists] and [glob], and the block-staging writer
    [AzureBlobFile] ([_initiate_upload], [_upload_chunk], [flush], [write],
    [close]).

    Python strings are [string]s, Python ints are [Z] (or [nat] for lengths),
    dicts that are iterated are association lists in insertion order, and
    calls that may raise thread an explicit exception value. *)

From Stdlib Require Import String Ascii List ZArith NArith Lia Bool Arith FinFun.
From Stdlib Require Import Sorted.
Import ListNotations.

Local Open Scope list_scope.
Local Open Scope string_scope.

(** ** Python built-ins used by the module *)

Module Py.

(** Exceptions the module raises or lets through. *)
Inductive exn : Type :=
| ValueError (msg : string)
| FileNotFoundError
| OSError
| RuntimeError (msg : string)
| TypeError
| KeyError
| AttributeError
| SdkError.

(** [isinstance(e, (FileNotFoundError, IOError))]: [IOError] is [OSError],
    of which [FileNotFoundError] is a subclass. *)
Definition is_os_error (e : exn) : bool :=
  match e with
  | FileNotFoundError | OSError => true
  | _ => false
  end.

(** [s.lstrip(c)] for a one-character [c]. *)
Fixpoint lstrip (c : ascii) (s : string) : string :=
  match s with
  | EmptyString => EmptyString
  | String a s' => if Ascii.eqb a c then lstrip c s' else s
  end.

(** [s.rstrip(c)] for a one-character [c]. *)
Fixpoint rstrip (c : ascii) (s : string) : string :=
  match s with
  | EmptyString => EmptyString
  | String a s' =>
      match rstrip c s' with
      | EmptyString => if Ascii.eqb a c then EmptyString else String a EmptyString
      | r => String a r
      end
  end.

(** [s.endswith(c)] for a one-character [c]. *)
Fixpoint endswith (c : ascii) (s : string) : bool :=
  match s with
  | EmptyString => false
  | String a EmptyString => Ascii.eqb a c
  | String _ s' => endswith c s'
  end.

(** [s[:n]] and [s[n:]] for [0 <= n]. *)
Fixpoint take (n : nat) (s : string) : string :=
  match n, s with
  | S n', String a s' => String a (take n' s')
  | _, _ => EmptyString
  end.

Fixpoint drop (n : nat) (s : string) : string :=
  match n, s with
  | S n', String _ s' => drop n' s'
  | _, _ => s
  end.

(** [s.find(sub)]: the first index at which [sub] occurs, or [-1]. *)
Fixpoint find_from (sub s : string) (i : Z) : Z :=
  if String.prefix sub s then i
  else match s with
       | EmptyString => (-1)%Z
       | String _ s' => find_from sub s' (i + 1)%Z
       end.

Definition find (sub s : string) : Z := find_from sub s 0%Z.

(** [sub in s]. *)
Definition contains (sub s : string) : bool := (0 <=? find sub s)%Z.

(** [s.rindex(c)] for a one-character [c]; [None] stands for the
    [ValueError] Python raises when [c] does not occur. *)
Fixpoint rindex (c : ascii) (s : string) : option nat :=
  match s with
  | EmptyString => None
  | String a s' =>
      match rindex c s' with
      | Some i => Some (S i)
      | None => if Ascii.eqb a c then Some 0 else None
      end
  end.

(** [s.count(c)] for a one-character [c]. *)
Fixpoint count (c : ascii) (s : string) : nat :=
  match s with
  | EmptyString => 0
  | String a s' => (if Ascii.eqb a c then 1 else 0) + count c s'
  end.

(** The first split of [s] at [c], when [c] occurs. *)
Fixpoint split_once (c : ascii) (s : string) : option (string * string) :=
  match s with
  | EmptyString => None
  | String a s' =>
      if Ascii.eqb a c then Some (EmptyString, s')
      else match split_once c s' with
           | Some (x, y) => Some (String a x, y)
           | None => None
           end
  end.

(** [s.split(c, n)]. *)
Fixpoint split (c : ascii) (n : nat) (s : string) : list string :=
  match n with
  | 0 => [s]
  | S n' =>
      match split_once c s with
      | None => [s]
      | Some (x, y) => x :: split c n' y
      end
  end.

(** [s.rsplit(c, 1)[-1]]. *)
Definition rsplit_last (c : ascii) (s : string) : string :=
  match rindex c s with
  | None => s
  | Some i => drop (S i) s
  end.

(** [s.rsplit(c, 1)[0]]. *)
Definition rsplit_head (c : ascii) (s : string) : string :=
  match rindex c s with
  | None => s
  | Some i => take i s
  end.

(** [s.replace(old, new)] for a non-empty [old]: occurrences are replaced
    from the left and do not overlap; [skip] counts the characters of a
    replaced occurrence still to be passed over. *)
Fixpoint replace_aux (old new s : string) (skip : nat) : string :=
  match s with
  | EmptyString => EmptyString
  | String a s' =>
      match skip with
      | S k => replace_aux old new s' k
      | 0 =>
          if String.prefix old s
          then new ++ replace_aux old new s' (String.length old - 1)
          else String a (replace_aux old new s' 0)
      end
  end.

Definition replace (old new s : string) : string := replace_aux old new s 0.

(** [sorted(l)] on strings: insertion sort by code-point order. *)
Fixpoint insert_sorted (x : string) (l : list string) : list string :=
  match l with
  | [] => [x]
  | y :: l' => if String.leb x y then x :: l else y :: insert_sorted x l'
  end.

Definition sorted (l : list string) : list string :=
  fold_right insert_sorted [] l.

(** [x in l] for a list of strings. *)
Definition mem (x : string) (l : list string) : bool :=
  existsb (String.eqb x) l.

(** *** [f"{n:07d}"] *)

Definition digit_char (d : N) : ascii := ascii_of_N (48 + d).

(** [str(n)]: the decimal digits of [n], most significant first. *)
Fixpoint decimal_aux (fuel : nat) (n : N) (acc : string) : string :=
  match fuel with
  | 0 => acc
  | S f =>
      let acc' := String (digit_char (n mod 10)) acc in
      if (n / 10 =? 0)%N then acc' else decimal_aux f (n / 10) acc'
  end.

Definition decimal (n : N) : string :=
  decimal_aux (S (N.to_nat (N.size n))) n "".

Fixpoint zeros (k : nat) : string :=
  match k with
  | 0 => EmptyString
  | S k' => String "0" (zeros k')
  end.

(** Left padding with ["0"] up to width [w]. *)
Definition zfill (w : nat) (s : string) : string :=
  zeros (w - String.length s) ++ s.

Definition format_07d (n : nat) : string := zfill 7 (decimal (N.of_nat n)).

(** [int(s)] for a string of decimal digits, read from the left with
    [acc] the value of the digits already passed. *)
Fixpoint int_acc (acc : N) (s : string) : N :=
  match s with
  | EmptyString => acc
  | String c s' => int_acc (10 * acc + (N_of_ascii c - 48)) s'
  end.

Definition int (s : string) : N := int_acc 0 s.

(** The [w] lowest decimal digits of [n], most significant first, put in
    front of [acc]. *)
Fixpoint fixed (w : nat) (n : N) (acc : string) : string :=
  match w with
  | 0 => acc
  | S w' => fixed w' (n / 10) (String (digit_char (n mod 10)) acc)
  end.

(** [str(z)] for an int. *)
Definition str_Z (z : Z) : string :=
  match z with
  | Z0 => "0"
  | Zpos p => decimal (Npos p)
  | Zneg p => "-" ++ decimal (Npos p)
  end.

End Py.

(** ** Collaborators outside the module

    [infer_storage_options] and [AbstractFileSystem._parent] / [isfile] come
    from fsspec, the regular-expression engine from [re], and the listings
    from the Azure SDK client; the module only calls them. *)

(** What [infer_storage_options] returns, as far as [_strip_protocol] reads
    it: [ops["path"]] and [ops.get("host", None)]. *)
Record storage_options : Type := mk_storage_options {
  ops_path : string;
  ops_host : option string
}.

(** An item of an SDK listing.  [cls] is the class [isinstance] sees;
    the optional fields are the keys [has_key] may or may not find;
    [children] is what iterating the item (a page collection) yields. *)
Module Blob.

Inductive class : Type :=
| BlobProperties
| BlobPrefix
| ItemPaged
| ContainerProperties.

#[warning="-register-all"]
Inductive t : Type := mk {
  cls : class;
  name : string;
  container : option string;
  size : option Z;
  blob_type : option string;
  children : list t
}.

(** [content.has_key("blob_type")] *)
Definition has_blob_type (b : t) : bool :=
  match blob_type b with
  | Some _ => true
  | None => false
  end.

Definition is_prefix (b : t) : bool :=
  match cls b with
  | BlobPrefix => true
  | _ => false
  end.

Definition is_item_paged (b : t) : bool :=
  match cls b with
  | ItemPaged => true
  | _ => false
  end.

End Blob.

Class Collaborators : Type := {
  (** [fsspec.utils.infer_storage_options] *)
  infer_storage_options : string -> storage_options;
  (** [AbstractFileSystem._parent] *)
  _parent : string -> string;
  (** the inherited, synchronous [AbstractFileSystem.isfile] *)
  isfile : string -> bool;
  (** [re.compile(pattern).match(s) is not None] *)
  re_match : string -> string -> bool;
  (** [service_client.list_containers(include_metadata=True)], iterated *)
  list_containers : list Blob.t;
  (** [container_client.walk_blobs(name_starts_with=prefix)], iterated to the
      end; [inl e] when the iteration raises [e] *)
  walk_blobs : string -> string -> Py.exn + list Blob.t
}.

(** ** AzureDatalakeFile.seek *)

Module AzureDatalakeFile.

Record t : Type := mk {
  mode : string;
  loc : Z;
  size : Z
}.

(** [seek(loc, whence)]: the exception raised, or the handle with its new
    cursor together with the value returned. *)
Definition seek (self : t) (loc0 : Z) (whence : Z) : Py.exn + (t * Z) :=
  if negb (mode self =? "rb") then
    inl (Py.ValueError "Seek only available in read mode")
  else
    let nloc :=
      if (whence =? 0)%Z then inr loc0
      else if (whence =? 1)%Z then inr (loc self + loc0)%Z
      else if (whence =? 2)%Z then inr (size self + loc0)%Z
      else inl (Py.ValueError ("invalid whence (" ++ Py.str_Z whence
                               ++ ", should be 0, 1 or 2)")) in
    match nloc with
    | inl e => inl e
    | inr nloc =>
        if (nloc <? 0)%Z then inl (Py.ValueError "Seek before start of file")
        else inr (mk (mode self) nloc (size self), nloc)
    end.

End AzureDatalakeFile.

(** ** AzureBlobFile: the block-staging writer *)

Module AzureBlobFile.

Definition bytes : Type := list Byte.byte.

(** The blob at the handle's key, as the SDK client sees it.  Staged
    blocks are kept newest first, so that staging an ID again shadows the
    older block. *)
Record remote : Type := mk_remote {
  object : option bytes;
  staged : list (string * bytes);
  committed : option (list string);
  delete_fails : bool
}.

(** The attributes of a handle, those of the writer included ([__init__]
    sets [buffer], [offset] and [forced] for a mode other than ["rb"]).
    [block_list = None] stands for [_block_list] not being set yet. *)
Record t : Type := mk {
  path : string;
  mode : string;
  blocksize : nat;
  closed : bool;
  forced : bool;
  buffer : bytes;
  offset : option nat;
  loc : nat;
  block_list : option (list string)
}.

Record world : Type := mk_world {
  file : t;
  store : remote;
  invalidated : list string
}.

(** A handle as [__init__] leaves it for a mode other than ["rb"]. *)
Definition open_write (path mode : string) (blocksize : nat) : t :=
  mk path mode blocksize false false [] None 0 None.

(** Calls mutate the handle and the remote in place and may raise: the
    world after the call is kept in both cases. *)
Definition M (A : Type) : Type := world -> (Py.exn + A) * world.

Definition ret {A} (a : A) : M A := fun w => (inr a, w).

Definition raise {A} (e : Py.exn) : M A := fun w => (inl e, w).

Definition bind {A B} (c : M A) (k : A -> M B) : M B :=
  fun w => match c w with
           | (inl e, w') => (inl e, w')
           | (inr a, w') => k a w'
           end.

Definition get : M t := fun w => (inr (file w), w).

Definition set_file (f : t -> t) : M unit :=
  fun w => (inr tt, mk_world (f (file w)) (store w) (invalidated w)).

Definition set_store (f : remote -> remote) : M unit :=
  fun w => (inr tt, mk_world (file w) (f (store w)) (invalidated w)).

Definition get_store : M remote := fun w => (inr (store w), w).

Declare Scope blobfile_scope.
Delimit Scope blobfile_scope with bf.
Notation "x <- c ;; k" := (bind c (fun x => k))
  (at level 61, c at next level, right associativity) : blobfile_scope.
Notation "c ;; k" := (bind c (fun _ => k))
  (at level 61, right associativity) : blobfile_scope.
Local Open Scope blobfile_scope.

Definition with_closed (b : bool) (f : t) : t :=
  mk (path f) (mode f) (blocksize f) b (forced f) (buffer f) (offset f)
     (loc f) (block_list f).

Definition with_forced (b : bool) (f : t) : t :=
  mk (path f) (mode f) (blocksize f) (closed f) b (buffer f) (offset f)
     (loc f) (block_list f).

Definition with_buffer (b : bytes) (f : t) : t :=
  mk (path f) (mode f) (blocksize f) (closed f) (forced f) b (offset f)
     (loc f) (block_list f).

Definition with_offset (o : option nat) (f : t) : t :=
  mk (path f) (mode f) (blocksize f) (closed f) (forced f) (buffer f) o
     (loc f) (block_list f).

Definition with_loc (n : nat) (f : t) : t :=
  mk (path f) (mode f) (blocksize f) (closed f) (forced f) (buffer f)
     (offset f) n (block_list f).

Definition with_block_list (l : option (list string)) (f : t) : t :=
  mk (path f) (mode f) (blocksize f) (closed f) (forced f) (buffer f)
     (offset f) (loc f) l.

(** [self.mode in {"wb", "ab"}] *)
Definition write_mode (m : string) : bool := (m =? "wb") || (m =? "ab").

(** *** The SDK calls on the blob *)

(** [container_client.delete_blob]: [ResourceNotFoundError] when there is
    no object, some other exception when the service refuses. *)
Inductive delete_outcome : Type := Deleted | ResourceNotFound | DeleteFailed.

Definition delete_blob : M delete_outcome :=
  r <- get_store ;;
  if delete_fails r then ret DeleteFailed
  else match object r with
       | None => ret ResourceNotFound
       | Some _ =>
           set_store (fun r => mk_remote None (staged r) (committed r)
                                         (delete_fails r)) ;;
           ret Deleted
       end.

Definition stage_block (block_id : string) (data : bytes) : M unit :=
  set_store (fun r => mk_remote (object r) ((block_id, data) :: staged r)
                                (committed r) (delete_fails r)).

Fixpoint lookup_block (block_id : string) (l : list (string * bytes))
  : option bytes :=
  match l with
  | [] => None
  | (k, v) :: l' => if k =? block_id then Some v else lookup_block block_id l'
  end.

(** The staged blocks named by [ids], joined in that order; [None] when an
    ID was never staged. *)
Fixpoint assemble (ids : list string) (l : list (string * bytes))
  : option bytes :=
  match ids with
  | [] => Some []
  | i :: ids' =>
      match lookup_block i l, assemble ids' l with
      | Some b, Some rest => Some (b ++ rest)%list
      | _, _ => None
      end
  end.

Definition commit_block_list (ids : list string) : M unit :=
  r <- get_store ;;
  match assemble ids (staged r) with
  | None => raise Py.SdkError
  | Some content =>
      set_store (fun r => mk_remote (Some content) (staged r) (Some ids)
                                    (delete_fails r))
  end.

(** *** The methods *)

(** [_initiate_upload]: [ResourceNotFoundError] is passed over, any other
    exception of the delete becomes a [RuntimeError]; the inherited
    [_initiate_upload] does nothing. *)
Definition _initiate_upload : M unit :=
  set_file (with_block_list (Some [])) ;;
  o <- delete_blob ;;
  match o with
  | ResourceNotFound => ret tt
  | DeleteFailed => raise (Py.RuntimeError "Failed for")
  | Deleted => ret tt
  end.

Definition _upload_chunk (final : bool) : M unit :=
  self <- get ;;
  let data := buffer self in
  match block_list self with
  | None => raise Py.AttributeError
  | Some bl =>
      let block_id := Py.format_07d (List.length bl) in
      stage_block block_id data ;;
      set_file (with_block_list (Some (bl ++ [block_id])%list)) ;;
      if final then commit_block_list (bl ++ [block_id])%list else ret tt
  end.

(** [flush(force)].  [_upload_chunk] returns [None], so the test
    [is not False] on its result always passes; [self.offset] has been set
    by then. *)
Definition flush (force : bool) : M unit :=
  self <- get ;;
  if closed self then raise (Py.ValueError "Flush on closed file")
  else if force && forced self then
    raise (Py.ValueError "Force flush cannot be called more than once")
  else
    (if force then set_file (with_forced true) else ret tt) ;;
    if negb (write_mode (mode self)) then ret tt
    else if negb force && (List.length (buffer self) <? blocksize self)%nat
    then ret tt
    else
      (match offset self with
       | None => set_file (with_offset (Some 0)) ;; _initiate_upload
       | Some _ => ret tt
       end) ;;
      _upload_chunk force ;;
      self <- get ;;
      match offset self with
      | None => raise Py.TypeError
      | Some o =>
          set_file (with_offset (Some (o + List.length (buffer self)))) ;;
          set_file (with_buffer [])
      end.

Definition write (data : bytes) : M nat :=
  self <- get ;;
  if negb (write_mode (mode self)) then
    raise (Py.ValueError "File not in write mode")
  else if closed self then
    raise (Py.ValueError "I/O operation on closed file.")
  else if forced self then
    raise (Py.ValueError "This file has been force-flushed, can only close")
  else
    let out := List.length data in
    set_file (with_buffer (buffer self ++ data)%list) ;;
    set_file (fun f => with_loc (loc f + out) f) ;;
    self <- get ;;
    (if (blocksize self <=? List.length (buffer self))%nat then flush false
     else ret tt) ;;
    ret out.

Definition invalidate_cache (p : string) : M unit :=
  fun w => (inr tt, mk_world (file w) (store w) (invalidated w ++ [p])%list).

(** [close()]; for a handle in mode ["rb"] only the cache is dropped. *)
Definition close `{Collaborators} : M unit :=
  self <- get ;;
  if closed self then ret tt
  else
    (if mode self =? "rb" then ret tt
     else
       (if negb (forced self) then flush true else ret tt) ;;
       invalidate_cache (path self) ;;
       invalidate_cache (_parent (path self))) ;;
    set_file (with_closed true).

(** [for d in datas: f.write(d)] *)
Fixpoint write_all (datas : list bytes) : M unit :=
  match datas with
  | [] => ret tt
  | d :: ds => write d ;; write_all ds
  end.

(** The calls a client can make on a handle, and a run of them in which
    an exception raised by one call is caught by the client. *)
Inductive call : Type :=
| CallWrite (data : bytes)
| CallFlush (force : bool)
| CallClose.

Definition perform `{Collaborators} (c : call) (w : world) : world :=
  match c with
  | CallWrite d => snd (write d w)
  | CallFlush b => snd (flush b w)
  | CallClose => snd (close w)
  end.

Definition perform_all `{Collaborators} (cs : list call) (w : world) : world :=
  fold_left (fun w c => perform c w) cs w.

(** *** The states a run of full-block writes goes through *)

(** The IDs [_upload_chunk] gives to the first [k] blocks. *)
Definition block_ids (k : nat) : list string := map Py.format_07d (seq 0 k).

(** The bytes written by the calls [write(d)] for [d] in [ds]. *)
Definition written (ds : list bytes) : nat :=
  fold_left (fun o d => o + List.length d) ds 0.

(** The handle and the remote after the blocks [ds] have been written to
    a handle opened on the remote [r0]. *)
Definition progress (path mode : string) (blocksize : nat) (r0 : remote)
           (inv : list string) (ds : list bytes) : world :=
  match ds with
  | [] => mk_world (open_write path mode blocksize) r0 inv
  | _ =>
      mk_world
        (mk path mode blocksize false false [] (Some (written ds))
            (written ds) (Some (block_ids (List.length ds))))
        (mk_remote None
                   (rev (combine (block_ids (List.length ds)) ds)
                    ++ staged r0)%list
                   (committed r0) false)
        inv
  end.

(** A call keeps the mode of the handle, and never clears [forced]. *)
Definition keeps (w w' : world) : Prop :=
  mode (file w') = mode (file w)
  /\ (forced (file w) = true -> forced (file w') = true).

Definition keeping {A} (c : M A) : Prop := forall w, keeps w (snd (c w)).

End AzureBlobFile.

(** ** AzureBlobFileSystem *)

(** Python dicts with string keys, in insertion order. *)
Module Dict.

Definition t (V : Type) : Type := list (string * V).

(** [d[k] = v]: an existing key keeps its place. *)
Fixpoint set {V} (k : string) (v : V) (d : t V) : t V :=
  match d with
  | [] => [(k, v)]
  | (k', v') :: d' =>
      if k' =? k then (k, v) :: d' else (k', v') :: set k v d'
  end.

(** [d.update(d2)] *)
Definition update {V} (d d2 : t V) : t V :=
  fold_left (fun acc kv => set (fst kv) (snd kv) acc) d2 d.

(** [list(d)] *)
Definition keys {V} (d : t V) : list string := map fst d.

(** [k in d] *)
Definition mem {V} (k : string) (d : t V) : bool :=
  existsb (fun kv => fst kv =? k) d.

Fixpoint get {V} (k : string) (d : t V) : option V :=
  match d with
  | [] => None
  | (k', v) :: d' => if k' =? k then Some v else get k d'
  end.

End Dict.

(** The dict [_details] builds: [{"name": .., "size": .., "type": ..}]. *)
Module Entry.

Record t : Type := mk {
  name : string;
  size : Z;
  type : string
}.

End Entry.

Module AzureBlobFileSystem.

(** An element of the list [ls] returns: a details dict or a path. *)
Inductive item : Type :=
| Info (e : Entry.t)
| Path (s : string).

(** What a generator running [walk] does, in order: each call of [ls] and
    each tuple yielded. *)
Inductive walk_tuple : Type :=
| WalkDetail (path : string) (dirs files : Dict.t Entry.t)
| WalkNames (path : string) (dirs files : list string).

Inductive event : Type :=
| Listed (path : string)
| Yielded (t : walk_tuple).

Inductive status : Type :=
| Done
| Raised (e : Py.exn)
| OutOfFuel.

(** The outcome of a call that runs [walk]. *)
Inductive outcome (A : Type) : Type :=
| Ok (a : A)
| Raise (e : Py.exn)
| Timeout.
Arguments Ok {A} a.
Arguments Raise {A} e.
Arguments Timeout {A}.

(** What [find] and [glob] return: names, or a dict from names to details
    ([None] for the empty dict [find] stores for a bare file). *)
Inductive result : Type :=
| Names (l : list string)
| Details (d : Dict.t (option Entry.t)).

(** The scope [glob] settles on before searching. *)
Inductive plan : Type :=
| Literal (path : string)
| Search (root : string) (depth : Z) (path : string)
| Fails (e : Py.exn).

(** [glob.has_magic]: does the path contain one of [*?[] *)
Fixpoint has_magic (s : string) : bool :=
  match s with
  | EmptyString => false
  | String a s' =>
      Ascii.eqb a "*" || Ascii.eqb a "?" || Ascii.eqb a "[" || has_magic s'
  end.

(** [_details(content, return_glob=...)] *)
Definition _details (content : Blob.t) (return_glob : bool) : Entry.t :=
  let data :=
    match Blob.container content with
    | Some c =>
        let sz := match Blob.size content with
                  | Some s => s
                  | None => 0%Z
                  end in
        Entry.mk (c ++ "/" ++ Blob.name content) sz
                 (if (sz =? 0)%Z then "directory" else "file")
    | None => Entry.mk (Blob.name content ++ "/") 0%Z "directory"
    end in
  if return_glob
  then Entry.mk (Py.rstrip "/" (Entry.name data)) (Entry.size data)
                (Entry.type data)
  else data.

(** [f"{blob.container}{delimiter}{blob.name}"] for each blob; a blob
    without the attribute [container] raises. *)
Fixpoint blob_paths (blobs : list Blob.t) : Py.exn + list item :=
  match blobs with
  | [] => inr []
  | b :: bs =>
      match Blob.container b with
      | None => inl Py.AttributeError
      | Some c =>
          match blob_paths bs with
          | inl e => inl e
          | inr r => inr (Path (c ++ "/" ++ Blob.name b) :: r)
          end
      end
  end.

(** The three ways [ls] renders a list of blobs. *)
Definition render (blobs : list Blob.t) (detail return_glob : bool)
  : Py.exn + option (list item) :=
  if return_glob then
    inr (Some (map (fun b => Info (_details b true)) blobs))
  else if detail then
    inr (Some (map (fun b => Info (_details b false)) blobs))
  else
    match blob_paths blobs with
    | inl e => inl e
    | inr r => inr (Some r)
    end.


Fixpoint tuples (evs : list event) : list walk_tuple :=
  match evs with
  | [] => []
  | Listed _ :: rest => tuples rest
  | Yielded t :: rest => t :: tuples rest
  end.

Section Methods.

Context `{Collaborators}.

Definition _strip_protocol (path : string) : string :=
  let ops := infer_storage_options path in
  let p := match ops_host ops with
           | Some host =>
               if host =? "" then ops_path ops else host ++ ops_path ops
           | None => ops_path ops
           end in
  Py.lstrip "/" p.

Definition split_path (path : string) : string * string :=
  if Py.mem path [""; "/"] then ("", "")
  else
    let path := Py.lstrip "/" (_strip_protocol path) in
    if negb (Py.contains "/" path) then (path, "")
    else match Py.split_once "/" path with
         | Some (c, k) => (c, k)
         | None => (path, "")
         end.

(** [ls(path, detail, return_glob=return_glob)].  [inr None] is the
    call running off the end of the function, which returns [None]. *)
Definition ls (path : string) (detail return_glob : bool)
  : Py.exn + option (list item) :=
  let target_path := Py.lstrip "/" path in
  let '(container, path) := split_path path in
  if Py.mem container [""; "."; "/"] && Py.mem path [""; "/"] then
    let contents := list_containers in
    if detail then
      inr (Some (map (fun c => Info (_details c false)) contents))
    else
      inr (Some (map (fun c => Path (Blob.name c ++ "/")) contents))
  else if negb (Py.mem container [""; "/"]) then
    match walk_blobs container path with
    | inl _ => inl Py.FileNotFoundError
    | inr blobs =>
        match blobs with
        | _ :: _ :: _ => render blobs detail return_glob
        | [b0] =>
            if (Py.rstrip "/" (Blob.name b0) =? path)
               && negb (Blob.has_blob_type b0)
            then
              let path := Blob.name b0 in
              match walk_blobs container path with
              | inl e => inl e
              | inr blobs => render blobs detail return_glob
              end
            else if Blob.is_prefix b0 then
              let depth := Py.count "/" target_path in
              let depth := if (depth =? 0)%nat then 2 else depth + 1 in
              (* [return outblobs] sits in the body of the inner loop:
                 the first blob of the first page ends the call, and a
                 page without blobs lets it run off the end *)
              match Blob.children b0 with
              | [] => inr None
              | b :: _ =>
                  if detail then inr (Some [Info (_details b false)])
                  else
                    match Blob.container b with
                    | None => inl Py.AttributeError
                    | Some c =>
                        let directory_ := c ++ "/" ++ Blob.name b in
                        let dir_parts :=
                          firstn depth (Py.split "/" depth directory_) in
                        let directory := String.concat "/" dir_parts in
                        inr (Some [Path (directory ++ "/")])
                    end
              end
            else
              match Blob.blob_type b0 with
              | None => inl Py.KeyError
              | Some bt =>
                  if bt =? "BlockBlob" then
                    if detail then
                      inr (Some (map (fun b => Info (_details b false)) blobs))
                    else
                      match blob_paths blobs with
                      | inl e => inl e
                      | inr r => inr (Some r)
                      end
                  else if Blob.is_item_paged b0 then
                    (* [async for page in blobs]: [blobs] is the Python
                       list built by the comprehension above, and a list
                       has no [__aiter__] *)
                    inl Py.TypeError
                  else inl Py.FileNotFoundError
              end
        | [] =>
            if return_glob || Py.mem path [""; "/"] then inr (Some [])
            else inl Py.FileNotFoundError
        end
    end
  else inr None.


(** The loop of [walk] over the listing: [full_dirs], [dirs] and
    [files] after it.  [info["name"]] on an element that is not a dict
    raises. *)
Fixpoint classify (path : string) (listing : list item)
         (full_dirs dirs files : Dict.t Entry.t)
  : Py.exn + (Dict.t Entry.t * Dict.t Entry.t * Dict.t Entry.t) :=
  match listing with
  | [] => inr (full_dirs, dirs, files)
  | Path _ :: _ => inl Py.TypeError
  | Info info :: rest =>
      let pathname := Py.rstrip "/" (Entry.name info) in
      let name := Py.rsplit_last "/" pathname in
      if (Entry.type info =? "directory") && negb (pathname =? path) then
        classify path rest (Dict.set pathname info full_dirs)
                 (Dict.set name info dirs) files
      else if pathname =? path then
        classify path rest full_dirs dirs (Dict.set "" info files)
      else
        classify path rest full_dirs dirs (Dict.set name info files)
  end.

(** One level of [walk], for a [path] already stripped: the call of
    [ls], the tuple yielded, and the directories to descend into. *)
Definition walk_level (path : string) (detail : bool)
  : list event * (Py.exn + list string) :=
  let listing :=
    match ls path true true with
    | inl e => if Py.is_os_error e then inr (Some []) else inl e
    | inr r => inr r
    end in
  match listing with
  | inl e => ([Listed path], inl e)
  | inr None => ([Listed path], inl Py.TypeError)
  | inr (Some listing) =>
      match classify path listing [] [] [] with
      | inl e => ([Listed path], inl e)
      | inr (full_dirs, dirs, files) =>
          ([Listed path;
            Yielded (if detail then WalkDetail path dirs files
                     else WalkNames path (Dict.keys dirs) (Dict.keys files))],
           inr (Dict.keys full_dirs))
      end
  end.

(** [for d in full_dirs: async for ... in self.walk(d, ...): yield ...] *)
Fixpoint walk_each (walk_dir : string -> list event * status)
         (full_dirs : list string) : list event * status :=
  match full_dirs with
  | [] => ([], Done)
  | d :: ds =>
      match walk_dir d with
      | (evs, Done) =>
          let '(evs', st) := walk_each walk_dir ds in ((evs ++ evs')%list, st)
      | (evs, st) => (evs, st)
      end
  end.

(** [maxdepth] for the next level, or [None] when [walk] returns after
    its own level. *)
Definition next_depth (maxdepth : option Z) : option (option Z) :=
  match maxdepth with
  | Some m => let m := (m - 1)%Z in
              if (m <? 1)%Z then None else Some (Some m)
  | None => Some None
  end.

(** [walk(path, maxdepth, detail=detail)], run to its end.  [fuel]
    bounds the depth of the recursion. *)
Fixpoint walk (fuel : nat) (path : string) (maxdepth : option Z)
         (detail : bool) : list event * status :=
  match fuel with
  | 0 => ([], OutOfFuel)
  | S fuel' =>
      let path := _strip_protocol path in
      match walk_level path detail with
      | (evs, inl e) => (evs, Raised e)
      | (evs, inr full_dirs) =>
          match next_depth maxdepth with
          | None => (evs, Done)
          | Some maxdepth =>
              let '(evs', st) :=
                walk_each (fun d => walk fuel' d maxdepth detail) full_dirs in
              ((evs ++ evs')%list, st)
          end
      end
  end.

(** The body of the loop of [find] over the tuples [walk] yields: [out]
    and the loop variable [path] after it. *)
Fixpoint collect (withdirs : bool) (evs : list event)
         (out : Dict.t (option Entry.t)) (path : string)
  : Py.exn + (Dict.t (option Entry.t) * string) :=
  match evs with
  | [] => inr (out, path)
  | Listed _ :: rest => collect withdirs rest out path
  | Yielded (WalkNames _ _ _) :: _ => inl Py.AttributeError
  | Yielded (WalkDetail p dirs files) :: rest =>
      (* [files == []] compares a dict with a list and is never true *)
      let files := if withdirs then Dict.update files dirs else files in
      let named :=
        Dict.update [] (map (fun kv => (Entry.name (snd kv), Some (snd kv)))
                            files) in
      collect withdirs rest (Dict.update out named) p
  end.

Definition find (fuel : nat) (path : string) (maxdepth : option Z)
           (withdirs detail : bool) : outcome result :=
  let path := _strip_protocol path in
  let '(evs, st) := walk fuel path maxdepth true in
  match collect withdirs evs [] path, st with
  | inl e, _ => Raise e
  | _, Raised e => Raise e
  | _, OutOfFuel => Timeout
  | inr (out, path), Done =>
      let out := if isfile path && negb (Dict.mem path out)
                 then Dict.set path None out else out in
      let names := Py.sorted (Dict.keys out) in
      if detail then
        Ok (Details (map (fun n => (n, match Dict.get n out with
                                       | Some v => v
                                       | None => None
                                       end)) names))
      else Ok (Names names)
  end.

(** [[o for o in out if o["name"].rstrip("/") == path]] *)
Fixpoint named (path : string) (out : list item) : Py.exn + list Entry.t :=
  match out with
  | [] => inr []
  | Path _ :: _ => inl Py.TypeError
  | Info o :: rest =>
      match named path rest with
      | inl e => inl e
      | inr r =>
          inr (if Py.rstrip "/" (Entry.name o) =? path then o :: r else r)
      end
  end.

(** [ls(path, detail=True)] as [info] consumes it. *)
Definition ls_detail (path : string) : Py.exn + list item :=
  match ls path true false with
  | inl e => inl e
  | inr None => inl Py.TypeError
  | inr (Some out) => inr out
  end.

Definition info (path : string) : Py.exn + Entry.t :=
  let path := _strip_protocol path in
  match ls_detail (_parent path) with
  | inl e => inl e
  | inr out =>
      match named path out with
      | inl e => inl e
      | inr (o :: _) => inr o
      | inr [] =>
          match ls_detail path with
          | inl e => inl e
          | inr out =>
              let path := Py.rstrip "/" path in
              match named path out with
              | inl e => inl e
              | inr [o] => inr o
              | inr out1 =>
                  if (1 <? List.length out1)%nat
                     || negb (match out with [] => true | _ => false end)
                  then inr (Entry.mk path 0%Z "directory")
                  else inl Py.FileNotFoundError
              end
          end
      end
  end.

(** [exists]: any exception of [info] means no. *)
Definition exists_ (path : string) : bool :=
  match info path with
  | inr _ => true
  | inl _ => false
  end.

(** [path.find(c) if path.find(c) >= 0 else len(path)] *)
Definition index_or_len (c path : string) : nat :=
  if (0 <=? Py.find c path)%Z then Z.to_nat (Py.find c path)
  else String.length path.

(** The first part of [glob]: [root], [depth] and the pattern to search
    with, or the literal path to test for existence.  [ends] is
    [path.endswith("/")] of the path as given, [path] the stripped one. *)
Definition glob_plan (ends : bool) (path : string) : plan :=
  let indstar := index_or_len "*" path in
  let indques := index_or_len "?" path in
  let indbrace := index_or_len "[" path in
  let ind := Nat.min (Nat.min indstar indques) indbrace in
  if negb (has_magic path) then
    if ends then Search path 1 (path ++ "/*") else Literal path
  else if Py.contains "/" (Py.take ind path) then
    match Py.rindex "/" (Py.take ind path) with
    | None => Fails (Py.ValueError "substring not found")
    | Some ind2 =>
        Search (Py.take (ind2 + 1) path)
               (if Py.contains "**" path then 20
                else Z.of_nat (Py.count "/" (Py.drop (ind2 + 1) path) + 1))
               path
    end
  else
    Search "" (if Py.contains "**" path then 20 else 1) path.

(** The regular expression [glob] compiles from the path. *)
Definition glob_pattern (path : string) : string :=
  let escaped :=
    Py.replace "?" "."
      (Py.rstrip "/"
         (Py.replace "|" "\|"
            (Py.replace ")" "\)"
               (Py.replace "(" "\("
                  (Py.replace "//" "/"
                     (Py.replace "+" "\+"
                        (Py.replace "." "\."
                           (Py.replace "\" "\\" path)))))))) in
  let pattern := "^" ++ escaped ++ "$" in
  let pattern := Py.replace "**" "=PLACEHOLDER=" pattern in
  let pattern := Py.replace "*" "[^/]*" pattern in
  Py.replace "=PLACEHOLDER=" ".*" pattern.

Definition glob (fuel : nat) (path : string) (detail : bool)
  : outcome result :=
  let ends := Py.endswith "/" path in
  let path := _strip_protocol path in
  match glob_plan ends path with
  | Fails e => Raise e
  | Literal path =>
      if exists_ path then
        if negb detail then Ok (Names [path])
        else match info path with
             | inl e => Raise e
             | inr i => Ok (Details [(path, Some i)])
             end
      else
        if negb detail then Ok (Names []) else Ok (Details [])
  | Search root depth path =>
      match find fuel root (Some depth) true true with
      | Raise e => Raise e
      | Timeout => Timeout
      | Ok (Names _) => Raise Py.TypeError
      | Ok (Details allpaths) =>
          let pattern := glob_pattern path in
          let out :=
            filter (fun kv =>
                      re_match pattern
                        (Py.rstrip "/" (Py.replace "//" "/" (fst kv))))
                   (map (fun p => (p, match Dict.get p allpaths with
                                      | Some v => v
                                      | None => None
                                      end))
                        (Py.sorted (Dict.keys allpaths))) in
          if detail then Ok (Details out) else Ok (Names (Dict.keys out))
      end
  end.

End Methods.

End AzureBlobFileSystem.

(** ** A small account to run the definitions on

    One container ["c"] holding the blobs ["d/x"] (3 bytes) and ["f.txt"]
    (5 bytes); paths carry no protocol, so [infer_storage_options] returns
    them unchanged and without a host. *)

Module Demo.

Definition file_blob (n : string) (sz : Z) : Blob.t :=
  Blob.mk Blob.BlobProperties n (Some "c") (Some sz) (Some "BlockBlob") [].

Definition prefix_blob (n : string) (inside : list Blob.t) : Blob.t :=
  Blob.mk Blob.BlobPrefix n (Some "c") None None inside.

Definition demo_walk_blobs (c prefix : string) : Py.exn + list Blob.t :=
  if c =? "c" then
    if prefix =? "" then
      inr [prefix_blob "d/" [file_blob "d/x" 3]; file_blob "f.txt" 5]
    else if prefix =? "d" then inr [prefix_blob "d/" [file_blob "d/x" 3]]
    else if prefix =? "d/" then inr [file_blob "d/x" 3]
    else if prefix =? "d/x" then inr [file_blob "d/x" 3]
    else if prefix =? "f.txt" then inr [file_blob "f.txt" 5]
    else inr []
  else inl Py.SdkError.

(** [AbstractFileSystem._parent] on paths without protocol. *)
Definition demo_parent (path : string) : string :=
  let path := Py.lstrip "/" (Py.rstrip "/" path) in
  if Py.contains "/" path then Py.rsplit_head "/" path else "".

#[export] Instance account : Collaborators := {
  infer_storage_options := fun p => mk_storage_options p None;
  _parent := demo_parent;
  isfile := fun _ => false;
  re_match := fun pattern s => pattern =? "^" ++ s ++ "$";
  list_containers :=
    [Blob.mk Blob.ContainerProperties "c" None None None []];
  walk_blobs := demo_walk_blobs
}.

(** An account whose container ["c"] holds, side by side, the block blob
    ["f.txt"] (5 bytes) and the append blob ["log"] (7 bytes); the listing
    under a prefix returns the blobs whose names start with it.  The
    inherited [isfile] answers no. *)
Definition log_blob : Blob.t :=
  Blob.mk Blob.BlobProperties "log" (Some "c") (Some 7%Z) (Some "AppendBlob")
          [].

Definition append_walk_blobs (c prefix : string) : Py.exn + list Blob.t :=
  if c =? "c" then
    inr (filter (fun b => String.prefix prefix (Blob.name b))
                [file_blob "f.txt" 5; log_blob])
  else inl Py.SdkError.

Definition append_account : Collaborators := {|
  infer_storage_options := fun p => mk_storage_options p None;
  _parent := demo_parent;
  isfile := fun _ => false;
  re_match := fun pattern s => pattern =? "^" ++ s ++ "$";
  list_containers :=
    [Blob.mk Blob.ContainerProperties "c" None None None []];
  walk_blobs := append_walk_blobs
|}.

(** The same account with a matcher that also knows the expression
    compiled from ["c/*"]: one segment below ["c/"]. *)
Definition wild_account : Collaborators := {|
  infer_storage_options := fun p => mk_storage_options p None;
  _parent := demo_parent;
  isfile := fun _ => false;
  re_match := fun pattern s =>
    if pattern =? "^c/[^/]*$"
    then String.prefix "c/" s && (Py.count "/" s =? 1)%nat
    else pattern =? "^" ++ s ++ "$";
  list_containers :=
    [Blob.mk Blob.ContainerProperties "c" None None None []];
  walk_blobs := demo_walk_blobs
|}.

(** The same account, where the listing under ["p"] comes back as a single
    page collection that carries the blob type of a page blob. *)
Definition paged_blob : Blob.t :=
  Blob.mk Blob.ItemPaged "p" (Some "c") None (Some "PageBlob") [].

Definition paged_walk_blobs (c prefix : string) : Py.exn + list Blob.t :=
  if (c =? "c") && (prefix =? "p") then inr [paged_blob]
  else demo_walk_blobs c prefix.

Definition paged_account : Collaborators := {|
  infer_storage_options := fun p => mk_storage_options p None;
  _parent := demo_parent;
  isfile := fun _ => false;
  re_match := fun pattern s => pattern =? "^" ++ s ++ "$";
  list_containers :=
    [Blob.mk Blob.ContainerProperties "c" None None None []];
  walk_blobs := paged_walk_blobs
|}.

(** A handle opened for writing on ["c/new"], with two-byte blocks. *)
Definition fresh_remote : AzureBlobFile.remote :=
  AzureBlobFile.mk_remote None [] None false.

Definition fresh_world : AzureBlobFile.world :=
  AzureBlobFile.mk_world (AzureBlobFile.open_write "c/new" "wb" 2)
                         fresh_remote [].

Definition two_bytes : AzureBlobFile.bytes := [Byte.x61; Byte.x62].

End Demo.

(** ** Writes of any size

    What the buffering of [write] amounts to: the blocks staged so far and
    the bytes still in the buffer. *)

Module Buffering.

Import AzureBlobFile.

(** One [write(d)]: the buffer grows by [d] and is staged as a block once
    it holds [blocksize] bytes. *)
Definition chunk (blocksize : nat) (st : list bytes * bytes) (d : bytes)
  : list bytes * bytes :=
  if (blocksize <=? List.length (snd st ++ d))%nat
  then ((fst st ++ [(snd st ++ d)%list])%list, [])
  else (fst st, (snd st ++ d)%list).

Definition chunks (blocksize : nat) (datas : list bytes) : list bytes * bytes :=
  fold_left (chunk blocksize) datas ([], []).

(** The handle and the remote once [blocks] have been staged and [buf] is
    buffered, on a handle opened on the remote [r0]. *)
Definition buffered (path mode : string) (blocksize : nat) (r0 : remote)
           (inv : list string) (st : list bytes * bytes) : world :=
  match fst st with
  | [] =>
      mk_world (mk path mode blocksize false false (snd st) None
                   (List.length (snd st)) None)
               r0 inv
  | _ =>
      mk_world
        (mk path mode blocksize false false (snd st)
            (Some (written (fst st)))
            (written (fst st) + List.length (snd st))
            (Some (block_ids (List.length (fst st)))))
        (mk_remote None
                   (rev (combine (block_ids (List.length (fst st))) (fst st))
                    ++ staged r0)%list
                   (committed r0) false)
        inv
  end.

End Buffering.

(** ** Shapes of listings and entries *)

Module Shapes.

Import AzureBlobFileSystem.

(** An entry is a directory of size 0 or a file of another size. *)
Definition typed (e : Entry.t) : Prop :=
  (Entry.type e = "directory" /\ Entry.size e = 0%Z)
  \/ (Entry.type e = "file" /\ Entry.size e <> 0%Z).

(** The shape of an item of a listing: a details dict of a blob when
    details were asked for, a string otherwise. *)
Definition shaped (detail : bool) (i : item) : Prop :=
  if detail then exists b g, i = Info (_details b g)
  else exists p, i = Path p.

End Shapes.

(** ** Methods that change the account

    [mkdir], [rmdir] and [rm_file] decide from [split_path], [ls] and [info]
    which single call to send to the service; [expand_path] prepares the
    paths [rm] deletes.  A call is recorded, and [service] gives the
    exception the service answers it with, if any. *)

Module ServiceCalls.

Import AzureBlobFileSystem.

Inductive call : Type :=
| CreateContainer (name : string)
| UploadBlob (container name : string)
| DeleteContainer (container : string)
| DeleteBlob (container name : string).

(** A path given as one [str], or as a list of them. *)
Inductive paths : Type :=
| One (p : string)
| Many (ps : list string).

(** [s in l] for a list [ls] returned: a string equals no dict. *)
Definition contains_item (s : string) (l : list item) : bool :=
  existsb (fun i => match i with
                    | Path p => p =? s
                    | Info _ => false
                    end) l.

(** [[container_path.split("/")[0] for container_path in l]]: a dict has
    no [split]. *)
Fixpoint first_parts (l : list item) : Py.exn + list string :=
  match l with
  | [] => inr []
  | Info _ :: _ => inl Py.AttributeError
  | Path p :: rest =>
      match first_parts rest with
      | inl e => inl e
      | inr r =>
          inr (match Py.split_once "/" p with
               | Some (x, _) => x
               | None => p
               end :: r)
      end
  end.

(** [set.add] and [set |= ...] on a set kept as a list without
    repetitions; the order is that of first insertion and is not observed,
    [expand_path] sorts before it returns. *)
Definition set_add (x : string) (s : list string) : list string :=
  if Py.mem x s then s else (s ++ [x])%list.

Definition set_union (s : list string) (l : list string) : list string :=
  fold_left (fun s x => set_add x s) l s.

(** Iterating what [glob] or [find] returned: the names, or the keys of
    the dict. *)
Definition iterate (r : result) : list string :=
  match r with
  | Names l => l
  | Details d => Dict.keys d
  end.

Section Methods.

Context `{Collaborators}.
Variable service : call -> option Py.exn.

Definition issue (c : call) : list call * option Py.exn := ([c], service c).

(** [await self.ls("")], as the operand of [in] or of a comprehension:
    [None] is not iterable. *)
Definition ls_root : Py.exn + list item :=
  match ls "" false false with
  | inl e => inl e
  | inr None => inl Py.TypeError
  | inr (Some l) => inr l
  end.

Definition mkdir (path : string) (exists_ok : bool)
  : list call * option Py.exn :=
  let '(container_name, path) := split_path path in
  if negb exists_ok then
    match ls_root with
    | inl e => ([], Some e)
    | inr l =>
        if negb (contains_item container_name l) && (path =? "") then
          issue (CreateContainer container_name)
        else
          match ls_root with
          | inl e => ([], Some e)
          | inr l' =>
              match first_parts l' with
              | inl e => ([], Some e)
              | inr heads =>
                  if Py.mem container_name heads && negb (path =? "") then
                    issue (UploadBlob container_name path)
                  else
                    ([], Some (Py.RuntimeError
                                 ("Cannot create " ++ container_name ++ "/"
                                  ++ path ++ ".")))
              end
          end
    end
  else
    match ls_root with
    | inl e => ([], Some e)
    | inr l =>
        if contains_item container_name l && negb (path =? "") then
          issue (UploadBlob container_name path)
        else ([], None)
    end.

Definition rmdir (path : string) : list call * option Py.exn :=
  let '(container_name, path) := split_path path in
  match ls_root with
  | inl e => ([], Some e)
  | inr l =>
      if contains_item (container_name ++ "/") l && (path =? "") then
        issue (DeleteContainer container_name)
      else ([], None)
  end.

(** [size]: the entry [info] returns always carries a size. *)
Definition size (path : string) : Py.exn + Z :=
  match info path with
  | inl e => inl e
  | inr res => inr (Entry.size res)
  end.

Definition rm_file (path : string) : list call * option Py.exn :=
  let attempt :=
    match info path with
    | inl e => ([], Some e)
    | inr kind =>
        let kind := Entry.type kind in
        if kind =? "file" then
          let '(container_name, path) := split_path path in
          issue (DeleteBlob container_name path)
        else if kind =? "directory" then
          let '(container_name, path) := split_path path in
          match ls_root with
          | inl e => ([], Some e)
          | inr l =>
              if contains_item (container_name ++ "/") l && (path =? "") then
                issue (DeleteContainer container_name)
              else ([], None)
          end
        else
          ([], Some (Py.RuntimeError ("Unable to delete " ++ path ++ "!")))
    end in
  (* [except FileNotFoundError: pass] *)
  match attempt with
  | (calls, Some Py.FileNotFoundError) => (calls, None)
  | _ => attempt
  end.

End Methods.

Section ExpandPath.

Context `{Collaborators}.

(** [expand_path(path, recursive, maxdepth)]; the fuel bounds the depth of
    the calls of the method to itself and is handed on to [glob] and
    [find].  [maxdepth] is handed to the call on [[path]] and to nothing
    else. *)
Fixpoint expand_path (fuel : nat) (path : paths) (recursive : bool)
         (maxdepth : option Z) : outcome (list string) :=
  match fuel with
  | 0 => Timeout
  | S fuel' =>
      let out :=
        match path with
        | One p => expand_path fuel' (Many [p]) recursive maxdepth
        | Many ps =>
            (fix loop (ps : list string) (out : list string)
               : outcome (list string) :=
               match ps with
               | [] => Ok out
               | p :: rest =>
                   if has_magic p then
                     match glob fuel' p false with
                     | Raise e => Raise e
                     | Timeout => Timeout
                     | Ok bit =>
                         let out := set_union out (iterate bit) in
                         if recursive then
                           (* [out += ...] on a set, once the right-hand
                              side has been computed *)
                           match expand_path fuel' (One p) false None with
                           | Raise e => Raise e
                           | Timeout => Timeout
                           | Ok _ => Raise Py.TypeError
                           end
                         else loop rest out
                     end
                   else if recursive then
                     match find fuel' p None true false with
                     | Raise e => Raise e
                     | Timeout => Timeout
                     | Ok found =>
                         loop rest (set_add p (set_union out (iterate found)))
                     end
                   else loop rest (set_add p out)
               end) ps []
        end in
      match out with
      | Ok [] => Raise Py.FileNotFoundError
      | Ok out => Ok (Py.sorted out)
      | other => other
      end
  end.

(** The loop of [expand_path] over a list of paths. *)
Definition expand_loop (fuel : nat) (recursive : bool) :=
  fix loop (ps : list string) (out : list string) : outcome (list string) :=
    match ps with
    | [] => Ok out
    | p :: rest =>
        if has_magic p then
          match glob fuel p false with
          | Raise e => Raise e
          | Timeout => Timeout
          | Ok bit =>
              let out := set_union out (iterate bit) in
              if recursive then
                match expand_path fuel (One p) false None with
                | Raise e => Raise e
                | Timeout => Timeout
                | Ok _ => Raise Py.TypeError
                end
              else loop rest out
          end
        else if recursive then
          match find fuel p None true false with
          | Raise e => Raise e
          | Timeout => Timeout
          | Ok found => loop rest (set_add p (set_union out (iterate found)))
          end
        else loop rest (set_add p out)
    end.

End ExpandPath.

End ServiceCalls.

(** * Properties *)

(** ** Block IDs: [f"{n:07d}"] *)

Section BlockIds.

Local Open Scope N_scope.

Lemma digit_char_code (d : N) : d < 10 -> N_of_ascii (Py.digit_char d) = 48 + d.
Proof.
  intros Hd. unfold Py.digit_char. apply N_ascii_embedding. lia.
Qed.

Lemma div10_fuel (n P : N) : 0 < P -> n < 2 * P -> n / 10 < P.
Proof.
  intros HP Hn.
  pose proof (N.Div0.mul_div_le n 10). lia.
Qed.

Lemma div10_zero (n : N) : n / 10 = 0 -> n mod 10 = n.
Proof.
  intros Hq. pose proof (N.div_mod n 10 ltac:(lia)) as E.
  rewrite Hq in E. lia.
Qed.

Lemma pow2_S (f : nat) : 2 ^ N.of_nat (S f) = 2 * 2 ^ N.of_nat f.
Proof.
  rewrite Nnat.Nat2N.inj_succ, N.pow_succ_r by lia. reflexivity.
Qed.

Lemma pow2_pos (f : nat) : 0 < 2 ^ N.of_nat f.
Proof.
  pose proof (N.pow_nonzero 2 (N.of_nat f) ltac:(lia)). lia.
Qed.

(** Reading the digits [decimal_aux] writes gives the number back. *)
Lemma decimal_aux_int (fuel : nat) :
  forall n acc, n < 2 ^ N.of_nat fuel ->
    Py.int (Py.decimal_aux fuel n acc) = Py.int_acc n acc.
Proof.
  induction fuel as [|f IH]; intros n acc Hn.
  - cbn in Hn. assert (n = 0) by lia. subst. reflexivity.
  - cbn [Py.decimal_aux].
    pose proof (N.mod_lt n 10 ltac:(lia)) as Hr.
    destruct (N.eqb_spec (n / 10) 0) as [Hq|Hq].
    + unfold Py.int. cbn [Py.int_acc].
      rewrite digit_char_code by assumption.
      rewrite (div10_zero n Hq). f_equal. lia.
    + rewrite IH.
      * cbn [Py.int_acc]. rewrite digit_char_code by assumption.
        f_equal. pose proof (N.div_mod n 10 ltac:(lia)) as E.
        generalize dependent (n / 10). generalize dependent (n mod 10).
        intros; lia.
      * rewrite pow2_S in Hn. apply div10_fuel; [apply pow2_pos | assumption].
Qed.

Lemma int_acc_zeros (k : nat) (s : string) :
  Py.int_acc 0 (Py.zeros k ++ s) = Py.int_acc 0 s.
Proof.
  induction k as [|k IH]; [reflexivity|].
  cbn [Py.zeros String.append Py.int_acc]. exact IH.
Qed.

Lemma decimal_fuel (n : N) : n < 2 ^ N.of_nat (S (N.to_nat (N.size n))).
Proof.
  rewrite pow2_S, Nnat.N2Nat.id.
  pose proof (N.size_gt n). lia.
Qed.

(** [int(f"{n:07d}") == n], for every [n]. *)
Lemma format_07d_int (n : nat) : Py.int (Py.format_07d n) = N.of_nat n.
Proof.
  unfold Py.format_07d, Py.zfill, Py.int.
  rewrite int_acc_zeros.
  change (Py.int_acc 0 (Py.decimal (N.of_nat n)))
    with (Py.int (Py.decimal (N.of_nat n))).
  unfold Py.decimal. rewrite decimal_aux_int by apply decimal_fuel.
  reflexivity.
Qed.

Lemma format_07d_inj (i j : nat) : Py.format_07d i = Py.format_07d j -> i = j.
Proof.
  intros E. apply (f_equal Py.int) in E.
  rewrite !format_07d_int in E. lia.
Qed.


Lemma zeros_snoc (k : nat) (s : string) :
  (Py.zeros k ++ String "0" s)%string = String "0" (Py.zeros k ++ s).
Proof.
  induction k as [|k IH]; [reflexivity|].
  cbn [Py.zeros String.append]. rewrite IH. reflexivity.
Qed.

Lemma fixed_zero (w : nat) :
  forall acc, Py.fixed w 0 acc = (Py.zeros w ++ acc)%string.
Proof.
  induction w as [|w IH]; intros acc; [reflexivity|].
  cbn [Py.fixed]. change (0 / 10) with 0. change (0 mod 10) with 0.
  rewrite IH. change (Py.digit_char 0) with "0"%char.
  rewrite zeros_snoc. reflexivity.
Qed.

Lemma fixed_length (w : nat) :
  forall n acc, String.length (Py.fixed w n acc) = (w + String.length acc)%nat.
Proof.
  induction w as [|w IH]; intros n acc; [reflexivity|].
  cbn [Py.fixed]. rewrite IH. cbn [String.length]. lia.
Qed.

Lemma decimal_aux_length (fuel : nat) :
  forall n acc,
    (String.length acc <= String.length (Py.decimal_aux fuel n acc))%nat.
Proof.
  induction fuel as [|f IH]; intros n acc; [cbn; lia|].
  cbn [Py.decimal_aux].
  destruct (n / 10 =? 0).
  - cbn [String.length]. lia.
  - etransitivity; [|apply IH]. cbn [String.length]. lia.
Qed.

Lemma pow10_S (w : nat) : 10 ^ N.of_nat (S w) = 10 * 10 ^ N.of_nat w.
Proof.
  rewrite Nnat.Nat2N.inj_succ, N.pow_succ_r by lia. reflexivity.
Qed.

Lemma div10_bound (n P : N) : n < 10 * P -> n / 10 < P.
Proof.
  intros Hn. apply N.Div0.div_lt_upper_bound. assumption.
Qed.

(** Below [10^w], padding [str(n)] to width [w] gives the [w] digits of
    [n]. *)
Lemma decimal_aux_fixed (fuel : nat) :
  forall n acc w,
    n < 2 ^ N.of_nat fuel -> n < 10 ^ N.of_nat (S w) ->
    (Py.zeros (S w + String.length acc
               - String.length (Py.decimal_aux fuel n acc))
     ++ Py.decimal_aux fuel n acc)%string
    = Py.fixed (S w) n acc.
Proof.
  induction fuel as [|f IH]; intros n acc w Hn Hw.
  - cbn in Hn. assert (n = 0) by lia. subst n.
    cbn [Py.decimal_aux]. rewrite fixed_zero.
    replace (S w + String.length acc - String.length acc)%nat with (S w) by lia.
    reflexivity.
  - cbn [Py.decimal_aux Py.fixed].
    destruct (N.eqb_spec (n / 10) 0) as [Hq|Hq].
    + rewrite Hq, fixed_zero. cbn [String.length].
      replace (S w + String.length acc - S (String.length acc))%nat
        with w by lia.
      reflexivity.
    + rewrite pow10_S in Hw. apply div10_bound in Hw.
      destruct w as [|w].
      { change (10 ^ N.of_nat 0) with 1 in Hw.
        revert Hq Hw. generalize (n / 10). intros; lia. }
      rewrite <- IH.
      * cbn [String.length].
        replace (S (S w) + String.length acc)%nat
          with (S w + S (String.length acc))%nat by lia.
        reflexivity.
      * rewrite pow2_S in Hn. apply div10_fuel; [apply pow2_pos|assumption].
      * assumption.
Qed.

Lemma format_07d_fixed (n : nat) :
  N.of_nat n < 10 ^ 7 -> Py.format_07d n = Py.fixed 7 (N.of_nat n) "".
Proof.
  intros Hn. unfold Py.format_07d, Py.zfill, Py.decimal.
  rewrite <- (decimal_aux_fixed (S (N.to_nat (N.size (N.of_nat n))))
                (N.of_nat n) "" 6).
  - reflexivity.
  - apply decimal_fuel.
  - exact Hn.
Qed.

Lemma compare_digits (n m : N) :
  (n ?= m) = match n / 10 ?= m / 10 with
             | Eq => n mod 10 ?= m mod 10
             | c => c
             end.
Proof.
  pose proof (N.div_mod n 10 ltac:(lia)) as En.
  pose proof (N.div_mod m 10 ltac:(lia)) as Em.
  pose proof (N.mod_lt n 10 ltac:(lia)) as Hn.
  pose proof (N.mod_lt m 10 ltac:(lia)) as Hm.
  revert En Em Hn Hm.
  generalize (n / 10) (n mod 10) (m / 10) (m mod 10).
  intros q1 r1 q2 r2 En Em Hn Hm.
  destruct (N.compare_spec q1 q2) as [E|L|G].
  - subst q2. destruct (N.compare_spec r1 r2) as [E'|L'|G'].
    + apply N.compare_eq_iff. lia.
    + apply N.compare_lt_iff. lia.
    + apply N.compare_gt_iff. lia.
  - apply N.compare_lt_iff. lia.
  - apply N.compare_gt_iff. lia.
Qed.

Lemma digit_char_compare (a b : N) :
  a < 10 -> b < 10 ->
  Ascii.compare (Py.digit_char a) (Py.digit_char b) = (a ?= b).
Proof.
  intros Ha Hb. unfold Ascii.compare.
  rewrite !digit_char_code by assumption.
  destruct (N.compare_spec a b) as [E|L|G].
  - apply N.compare_eq_iff. lia.
  - apply N.compare_lt_iff. lia.
  - apply N.compare_gt_iff. lia.
Qed.

(** Strings of [w] digits compare like the numbers they denote. *)
Lemma fixed_compare (w : nat) :
  forall n m a1 a2,
    n < 10 ^ N.of_nat w -> m < 10 ^ N.of_nat w ->
    String.compare (Py.fixed w n a1) (Py.fixed w m a2)
    = match n ?= m with
      | Eq => String.compare a1 a2
      | c => c
      end.
Proof.
  induction w as [|w IH]; intros n m a1 a2 Hn Hm.
  - cbn in Hn, Hm. assert (n = 0) by lia. assert (m = 0) by lia.
    subst. reflexivity.
  - cbn [Py.fixed]. rewrite pow10_S in Hn, Hm.
    rewrite IH by (apply div10_bound; assumption).
    rewrite (compare_digits n m).
    destruct (n / 10 ?= m / 10); try reflexivity.
    cbn [String.compare].
    rewrite digit_char_compare by (apply N.mod_lt; lia).
    reflexivity.
Qed.

(** Below [10^7] the IDs have seven characters and are ordered, as
    strings, like their numbers. *)
Lemma format_07d_length (n : nat) :
  N.of_nat n < 10 ^ 7 -> String.length (Py.format_07d n) = 7%nat.
Proof.
  intros Hn. rewrite format_07d_fixed by assumption.
  rewrite fixed_length. reflexivity.
Qed.

Lemma format_07d_ltb (i j : nat) :
  (i < j)%nat -> N.of_nat j < 10 ^ 7 ->
  String.ltb (Py.format_07d i) (Py.format_07d j) = true.
Proof.
  intros Hij Hj.
  assert (Hi : N.of_nat i < 10 ^ 7) by lia.
  rewrite !format_07d_fixed by assumption.
  unfold String.ltb.
  rewrite (fixed_compare 7) by assumption.
  assert (L : N.of_nat i < N.of_nat j) by lia.
  apply N.compare_lt_iff in L. rewrite L. reflexivity.
Qed.

End BlockIds.

(** ** Seek on a Gen1 handle *)

Section Seek.

Import AzureDatalakeFile.
Local Open Scope Z_scope.

Lemma seek_not_reading (self : t) (loc0 whence : Z) :
  mode self <> "rb" ->
  seek self loc0 whence
  = inl (Py.ValueError "Seek only available in read mode").
Proof.
  intros Hm. unfold seek.
  destruct (String.eqb_spec (mode self) "rb") as [E|E]; [contradiction|].
  reflexivity.
Qed.

(** C8.  On a handle opened with mode ["rb"] over an object of size
    [size self >= 0]: [seek(-1, 0)] raises [ValueError]; so does every
    seek whose target offset is negative, whatever the [whence], and every
    seek with a [whence] other than 0, 1 or 2; [seek(0, 2)] moves the
    cursor to the size of the object and returns it.  On any handle whose
    mode is not ["rb"], every seek raises [ValueError]. *)
Theorem seek_bounds (self : t)
        (Hmode : mode self = "rb") (Hsize : 0 <= size self) :
  seek self (-1) 0 = inl (Py.ValueError "Seek before start of file")
  /\ (forall loc0, loc0 < 0 ->
        seek self loc0 0 = inl (Py.ValueError "Seek before start of file"))
  /\ (forall loc0, loc self + loc0 < 0 ->
        seek self loc0 1 = inl (Py.ValueError "Seek before start of file"))
  /\ (forall loc0, size self + loc0 < 0 ->
        seek self loc0 2 = inl (Py.ValueError "Seek before start of file"))
  /\ (forall loc0 whence, whence <> 0 -> whence <> 1 -> whence <> 2 ->
        seek self loc0 whence
        = inl (Py.ValueError ("invalid whence (" ++ Py.str_Z whence
                              ++ ", should be 0, 1 or 2)")))
  /\ seek self 0 2 = inr (mk "rb" (size self) (size self), size self)
  /\ (forall other loc0 whence, mode other <> "rb" ->
        exists msg, seek other loc0 whence = inl (Py.ValueError msg)).
Proof.
  unfold seek. rewrite Hmode. cbn [String.eqb Ascii.eqb Bool.eqb negb].
  repeat split.
  - intros loc0 Hneg. cbn [Z.eqb Pos.eqb].
    destruct (Z.ltb_spec loc0 0); [reflexivity|lia].
  - intros loc0 Hneg. cbn [Z.eqb Pos.eqb].
    destruct (Z.ltb_spec (loc self + loc0) 0); [reflexivity|lia].
  - intros loc0 Hneg. cbn [Z.eqb Pos.eqb].
    destruct (Z.ltb_spec (size self + loc0) 0); [reflexivity|lia].
  - intros loc0 whence H0 H1 H2.
    destruct (Z.eqb_spec whence 0); [contradiction|].
    destruct (Z.eqb_spec whence 1); [contradiction|].
    destruct (Z.eqb_spec whence 2); [contradiction|].
    reflexivity.
  - cbn [Z.eqb Pos.eqb]. rewrite Z.add_0_r.
    destruct (Z.ltb_spec (size self) 0); [lia|reflexivity].
  - intros other loc0 whence Hm. eexists.
    apply seek_not_reading. exact Hm.
Qed.

End Seek.

(** ** The details of a listing entry *)

Section DetailsProps.

Import AzureBlobFileSystem.

(** C9.  The entry [_details] builds has type ["directory"] exactly when
    its size is 0, and type ["file"] otherwise; in particular a block blob
    of zero bytes comes out as a directory. *)
Theorem details_directory_iff_empty (content : Blob.t) (return_glob : bool) :
  (Entry.type (_details content return_glob) =? "directory")
  = (Entry.size (_details content return_glob) =? 0)%Z
  /\ (Entry.type (_details content return_glob) =? "file")
     = negb (Entry.size (_details content return_glob) =? 0)%Z
  /\ (forall k c n bt ch,
        _details (Blob.mk k n (Some c) (Some 0%Z) bt ch) false
        = Entry.mk (c ++ "/" ++ n) 0 "directory").
Proof.
  split; [|split].
  - unfold _details.
    destruct (Blob.container content);
      [destruct (Blob.size content) as [sz|];
       [destruct (Z.eqb sz 0) eqn:E|]|];
      destruct return_glob; cbn [Entry.type Entry.size];
      rewrite ?E; reflexivity.
  - unfold _details.
    destruct (Blob.container content);
      [destruct (Blob.size content) as [sz|];
       [destruct (Z.eqb sz 0) eqn:E|]|];
      destruct return_glob; cbn [Entry.type Entry.size];
      rewrite ?E; reflexivity.
  - reflexivity.
Qed.

End DetailsProps.

(** ** The writer: what a forced flush leaves behind *)

Section WriterState.

Import AzureBlobFile.
Context `{Collaborators}.

Lemma keeps_refl (w : world) : keeps w w.
Proof. split; auto. Qed.

Lemma keeps_trans (w1 w2 w3 : world) :
  keeps w1 w2 -> keeps w2 w3 -> keeps w1 w3.
Proof.
  intros [M1 F1] [M2 F2]. split; [congruence | auto].
Qed.

Lemma keeping_ret {A} (a : A) : keeping (ret a).
Proof. intros w. apply keeps_refl. Qed.

Lemma keeping_raise {A} (e : Py.exn) : keeping (@raise A e).
Proof. intros w. apply keeps_refl. Qed.

Lemma keeping_bind {A B} (c : M A) (k : A -> M B) :
  keeping c -> (forall a, keeping (k a)) -> keeping (bind c k).
Proof.
  intros Hc Hk w. unfold bind. specialize (Hc w).
  destruct (c w) as [[e|a] w']; cbn [snd] in *; [assumption|].
  eapply keeps_trans; [eassumption | apply Hk].
Qed.

Lemma keeping_get : keeping get.
Proof. intros w. apply keeps_refl. Qed.

Lemma keeping_get_store : keeping get_store.
Proof. intros w. apply keeps_refl. Qed.

Lemma keeping_set_store (f : remote -> remote) : keeping (set_store f).
Proof. intros w. split; auto. Qed.

Lemma keeping_set_file (f : t -> t) :
  (forall x, mode (f x) = mode x) ->
  (forall x, forced x = true -> forced (f x) = true) ->
  keeping (set_file f).
Proof. intros Hm Hf w. split; cbn; auto. Qed.

Lemma keeping_invalidate (p : string) : keeping (invalidate_cache p).
Proof. intros w. split; auto. Qed.

Lemma keeping_if {A} (b : bool) (c1 c2 : M A) :
  keeping c1 -> keeping c2 -> keeping (if b then c1 else c2).
Proof. destruct b; auto. Qed.

Ltac keep :=
  repeat first
    [ apply keeping_ret | apply keeping_raise | apply keeping_get
    | apply keeping_get_store | apply keeping_set_store
    | apply keeping_invalidate
    | apply keeping_set_file; [intros []; reflexivity | intros []; cbn; auto]
    | apply keeping_if
    | apply keeping_bind; [|intros ?]
    | match goal with
      | |- keeping (match ?x with _ => _ end) => destruct x
      end ].

Lemma keeping_delete_blob : keeping delete_blob.
Proof. unfold delete_blob. keep. Qed.

Lemma keeping_stage_block (i : string) (d : bytes) : keeping (stage_block i d).
Proof. unfold stage_block. keep. Qed.

Lemma keeping_commit (ids : list string) : keeping (commit_block_list ids).
Proof. unfold commit_block_list. keep. Qed.

Lemma keeping_initiate : keeping _initiate_upload.
Proof.
  unfold _initiate_upload.
  apply keeping_bind; [keep|intros _].
  apply keeping_bind; [apply keeping_delete_blob|intros o].
  keep.
Qed.

Lemma keeping_upload_chunk (final : bool) : keeping (_upload_chunk final).
Proof.
  unfold _upload_chunk.
  apply keeping_bind; [keep|intros self].
  destruct (block_list self); [|keep].
  apply keeping_bind; [apply keeping_stage_block|intros _].
  apply keeping_bind; [keep|intros _].
  apply keeping_if; [apply keeping_commit|keep].
Qed.

Lemma keeping_flush (force : bool) : keeping (flush force).
Proof.
  unfold flush.
  apply keeping_bind; [keep|intros self].
  repeat (apply keeping_if; [keep|]).
  apply keeping_bind; [keep|intros _].
  repeat (apply keeping_if; [keep|]).
  apply keeping_bind.
  { destruct (offset self); [keep|].
    apply keeping_bind; [keep|intros _]. apply keeping_initiate. }
  intros _.
  apply keeping_bind; [apply keeping_upload_chunk|intros _].
  keep.
Qed.

Lemma keeping_write (data : bytes) : keeping (write data).
Proof.
  unfold write.
  apply keeping_bind; [keep|intros self].
  repeat (apply keeping_if; [keep|]).
  apply keeping_bind; [keep|intros _].
  apply keeping_bind; [keep|intros _].
  apply keeping_bind; [keep|intros self'].
  apply keeping_bind; [|keep].
  apply keeping_if; [apply keeping_flush|keep].
Qed.

Lemma keeping_close : keeping close.
Proof.
  unfold close.
  apply keeping_bind; [keep|intros self].
  apply keeping_if; [keep|].
  apply keeping_bind; [|keep].
  apply keeping_if; [keep|].
  apply keeping_bind; [|keep].
  apply keeping_if; [apply keeping_flush|keep].
Qed.

Lemma keeps_perform (c : call) (w : world) : keeps w (perform c w).
Proof.
  destruct c; cbn [perform].
  - apply keeping_write.
  - apply keeping_flush.
  - apply keeping_close.
Qed.

Lemma keeps_perform_all (cs : list call) :
  forall w, keeps w (perform_all cs w).
Proof.
  induction cs as [|c cs IH]; intros w; cbn.
  - apply keeps_refl.
  - eapply keeps_trans; [apply keeps_perform | apply IH].
Qed.

(** A forced flush that returns has set [forced]. *)
Lemma flush_force_sets_forced (w w1 : world) :
  flush true w = (inr tt, w1) -> forced (file w1) = true.
Proof.
  unfold flush, bind at 1, get. cbn [andb negb].
  destruct (closed (file w)); [discriminate|].
  destruct (forced (file w)); [discriminate|].
  unfold bind at 1.
  cbn [set_file].
  match goal with
  | |- ?rest ?w' = _ -> _ =>
      intros E; assert (K : keeping rest);
      [| specialize (K w'); rewrite E in K; destruct K as [_ K];
         apply K; reflexivity]
  end.
  apply keeping_if; [keep|].
  apply keeping_bind.
  { destruct (offset (file w)); [keep|].
    apply keeping_bind; [keep|intros _]. apply keeping_initiate. }
  intros _.
  apply keeping_bind; [apply keeping_upload_chunk|intros _].
  keep.
Qed.

(** What [write] and a forced [flush] answer on a write-mode handle that
    has been force-flushed. *)
Lemma write_after_force (w : world) (data : bytes) :
  write_mode (mode (file w)) = true -> forced (file w) = true ->
  exists msg, write data w = (inl (Py.ValueError msg), w).
Proof.
  intros Hm Hf. unfold write, bind, get. rewrite Hm, Hf. cbn [negb].
  destruct (closed (file w)); eexists; reflexivity.
Qed.

Lemma write_mode_not_rb (m : string) : write_mode m = true -> (m =? "rb") = false.
Proof.
  unfold write_mode. intros Hm. apply orb_true_iff in Hm.
  destruct Hm as [E|E]; apply String.eqb_eq in E; subst; reflexivity.
Qed.

Lemma flush_after_force (w : world) :
  write_mode (mode (file w)) = true -> forced (file w) = true ->
  exists msg, flush true w = (inl (Py.ValueError msg), w).
Proof.
  intros Hm Hf. unfold flush, bind, get.
  rewrite Hf. cbn [andb].
  destruct (closed (file w)); eexists; reflexivity.
Qed.

(** C2.  Once [flush(force=True)] has returned on a write-mode handle,
    then after any further calls on the handle, [write] raises
    [ValueError] and [flush(force=True)] raises [ValueError], and neither
    changes the handle or the remote. *)
Theorem forced_flush_is_terminal (w w1 : world) (calls : list call)
        (data : bytes)
        (Hmode : write_mode (mode (file w)) = true)
        (Hflush : flush true w = (inr tt, w1)) :
  let w2 := perform_all calls w1 in
  (exists msg, write data w2 = (inl (Py.ValueError msg), w2))
  /\ (exists msg, flush true w2 = (inl (Py.ValueError msg), w2)).
Proof.
  intros w2.
  pose proof (flush_force_sets_forced _ _ Hflush) as Hf1.
  pose proof (keeping_flush true w) as [Hm1 _].
  rewrite Hflush in Hm1. cbn [snd] in Hm1.
  pose proof (keeps_perform_all calls w1) as [Hm2 Hf2].
  fold w2 in Hm2, Hf2.
  assert (Hm : write_mode (mode (file w2)) = true) by congruence.
  split; [apply write_after_force | apply flush_after_force]; auto.
Qed.

End WriterState.

(** ** The writer: full blocks followed by a close *)

Section WriterBlocks.

Import AzureBlobFile.
Context `{Collaborators}.

Variables (path mode : string) (blocksize : nat) (r0 : remote)
          (inv : list string).
Hypothesis Hmode : write_mode mode = true.
Hypothesis Hdelete : delete_fails r0 = false.

Lemma block_ids_length (k : nat) : List.length (block_ids k) = k.
Proof. unfold block_ids. rewrite length_map, length_seq. reflexivity. Qed.

Lemma block_ids_S (k : nat) :
  block_ids (S k) = (block_ids k ++ [Py.format_07d k])%list.
Proof. unfold block_ids. rewrite seq_S, map_app. reflexivity. Qed.

Lemma written_app (ds : list bytes) (d : bytes) :
  written (ds ++ [d]) = written ds + List.length d.
Proof. unfold written. rewrite fold_left_app. reflexivity. Qed.

Lemma combine_snoc {A B} (l : list A) :
  forall (l' : list B) a b, List.length l = List.length l' ->
    combine (l ++ [a]) (l' ++ [b]) = (combine l l' ++ [(a, b)])%list.
Proof.
  induction l as [|x l IH]; intros [|y l'] a b E; try discriminate.
  - reflexivity.
  - cbn. rewrite IH by (cbn in E; lia). reflexivity.
Qed.

Lemma staged_step (ds : list bytes) (d : bytes) (old : list (string * bytes)) :
  ((Py.format_07d (List.length ds), d)
     :: rev (combine (block_ids (List.length ds)) ds) ++ old)%list
  = (rev (combine (block_ids (List.length (ds ++ [d]))) (ds ++ [d])) ++ old)%list.
Proof.
  rewrite length_app. cbn [List.length]. rewrite Nat.add_1_r, block_ids_S.
  rewrite combine_snoc by (rewrite block_ids_length; reflexivity).
  rewrite rev_app_distr. reflexivity.
Qed.


Local Arguments Py.format_07d : simpl never.
Local Arguments written : simpl never.
Local Arguments block_ids : simpl never.
Local Arguments Nat.leb : simpl never.
Local Arguments Nat.ltb : simpl never.

(** The first flush empties the key, whatever was there. *)
Lemma initiate_upload_ok (f : t) (r : remote) (i : list string) :
  delete_fails r = false ->
  _initiate_upload (mk_world f r i)
  = (inr tt, mk_world (with_block_list (Some []) f)
                      (mk_remote None (staged r) (committed r) false) i).
Proof.
  intros Hdel. destruct r as [obj st com df]. cbn in Hdel. subst df.
  unfold _initiate_upload, delete_blob, bind, set_file, get_store, set_store.
  cbn. destruct obj; reflexivity.
Qed.

Lemma upload_chunk_stage (f : t) (r : remote) (i : list string)
      (bl : list string) :
  block_list f = Some bl ->
  _upload_chunk false (mk_world f r i)
  = (inr tt,
     mk_world (with_block_list
                 (Some (bl ++ [Py.format_07d (List.length bl)])%list) f)
              (mk_remote (object r)
                         ((Py.format_07d (List.length bl), buffer f) :: staged r)
                         (committed r) (delete_fails r)) i).
Proof.
  intros Hbl. unfold _upload_chunk, bind, get. cbn. rewrite Hbl.
  reflexivity.
Qed.

Lemma upload_chunk_final (f : t) (r : remote) (i : list string)
      (bl : list string) (content : bytes) :
  block_list f = Some bl ->
  assemble (bl ++ [Py.format_07d (List.length bl)])%list
           ((Py.format_07d (List.length bl), buffer f) :: staged r)
  = Some content ->
  _upload_chunk true (mk_world f r i)
  = (inr tt,
     mk_world (with_block_list
                 (Some (bl ++ [Py.format_07d (List.length bl)])%list) f)
              (mk_remote (Some content)
                         ((Py.format_07d (List.length bl), buffer f) :: staged r)
                         (Some (bl ++ [Py.format_07d (List.length bl)])%list)
                         (delete_fails r)) i).
Proof.
  intros Hbl Hasm. unfold _upload_chunk, bind, get. cbn. rewrite Hbl.
  unfold commit_block_list, bind, get_store, stage_block, set_store, set_file.
  cbn. rewrite Hasm. reflexivity.
Qed.

Local Arguments flush : simpl never.
Local Arguments _initiate_upload : simpl never.
Local Arguments _upload_chunk : simpl never.

Lemma write_progress (ds : list bytes) (d : bytes) :
  List.length d = blocksize ->
  write d (progress path mode blocksize r0 inv ds)
  = (inr blocksize, progress path mode blocksize r0 inv (ds ++ [d])).
Proof.
  intros Hd.
  destruct ds as [|d0 ds'].
  - unfold write, bind at 1 2 3 4, get, progress, open_write, set_file.
    cbn. rewrite Hmode. cbn. rewrite Hd, Nat.leb_refl.
    unfold flush, bind at 1 2 3, get, set_file. cbn. rewrite Hmode. cbn.
    rewrite Hd, Nat.ltb_irrefl.
    unfold bind, get, set_file. cbn -[_initiate_upload _upload_chunk].
    rewrite initiate_upload_ok by assumption.
    erewrite upload_chunk_stage by reflexivity.
    cbn. unfold ret, with_buffer, with_offset, with_block_list, with_loc.
    cbn. unfold written, block_ids. cbn. rewrite Hd. reflexivity.
  - remember (d0 :: ds') as ds eqn:Eds.
    assert (Hne : progress path mode blocksize r0 inv ds
                  = mk_world
                      (mk path mode blocksize false false [] (Some (written ds))
                          (written ds) (Some (block_ids (List.length ds))))
                      (mk_remote None
                         (rev (combine (block_ids (List.length ds)) ds)
                          ++ staged r0)%list
                         (committed r0) false)
                      inv).
    { subst ds. reflexivity. }
    rewrite Hne.
    assert (Hne' : progress path mode blocksize r0 inv (ds ++ [d])
                  = mk_world
                      (mk path mode blocksize false false []
                          (Some (written (ds ++ [d])))
                          (written (ds ++ [d]))
                          (Some (block_ids (List.length (ds ++ [d])))))
                      (mk_remote None
                         (rev (combine (block_ids (List.length (ds ++ [d])))
                                       (ds ++ [d]))
                          ++ staged r0)%list
                         (committed r0) false)
                      inv).
    { subst ds. reflexivity. }
    rewrite Hne'. clear Hne Hne' Eds.
    unfold write, bind at 1 2 3 4, get, set_file.
    cbn. rewrite Hmode. cbn. rewrite Hd, Nat.leb_refl.
    unfold flush, bind at 1 2 3, get, set_file. cbn. rewrite Hmode. cbn.
    rewrite Hd, Nat.ltb_irrefl.
    unfold bind, get, set_file. cbn -[_initiate_upload _upload_chunk].
    erewrite upload_chunk_stage by reflexivity.
    cbn. unfold ret, with_buffer, with_offset, with_block_list, with_loc.
    cbn. rewrite block_ids_length, staged_step, written_app, Hd.
    rewrite length_app, Nat.add_1_r, block_ids_S. reflexivity.
Qed.


Lemma write_all_progress (ds : list bytes) :
  forall ds0,
    Forall (fun d => List.length d = blocksize) ds ->
    write_all ds (progress path mode blocksize r0 inv ds0)
    = (inr tt, progress path mode blocksize r0 inv (ds0 ++ ds)).
Proof.
  induction ds as [|d ds IH]; intros ds0 Hall.
  - cbn. rewrite app_nil_r. reflexivity.
  - apply Forall_cons_iff in Hall. destruct Hall as [Hd Hrest].
    cbn [write_all]. unfold bind.
    rewrite (write_progress ds0 d Hd).
    rewrite IH by assumption.
    rewrite <- app_assoc. reflexivity.
Qed.

(** *** Assembling the committed object *)

Lemma lookup_block_in (l old : list (string * bytes)) (k : string) (v : bytes) :
  NoDup (map fst l) -> In (k, v) l -> lookup_block k (l ++ old) = Some v.
Proof.
  induction l as [|[k' v'] l IH]; intros Hnd Hin; [contradiction|].
  cbn in Hnd. inversion Hnd as [|? ? Hnotin Hnd']; subst.
  cbn [app lookup_block].
  destruct Hin as [E|Hin].
  - inversion E; subst. rewrite String.eqb_refl. reflexivity.
  - destruct (String.eqb_spec k' k) as [E|E].
    + subst k'. exfalso. apply Hnotin.
      change k with (fst (k, v)). apply in_map. assumption.
    + apply IH; assumption.
Qed.

Lemma assemble_combine (L : list (string * bytes)) (ids : list string) :
  forall blocks,
    List.length ids = List.length blocks ->
    (forall k v, In (k, v) (combine ids blocks) -> lookup_block k L = Some v) ->
    assemble ids L = Some (concat blocks).
Proof.
  induction ids as [|i ids IH]; intros [|b blocks] Hlen Hlook;
    try discriminate; [reflexivity|].
  cbn [assemble concat].
  rewrite (Hlook i b) by (left; reflexivity).
  rewrite (IH blocks).
  - reflexivity.
  - cbn in Hlen. lia.
  - intros k v Hin. apply Hlook. right. assumption.
Qed.

Lemma block_ids_NoDup (k : nat) : NoDup (block_ids k).
Proof.
  unfold block_ids. apply Injective_map_NoDup.
  - intros i j. apply format_07d_inj.
  - apply seq_NoDup.
Qed.

Lemma map_fst_combine {A B} (l : list A) :
  forall (l' : list B), List.length l = List.length l' ->
    map fst (combine l l') = l.
Proof.
  induction l as [|x l IH]; intros [|y l'] E; try discriminate; [reflexivity|].
  cbn. rewrite IH by (cbn in E; lia). reflexivity.
Qed.

(** Committing the IDs of the blocks [ds], staged in that order, puts the
    blocks together in that order. *)
Lemma assemble_staged (ds : list bytes) (old : list (string * bytes)) :
  assemble (block_ids (List.length ds))
           (rev (combine (block_ids (List.length ds)) ds) ++ old)
  = Some (concat ds).
Proof.
  apply assemble_combine.
  - apply block_ids_length.
  - intros k v Hin. apply lookup_block_in.
    + rewrite map_rev. apply NoDup_rev.
      rewrite map_fst_combine by apply block_ids_length.
      apply block_ids_NoDup.
    + apply -> in_rev. assumption.
Qed.

Lemma written_concat (ds : list bytes) : written ds = List.length (concat ds).
Proof.
  induction ds as [|d ds IH] using rev_ind; [reflexivity|].
  rewrite written_app, concat_app, length_app, IH. cbn [concat].
  rewrite app_nil_r. reflexivity.
Qed.

Lemma written_blocks (ds : list bytes) :
  Forall (fun d => List.length d = blocksize) ds ->
  written ds = List.length ds * blocksize.
Proof.
  induction ds as [|d ds IH] using rev_ind; intros Hall; [reflexivity|].
  apply Forall_app in Hall. destruct Hall as [Hds Hd].
  apply Forall_cons_iff in Hd. destruct Hd as [Hd _].
  rewrite written_app, IH, length_app by assumption. cbn. lia.
Qed.


Lemma assemble_final (ds : list bytes) (old : list (string * bytes)) :
  assemble (block_ids (List.length ds) ++ [Py.format_07d (List.length ds)])%list
           ((Py.format_07d (List.length ds), [])
              :: rev (combine (block_ids (List.length ds)) ds) ++ old)
  = Some (concat ds).
Proof.
  rewrite staged_step, <- block_ids_S.
  replace (S (List.length ds)) with (List.length (ds ++ [[]]))
    by (rewrite length_app; cbn; lia).
  rewrite assemble_staged, concat_app. cbn [concat].
  rewrite !app_nil_r. reflexivity.
Qed.

(** Closing after the blocks [ds]: the forced flush stages the empty buffer
    as one more block and commits all the IDs. *)
Lemma close_progress (ds : list bytes) :
  exists w',
    close (progress path mode blocksize r0 inv ds) = (inr tt, w')
    /\ closed (file w') = true
    /\ loc (file w') = written ds
    /\ committed (store w') = Some (block_ids (S (List.length ds)))
    /\ object (store w') = Some (concat ds)
    /\ staged (store w')
       = ((Py.format_07d (List.length ds), [])
            :: rev (combine (block_ids (List.length ds)) ds) ++ staged r0)%list.
Proof.
  pose proof (write_mode_not_rb mode Hmode) as Hrb.
  destruct ds as [|d0 ds'].
  - unfold close, bind at 1 2, get, progress, open_write. cbn.
    rewrite Hrb. cbn.
    unfold flush, bind at 1 2 3 4, get, set_file. cbn. rewrite Hmode. cbn.
    unfold bind, get, set_file. cbn -[_initiate_upload _upload_chunk].
    rewrite initiate_upload_ok by assumption.
    erewrite upload_chunk_final;
      [| reflexivity
       | cbn; rewrite String.eqb_refl; reflexivity ].
    cbn. eexists. split; [reflexivity|].
    cbn. repeat split; reflexivity.
  - remember (d0 :: ds') as ds eqn:Eds.
    assert (Hne : progress path mode blocksize r0 inv ds
                  = mk_world
                      (mk path mode blocksize false false [] (Some (written ds))
                          (written ds) (Some (block_ids (List.length ds))))
                      (mk_remote None
                         (rev (combine (block_ids (List.length ds)) ds)
                          ++ staged r0)%list
                         (committed r0) false)
                      inv).
    { subst ds. reflexivity. }
    rewrite Hne. clear Hne Eds.
    unfold close, bind at 1 2, get. cbn.
    rewrite Hrb. cbn.
    unfold flush, bind at 1 2 3 4, get, set_file. cbn. rewrite Hmode. cbn.
    unfold bind, get, set_file. cbn -[_initiate_upload _upload_chunk].
    erewrite upload_chunk_final;
      [| reflexivity
       | cbn [buffer with_forced staged];
         rewrite block_ids_length; apply assemble_final ].
    cbn. eexists. split; [reflexivity|].
    cbn. rewrite block_ids_length, block_ids_S. repeat split; reflexivity.
Qed.


(** C1, as the code has it.  Writing [N] blocks of exactly [blocksize]
    bytes each to a fresh write-mode handle and closing it succeeds (when
    the service does not refuse the initial delete) and commits [N + 1]
    block IDs: those of the [N] blocks, in the order they were staged,
    followed by the ID of the empty buffer the forced flush stages.  The
    [k]-th ID is [f"{k:07d}"], which reads back as [k]; the first is
    ["0000000"]; below [10^7] IDs each has seven characters and the list is
    strictly ascending as strings.  The committed object is the written
    blocks joined in order, so its size is the number of bytes written,
    [N * blocksize]. *)
Theorem full_blocks_then_close (datas : list bytes)
        (Hall : Forall (fun d => List.length d = blocksize) datas) :
  exists w',
    bind (write_all datas) (fun _ => close)
         (mk_world (open_write path mode blocksize) r0 inv)
    = (inr tt, w')
    /\ closed (file w') = true
    /\ committed (store w')
       = Some (map Py.format_07d (seq 0 (S (List.length datas))))
    /\ nth 0 (map Py.format_07d (seq 0 (S (List.length datas)))) ""
       = "0000000"
    /\ (forall k, Py.int (Py.format_07d k) = N.of_nat k)
    /\ ((N.of_nat (List.length datas) < 10 ^ 7)%N ->
        forall i j, i < j -> j <= List.length datas ->
          String.length (Py.format_07d i) = 7
          /\ String.length (Py.format_07d j) = 7
          /\ String.ltb (Py.format_07d i) (Py.format_07d j) = true)
    /\ object (store w') = Some (concat datas)
    /\ List.length (concat datas) = List.length datas * blocksize
    /\ loc (file w') = List.length (concat datas).
Proof.
  destruct (close_progress datas)
    as (w' & Hclose & Hclosed & Hloc & Hcom & Hobj & _).
  exists w'. unfold bind.
  change (mk_world (open_write path mode blocksize) r0 inv)
    with (progress path mode blocksize r0 inv []).
  rewrite (write_all_progress datas [] Hall). cbn [app].
  split; [exact Hclose|].
  split; [exact Hclosed|].
  split; [exact Hcom|].
  split; [reflexivity|].
  split; [apply format_07d_int|].
  split.
  { intros Hbound i j Hij Hj.
    assert (Hjb : (N.of_nat j < 10 ^ 7)%N) by lia.
    assert (Hib : (N.of_nat i < 10 ^ 7)%N) by lia.
    repeat split.
    - apply format_07d_length; assumption.
    - apply format_07d_length; assumption.
    - apply format_07d_ltb; assumption. }
  split; [exact Hobj|].
  split.
  - rewrite <- written_concat. apply written_blocks. assumption.
  - rewrite Hloc. apply written_concat.
Qed.

End WriterBlocks.

(** C1 as stated fails: one full block and a close commit two IDs. *)
Lemma one_block_commits_two_ids :
  let w' := snd (AzureBlobFile.bind
                   (AzureBlobFile.write_all [Demo.two_bytes])
                   (fun _ => @AzureBlobFile.close Demo.account)
                   Demo.fresh_world) in
  AzureBlobFile.committed (AzureBlobFile.store w')
  = Some ["0000000"; "0000001"]
  /\ AzureBlobFile.committed (AzureBlobFile.store w')
     <> Some (map Py.format_07d (seq 0 1)).
Proof.
  split; [reflexivity|]. vm_compute. discriminate.
Qed.

Lemma full_blocks_then_close_witness :
  exists w',
    AzureBlobFile.bind (AzureBlobFile.write_all [Demo.two_bytes; Demo.two_bytes])
                       (fun _ => @AzureBlobFile.close Demo.account)
                       Demo.fresh_world
    = (inr tt, w')
    /\ AzureBlobFile.committed (AzureBlobFile.store w')
       = Some ["0000000"; "0000001"; "0000002"]
    /\ AzureBlobFile.object (AzureBlobFile.store w')
       = Some (Demo.two_bytes ++ Demo.two_bytes)%list.
Proof.
  destruct (@full_blocks_then_close Demo.account "c/new" "wb" 2
              Demo.fresh_remote [] eq_refl eq_refl
              [Demo.two_bytes; Demo.two_bytes]
              ltac:(repeat constructor))
    as (w' & Hrun & _ & Hcom & _ & _ & _ & Hobj & _).
  exists w'. repeat split; assumption.
Defined.

(** ** Listings *)

Section Listing.

Import AzureBlobFileSystem.
Context `{Collaborators}.

(** The path names a container or a blob in it, so that [ls] asks the
    container client for the blobs under [key]. *)
Lemma ls_lists_blobs (p : string) (detail return_glob : bool)
      (container key : string) :
  split_path p = (container, key) ->
  Py.mem container [""; "."; "/"] && Py.mem key [""; "/"] = false ->
  Py.mem container [""; "/"] = false ->
  ls p detail return_glob
  = match walk_blobs container key with
    | inl _ => inl Py.FileNotFoundError
    | inr blobs =>
        match blobs with
        | _ :: _ :: _ => render blobs detail return_glob
        | [b0] =>
            if (Py.rstrip "/" (Blob.name b0) =? key)
               && negb (Blob.has_blob_type b0)
            then
              match walk_blobs container (Blob.name b0) with
              | inl e => inl e
              | inr blobs => render blobs detail return_glob
              end
            else if Blob.is_prefix b0 then
              let depth := Py.count "/" (Py.lstrip "/" p) in
              let depth := if (depth =? 0)%nat then 2 else depth + 1 in
              match Blob.children b0 with
              | [] => inr None
              | b :: _ =>
                  if detail then inr (Some [Info (_details b false)])
                  else
                    match Blob.container b with
                    | None => inl Py.AttributeError
                    | Some c =>
                        inr (Some [Path (String.concat "/"
                                           (firstn depth
                                              (Py.split "/" depth
                                                 (c ++ "/" ++ Blob.name b)))
                                         ++ "/")])
                    end
              end
            else
              match Blob.blob_type b0 with
              | None => inl Py.KeyError
              | Some bt =>
                  if bt =? "BlockBlob" then
                    if detail then
                      inr (Some (map (fun b => Info (_details b false)) blobs))
                    else
                      match blob_paths blobs with
                      | inl e => inl e
                      | inr r => inr (Some r)
                      end
                  else if Blob.is_item_paged b0 then inl Py.TypeError
                  else inl Py.FileNotFoundError
              end
        | [] =>
            if return_glob || Py.mem key [""; "/"] then inr (Some [])
            else inl Py.FileNotFoundError
        end
    end.
Proof.
  intros Hsplit Hroot Hc. unfold ls. rewrite Hsplit, Hroot, Hc.
  reflexivity.
Qed.

(** C7.  When the listing of the blobs under the key comes back empty,
    [ls] (called as a client does, without [return_glob]) raises
    [FileNotFoundError] for a key other than [""] and ["/"], and returns the
    empty list for the key [""] or ["/"]; called by [walk] with
    [return_glob] it returns the empty list in both cases.  For the empty
    path and for ["/"] the containers are listed, so the result is empty
    when there are none. *)
Theorem ls_no_blobs (p : string) (detail : bool) (container key : string)
        (Hsplit : split_path p = (container, key))
        (Hroot : Py.mem container [""; "."; "/"] && Py.mem key [""; "/"] = false)
        (Hcontainer : Py.mem container [""; "/"] = false)
        (Hblobs : walk_blobs container key = inr []) :
  ls p detail false
  = (if Py.mem key [""; "/"] then inr (Some [])
     else inl Py.FileNotFoundError)
  /\ ls p detail true = inr (Some [])
  /\ (forall return_glob,
        ls "" detail return_glob
        = inr (Some (if detail
                     then map (fun c => Info (_details c false)) list_containers
                     else map (fun c => Path (Blob.name c ++ "/"))
                              list_containers))
        /\ ls "/" detail return_glob = ls "" detail return_glob).
Proof.
  split; [|split].
  - rewrite (ls_lists_blobs p detail false container key) by assumption.
    rewrite Hblobs. reflexivity.
  - rewrite (ls_lists_blobs p detail true container key) by assumption.
    rewrite Hblobs. reflexivity.
  - intros return_glob. unfold ls. cbn. destruct detail; split; reflexivity.
Qed.

(** C10, as the code has it.  When the listing holds exactly one item, an
    [ItemPaged] collection that carries a [blob_type] other than
    ["BlockBlob"], [ls] reaches the branch for page collections and raises
    [TypeError] there: the loop [async for page in blobs] runs over the
    Python list the listing was collected into.  Nothing is returned,
    neither [None] nor a list of entries. *)
Theorem ls_item_paged_raises (p : string) (detail return_glob : bool)
        (container key : string) (b0 : Blob.t) (bt : string)
        (Hsplit : split_path p = (container, key))
        (Hroot : Py.mem container [""; "."; "/"] && Py.mem key [""; "/"] = false)
        (Hcontainer : Py.mem container [""; "/"] = false)
        (Hblobs : walk_blobs container key = inr [b0])
        (Hpaged : Blob.is_item_paged b0 = true)
        (Htype : Blob.blob_type b0 = Some bt)
        (Hbt : (bt =? "BlockBlob") = false) :
  ls p detail return_glob = inl Py.TypeError.
Proof.
  rewrite (ls_lists_blobs p detail return_glob container key) by assumption.
  rewrite Hblobs. unfold Blob.has_blob_type. rewrite Htype, Hbt, Hpaged.
  rewrite andb_false_r.
  unfold Blob.is_prefix. unfold Blob.is_item_paged in Hpaged.
  destruct (Blob.cls b0); try discriminate. reflexivity.
Qed.

Lemma render_returns (blobs : list Blob.t) (detail return_glob : bool) :
  render blobs detail return_glob <> inr None.
Proof.
  unfold render. destruct return_glob; [discriminate|].
  destruct detail; [discriminate|].
  destruct (blob_paths blobs); discriminate.
Qed.

End Listing.

(** C10 as stated fails: whenever [ls] lists the blobs and gets exactly one
    item that is an [ItemPaged] collection, the call does not return
    [None]. *)
Lemma ls_item_paged_never_none :
  ~ exists (account : Collaborators) (p : string) (detail return_glob : bool)
           (container key : string) (b0 : Blob.t),
      AzureBlobFileSystem.split_path p = (container, key)
      /\ Py.mem container [""; "."; "/"] && Py.mem key [""; "/"] = false
      /\ Py.mem container [""; "/"] = false
      /\ walk_blobs container key = inr [b0]
      /\ Blob.is_item_paged b0 = true
      /\ AzureBlobFileSystem.ls p detail return_glob = inr None.
Proof.
  intros (account & p & detail & return_glob & container & key & b0
          & Hsplit & Hroot & Hc & Hblobs & Hpaged & Hnone).
  rewrite (ls_lists_blobs p detail return_glob container key
             Hsplit Hroot Hc) in Hnone.
  rewrite Hblobs in Hnone.
  assert (Hprefix : Blob.is_prefix b0 = false).
  { unfold Blob.is_prefix. unfold Blob.is_item_paged in Hpaged.
    destruct (Blob.cls b0); try discriminate; reflexivity. }
  rewrite Hprefix, Hpaged in Hnone.
  destruct ((Py.rstrip "/" (Blob.name b0) =? key)
            && negb (Blob.has_blob_type b0)).
  - destruct (walk_blobs container (Blob.name b0)); [discriminate|].
    exact (render_returns _ _ _ Hnone).
  - destruct (Blob.blob_type b0) as [bt|]; [|discriminate].
    destruct (bt =? "BlockBlob"); [|discriminate].
    destruct detail; [discriminate|].
    destruct (AzureBlobFileSystem.blob_paths [b0]); discriminate.
Qed.

(** ** Glob *)

Section Glob.

Import AzureBlobFileSystem.
Context `{Collaborators}.

(** A path without wildcard that does not end in ["/"]: [glob] tests the
    stripped path for existence and answers with it. *)
Lemma glob_plain (fuel : nat) (p : string) (detail : bool) :
  has_magic (_strip_protocol p) = false -> Py.endswith "/" p = false ->
  glob fuel p detail
  = if exists_ (_strip_protocol p) then
      if detail then
        match info (_strip_protocol p) with
        | inl e => Raise e
        | inr i => Ok (Details [(_strip_protocol p, Some i)])
        end
      else Ok (Names [_strip_protocol p])
    else if detail then Ok (Details []) else Ok (Names []).
Proof.
  intros Hmagic Hends. unfold glob. rewrite Hends. unfold glob_plan.
  rewrite Hmagic. cbn [negb].
  destruct (exists_ (_strip_protocol p)); destruct detail; reflexivity.
Qed.

(** C3, amended.  For a path [p] that does not end in ["/"] and whose
    stripped form holds none of [*], [?], [[], [glob(p)] returns the
    one-element list of the stripped path when that path exists and the
    empty list otherwise; it never raises.  The list is [[p]] exactly for
    the paths that [_strip_protocol] leaves alone. *)
Theorem glob_literal (fuel : nat) (p : string)
        (Hmagic : has_magic (_strip_protocol p) = false)
        (Hends : Py.endswith "/" p = false) :
  glob fuel p false
  = Ok (Names (if exists_ (_strip_protocol p)
               then [_strip_protocol p] else []))
  /\ (_strip_protocol p = p ->
      glob fuel p false = Ok (Names (if exists_ p then [p] else []))).
Proof.
  assert (Hg : glob fuel p false
               = Ok (Names (if exists_ (_strip_protocol p)
                            then [_strip_protocol p] else []))).
  { rewrite (glob_plain fuel p false Hmagic Hends).
    destruct (exists_ (_strip_protocol p)); reflexivity. }
  split; [exact Hg|].
  intros Hpath. rewrite Hg, Hpath. reflexivity.
Qed.

(** The scope of a pattern whose first wildcard comes after a ["/"]: the
    root is the prefix up to and including the last ["/"] before that
    wildcard, and the depth is 20 with ["**"], else the number of segments
    of the rest. *)
Lemma glob_plan_rooted (ends : bool) (path : string) (ind2 : nat) :
  has_magic path = true ->
  let ind := Nat.min (Nat.min (index_or_len "*" path)
                              (index_or_len "?" path))
                     (index_or_len "[" path) in
  Py.contains "/" (Py.take ind path) = true ->
  Py.rindex "/" (Py.take ind path) = Some ind2 ->
  glob_plan ends path
  = Search (Py.take (ind2 + 1) path)
           (if Py.contains "**" path then 20
            else Z.of_nat (Py.count "/" (Py.drop (ind2 + 1) path) + 1))
           path.
Proof.
  intros Hmagic ind Hslash Hrindex. unfold glob_plan.
  rewrite Hmagic. cbn [negb]. fold ind. rewrite Hslash, Hrindex.
  reflexivity.
Qed.

(** C4 fails on the code.  A pattern with a ["/"] before its first
    wildcard gets the depth the claim states (["c/*/a"]: root ["c/"], two
    segments, depth 2), but a pattern without one gets root [""] and depth
    1 whatever follows the wildcard: ["*/a"] has two segments and
    ["c*/a/b"] three, and both are searched to depth 1. *)
Theorem glob_depth_without_root :
  glob_plan false "c/*/a" = Search "c/" 2 "c/*/a"
  /\ glob_plan false "*/a" = Search "" 1 "*/a"
  /\ Py.count "/" "*/a" + 1 = 2
  /\ glob_plan false "c*/a/b" = Search "" 1 "c*/a/b"
  /\ Py.count "/" "c*/a/b" + 1 = 3.
Proof.
  repeat split; reflexivity.
Qed.

End Glob.

(** C3 as stated fails: the path ["/c/f.txt"] holds no wildcard, does not
    end in ["/"] and exists, and [glob] answers with the stripped path
    ["c/f.txt"], not with the path itself. *)
Lemma glob_literal_answers_stripped :
  AzureBlobFileSystem.has_magic "/c/f.txt" = false
  /\ Py.endswith "/" "/c/f.txt" = false
  /\ @AzureBlobFileSystem.exists_ Demo.account "/c/f.txt" = true
  /\ @AzureBlobFileSystem.glob Demo.account 0 "/c/f.txt" false
     = AzureBlobFileSystem.Ok (AzureBlobFileSystem.Names ["c/f.txt"])
  /\ @AzureBlobFileSystem.glob Demo.account 0 "/c/f.txt" false
     <> AzureBlobFileSystem.Ok (AzureBlobFileSystem.Names ["/c/f.txt"]).
Proof.
  repeat split; try reflexivity. vm_compute. discriminate.
Qed.

(** ** Walk *)

Section Walk.

Import AzureBlobFileSystem.
Context `{Collaborators}.

Lemma walk_S (fuel : nat) (path : string) (maxdepth : option Z) (detail : bool) :
  walk (S fuel) path maxdepth detail
  = match walk_level (_strip_protocol path) detail with
    | (evs, inl e) => (evs, Raised e)
    | (evs, inr full_dirs) =>
        match next_depth maxdepth with
        | None => (evs, Done)
        | Some maxdepth =>
            let '(evs', st) :=
              walk_each (fun d => walk fuel d maxdepth detail) full_dirs in
            ((evs ++ evs')%list, st)
        end
    end.
Proof. reflexivity. Qed.







(** *** Unbounded walks visit every directory they discover *)

Lemma set_in {V} (k0 : string) (v0 : V) (d : Dict.t V) (k : string) (v : V) :
  In (k, v) (Dict.set k0 v0 d) -> (k = k0 /\ v = v0) \/ In (k, v) d.
Proof.
  induction d as [|[k' v'] d IH]; cbn.
  - intros [E|[]]. inversion E. left; split; reflexivity.
  - destruct (k' =? k0).
    + intros [E|Hin]; [inversion E; left; split; reflexivity|right; right; assumption].
    + intros [E|Hin]; [right; left; assumption|].
      destruct (IH Hin) as [Heq|Hin']; [left; assumption|right; right; assumption].
Qed.

Lemma keys_set_old {V} (k : string) (v : V) (d : Dict.t V) (x : string) :
  In x (Dict.keys d) -> In x (Dict.keys (Dict.set k v d)).
Proof.
  induction d as [|[k' v'] d IH]; cbn; [contradiction|].
  destruct (String.eqb_spec k' k) as [E|E]; cbn.
  - intros [E'|Hin]; [left; congruence|right; assumption].
  - intros [E'|Hin]; [left; assumption|right; apply IH; assumption].
Qed.

Lemma keys_set_new {V} (k : string) (v : V) (d : Dict.t V) :
  In k (Dict.keys (Dict.set k v d)).
Proof.
  induction d as [|[k' v'] d IH]; cbn; [left; reflexivity|].
  destruct (String.eqb_spec k' k) as [E|E]; cbn;
    [left; reflexivity|right; assumption].
Qed.








End Walk.

(** ** Find on the path of a file *)

Section FindFile.

Import AzureBlobFileSystem.
Context `{Collaborators}.

Lemma find_from_nonneg (x y : string) :
  forall i, (0 <= i)%Z -> (0 <= Py.find_from "/" (x ++ "/" ++ y) i)%Z.
Proof.
  induction x as [|a x IH]; intros i Hi.
  - cbn. destruct y; assumption.
  - cbn [String.append Py.find_from]. destruct (String.prefix "/" _).
    + assumption.
    + apply IH. lia.
Qed.

Lemma contains_slash (x y : string) : Py.contains "/" (x ++ "/" ++ y) = true.
Proof.
  unfold Py.contains, Py.find. apply Z.leb_le. apply find_from_nonneg. lia.
Qed.

Lemma split_once_join (c k : string) :
  Py.count "/" c = 0 -> Py.split_once "/" (c ++ "/" ++ k) = Some (c, k).
Proof.
  induction c as [|a c IH]; intros Hc.
  - reflexivity.
  - cbn [String.append Py.split_once] in IH |- *. cbn [Py.count] in Hc.
    destruct (Ascii.eqb a "/"); [discriminate|].
    rewrite IH by assumption. reflexivity.
Qed.

Lemma lstrip_no_slash (c s : string) :
  c <> "" -> Py.count "/" c = 0 -> Py.lstrip "/" (c ++ s) = (c ++ s)%string.
Proof.
  intros Hne Hc. destruct c as [|a c]; [contradiction|].
  cbn [String.append Py.lstrip]. cbn [Py.count] in Hc.
  destruct (Ascii.eqb a "/"); [discriminate|reflexivity].
Qed.

Lemma mem_no_slash (c : string) :
  c <> "" -> Py.count "/" c = 0 ->
  Py.mem c [""; "/"] = false /\ forall s, Py.mem (c ++ "/" ++ s) [""; "/"] = false.
Proof.
  intros Hne Hc. destruct c as [|a c]; [contradiction|].
  cbn [Py.count] in Hc.
  destruct (Ascii.eqb_spec a "/") as [E|E]; [discriminate|].
  split.
  - unfold Py.mem. cbn [existsb String.eqb].
    destruct (Ascii.eqb_spec a "/"); [contradiction|]. reflexivity.
  - intros s. unfold Py.mem. cbn [existsb String.eqb String.append].
    destruct (Ascii.eqb_spec a "/"); [contradiction|]. reflexivity.
Qed.

(** A path [container/key], without protocol, splits into its container
    and its key. *)
Lemma split_path_join (c k : string) :
  c <> "" -> Py.count "/" c = 0 ->
  _strip_protocol (c ++ "/" ++ k) = (c ++ "/" ++ k)%string ->
  split_path (c ++ "/" ++ k) = (c, k).
Proof.
  intros Hne Hc Hstrip. unfold split_path.
  destruct (mem_no_slash c Hne Hc) as [_ Hm]. rewrite Hm, Hstrip.
  rewrite (lstrip_no_slash c ("/" ++ k) Hne Hc).
  rewrite contains_slash. cbn [negb].
  rewrite split_once_join by assumption. reflexivity.
Qed.


Lemma classify_self (p : string) (e : Entry.t) :
  Py.rstrip "/" (Entry.name e) = p ->
  classify p [Info e] [] [] [] = inr ([], [], [("", e)]).
Proof.
  intros Hn. cbn [classify]. rewrite Hn, String.eqb_refl.
  cbn [negb]. rewrite andb_false_r. reflexivity.
Qed.

(** The listing of a path that names one block blob is that blob. *)
Lemma ls_file (c k : string) (sz : option Z) (inside : list Blob.t)
      (return_glob : bool) :
  c <> "" -> Py.count "/" c = 0 ->
  _strip_protocol (c ++ "/" ++ k) = (c ++ "/" ++ k)%string ->
  Py.mem k [""; "/"] = false ->
  walk_blobs c k
  = inr [Blob.mk Blob.BlobProperties k (Some c) sz (Some "BlockBlob") inside] ->
  ls (c ++ "/" ++ k) true return_glob
  = inr (Some [Info (_details (Blob.mk Blob.BlobProperties k (Some c) sz
                                       (Some "BlockBlob") inside) false)]).
Proof.
  intros Hne Hc Hpath Hk Hblobs.
  destruct (mem_no_slash c Hne Hc) as [Hm _].
  rewrite (ls_lists_blobs (c ++ "/" ++ k) true return_glob c k).
  - rewrite Hblobs. cbn [Blob.name Blob.has_blob_type Blob.blob_type negb].
    rewrite andb_false_r. reflexivity.
  - apply split_path_join; assumption.
  - rewrite Hk. apply andb_false_r.
  - exact Hm.
Qed.

Lemma walk_file (fuel : nat) (c k : string) (sz : option Z)
      (inside : list Blob.t) (maxdepth : option Z) :
  c <> "" -> Py.count "/" c = 0 ->
  _strip_protocol (c ++ "/" ++ k) = (c ++ "/" ++ k)%string ->
  Py.rstrip "/" (c ++ "/" ++ k) = (c ++ "/" ++ k)%string ->
  Py.mem k [""; "/"] = false ->
  walk_blobs c k
  = inr [Blob.mk Blob.BlobProperties k (Some c) sz (Some "BlockBlob") inside] ->
  walk (S fuel) (c ++ "/" ++ k) maxdepth true
  = ([Listed (c ++ "/" ++ k);
      Yielded (WalkDetail (c ++ "/" ++ k) []
                 [("", _details (Blob.mk Blob.BlobProperties k (Some c) sz
                                         (Some "BlockBlob") inside) false)])],
     Done).
Proof.
  intros Hne Hc Hpath Hr Hk Hblobs.
  rewrite walk_S, Hpath. unfold walk_level.
  rewrite (ls_file c k sz inside true Hne Hc Hpath Hk Hblobs).
  rewrite classify_self by exact Hr.
  destruct (next_depth maxdepth); reflexivity.
Qed.

(** When the only item the service lists under the key is a block blob named
    by the key, [find] returns exactly its path (and, with [detail], the
    one-entry dict of its details): [walk] yields the blob as the entry [""]
    of the files of its own path. *)
Lemma find_block_blob (fuel : nat) (c k : string) (sz : option Z)
        (inside : list Blob.t) (maxdepth : option Z) (withdirs : bool)
        (Hne : c <> "") (Hc : Py.count "/" c = 0)
        (Hpath : _strip_protocol (c ++ "/" ++ k) = (c ++ "/" ++ k)%string)
        (Hr : Py.rstrip "/" (c ++ "/" ++ k) = (c ++ "/" ++ k)%string)
        (Hk : Py.mem k [""; "/"] = false)
        (Hblobs : walk_blobs c k
                  = inr [Blob.mk Blob.BlobProperties k (Some c) sz
                                 (Some "BlockBlob") inside]) :
  find (S fuel) (c ++ "/" ++ k) maxdepth withdirs false
  = Ok (Names [(c ++ "/" ++ k)%string])
  /\ find (S fuel) (c ++ "/" ++ k) maxdepth withdirs true
     = Ok (Details
             [((c ++ "/" ++ k)%string,
               Some (_details (Blob.mk Blob.BlobProperties k (Some c) sz
                                       (Some "BlockBlob") inside) false))]).
Proof.
  unfold find. rewrite Hpath.
  rewrite (walk_file fuel c k sz inside maxdepth Hne Hc Hpath Hr Hk Hblobs).
  set (p := (c ++ "/" ++ k)%string) in *.
  set (e := _details _ false).
  assert (Hn : Entry.name e = p) by reflexivity.
  clearbody e p.
  assert (Hout : forall files : Dict.t Entry.t,
             files = [("", e)] ->
             Dict.update []
               (Dict.update []
                  (map (fun kv => (Entry.name (snd kv), Some (snd kv))) files))
             = [(p, Some e)]).
  { intros files ->. cbn. rewrite Hn. reflexivity. }
  cbn [collect].
  rewrite Hout by (destruct withdirs; reflexivity).
  assert (Hmem : Dict.mem p [(p, Some e)] = true).
  { unfold Dict.mem. cbn [existsb fst]. rewrite String.eqb_refl. reflexivity. }
  rewrite Hmem. cbn [negb]. rewrite andb_false_r.
  cbn [Dict.keys map fst Py.sorted fold_right Py.insert_sorted Dict.get].
  rewrite String.eqb_refl. split; reflexivity.
Qed.


(** A blob of another type alone under its key: [ls] raises
    [FileNotFoundError], the walk yields an empty level, and [find] relies on
    [isfile]. *)
Lemma find_other_blob (fuel : nat) (c k : string) (sz : option Z) (bt : string)
      (inside : list Blob.t) (maxdepth : option Z) (withdirs : bool) :
  c <> "" -> Py.count "/" c = 0 ->
  _strip_protocol (c ++ "/" ++ k) = (c ++ "/" ++ k)%string ->
  Py.mem k [""; "/"] = false ->
  walk_blobs c k
  = inr [Blob.mk Blob.BlobProperties k (Some c) sz (Some bt) inside] ->
  (bt =? "BlockBlob") = false ->
  find (S fuel) (c ++ "/" ++ k) maxdepth withdirs false
  = Ok (Names (if isfile (c ++ "/" ++ k) then [(c ++ "/" ++ k)%string] else [])).
Proof.
  intros Hne Hc Hpath Hk Hblobs Hbt.
  destruct (mem_no_slash c Hne Hc) as [Hm _].
  assert (Hls : ls (c ++ "/" ++ k) true true = inl Py.FileNotFoundError).
  { rewrite (ls_lists_blobs (c ++ "/" ++ k) true true c k).
    - rewrite Hblobs.
      cbn [Blob.name Blob.has_blob_type Blob.blob_type negb Blob.is_prefix
           Blob.cls Blob.is_item_paged].
      rewrite andb_false_r, Hbt. reflexivity.
    - apply split_path_join; assumption.
    - rewrite Hk. apply andb_false_r.
    - exact Hm. }
  unfold find. rewrite Hpath, walk_S, Hpath. unfold walk_level.
  rewrite Hls. cbn [Py.is_os_error classify Dict.keys map].
  set (p := (c ++ "/" ++ k)%string). clearbody p.
  destruct (next_depth maxdepth); cbn [walk_each app collect];
    destruct withdirs; cbn; destruct (isfile p); reflexivity.
Qed.

(** *** Several blobs under the key *)

Lemma endswith_rstrip (s : string) : Py.endswith "/" (Py.rstrip "/" s) = false.
Proof.
  induction s as [|a s IH]; [reflexivity|].
  cbn [Py.rstrip]. destruct (Py.rstrip "/" s) as [|b r] eqn:E.
  - destruct (Ascii.eqb a "/") eqn:Ea; [reflexivity|].
    cbn [Py.endswith]. exact Ea.
  - exact IH.
Qed.

Lemma rstrip_fixed (s : string) :
  Py.endswith "/" s = false -> Py.rstrip "/" s = s.
Proof.
  induction s as [|a s IH]; intros He; [reflexivity|].
  cbn [Py.rstrip]. destruct s as [|b s'].
  - cbn [Py.endswith] in He. cbn [Py.rstrip]. rewrite He. reflexivity.
  - rewrite IH by exact He. reflexivity.
Qed.

Lemma rstrip_idem (s : string) :
  Py.rstrip "/" (Py.rstrip "/" s) = Py.rstrip "/" s.
Proof. apply rstrip_fixed, endswith_rstrip. Qed.

Lemma rindex_drop_empty (s : string) :
  forall i, Py.rindex "/" s = Some i -> Py.drop (S i) s = "" ->
            Py.endswith "/" s = true.
Proof.
  induction s as [|a s IH]; intros i Hi Hd; [discriminate|].
  cbn [Py.rindex] in Hi. destruct (Py.rindex "/" s) as [j|] eqn:Ej.
  - inversion Hi; subst i. cbn [Py.drop] in Hd.
    specialize (IH j eq_refl Hd).
    destruct s; [discriminate|exact IH].
  - destruct (Ascii.eqb a "/") eqn:Ea; [|discriminate].
    inversion Hi; subst i. cbn [Py.drop] in Hd. subst s.
    cbn [Py.endswith]. exact Ea.
Qed.

Lemma rsplit_last_nonempty (s : string) :
  s <> "" -> Py.endswith "/" s = false -> Py.rsplit_last "/" s <> "".
Proof.
  intros Hne He. unfold Py.rsplit_last.
  destruct (Py.rindex "/" s) as [i|] eqn:Ei; [|exact Hne].
  intros Hd. rewrite (rindex_drop_empty s i Ei Hd) in He. discriminate.
Qed.

Lemma rstrip_nonempty (c s : string) :
  c <> "" -> Py.count "/" c = 0 -> Py.rstrip "/" (c ++ s) <> "".
Proof.
  intros Hne Hc. destruct c as [|a c]; [contradiction|].
  cbn [Py.count] in Hc. cbn [String.append Py.rstrip].
  destruct (Ascii.eqb a "/"); [discriminate|].
  destruct (Py.rstrip "/" (c ++ s)); discriminate.
Qed.

Lemma set_in_other {V} (k : string) (v : V) (d : Dict.t V) (k' : string) (v' : V) :
  In (k', v') d -> k' <> k -> In (k', v') (Dict.set k v d).
Proof.
  induction d as [|[k0 v0] d IH]; intros Hin Hk; [contradiction|].
  cbn [Dict.set]. destruct (String.eqb_spec k0 k) as [E|E].
  - destruct Hin as [E'|Hin]; [inversion E'; subst; contradiction|].
    right. assumption.
  - destruct Hin as [E'|Hin]; [left; assumption|right; apply IH; assumption].
Qed.

Lemma set_in_new {V} (k : string) (v : V) (d : Dict.t V) :
  In (k, v) (Dict.set k v d).
Proof.
  induction d as [|[k0 v0] d IH]; cbn [Dict.set]; [left; reflexivity|].
  destruct (k0 =? k); [left; reflexivity|right; assumption].
Qed.

Lemma update_keys_old {V} (d2 : Dict.t V) :
  forall (d : Dict.t V) k, In k (Dict.keys d) -> In k (Dict.keys (Dict.update d d2)).
Proof.
  unfold Dict.update.
  induction d2 as [|[k2 v2] d2 IH]; intros d k Hin; [assumption|].
  cbn [fold_left]. apply IH. apply keys_set_old. assumption.
Qed.

Lemma update_keys_new {V} (d2 : Dict.t V) :
  forall (d : Dict.t V) k, In k (Dict.keys d2) -> In k (Dict.keys (Dict.update d d2)).
Proof.
  unfold Dict.update.
  induction d2 as [|[k2 v2] d2 IH]; intros d k Hin; [contradiction|].
  cbn [fold_left]. destruct Hin as [E|Hin].
  - cbn in E. subst k2.
    apply (update_keys_old d2 (Dict.set k v2 d) k). apply keys_set_new.
  - apply IH. assumption.
Qed.

Lemma update_in_other {V} (d2 : Dict.t V) :
  forall (d : Dict.t V) k v,
    In (k, v) d -> (forall n x, In (n, x) d2 -> n <> k) ->
    In (k, v) (Dict.update d d2).
Proof.
  unfold Dict.update.
  induction d2 as [|[k2 v2] d2 IH]; intros d k v Hin Hk; [assumption|].
  cbn [fold_left]. apply IH.
  - apply set_in_other; [assumption|].
    intros E. apply (Hk k2 v2); [left; reflexivity|symmetry; assumption].
  - intros n x Hn. apply (Hk n x). right. assumption.
Qed.

Lemma insert_sorted_in (x : string) (l : list string) (y : string) :
  y = x \/ In y l -> In y (Py.insert_sorted x l).
Proof.
  induction l as [|z l IH]; intros Hy; cbn [Py.insert_sorted].
  - destruct Hy as [E|[]]. left. symmetry. assumption.
  - destruct (String.leb x z).
    + destruct Hy as [E|Hin]; [left; symmetry; assumption|right; assumption].
    + destruct Hy as [E|[E|Hin]].
      * right. apply IH. left. assumption.
      * left. assumption.
      * right. apply IH. right. assumption.
Qed.

Lemma sorted_in (l : list string) (y : string) : In y l -> In y (Py.sorted l).
Proof.
  induction l as [|x l IH]; intros Hy; [contradiction|].
  cbn [Py.sorted fold_right]. apply insert_sorted_in.
  destruct Hy as [E|Hin]; [left; symmetry; assumption|right; apply IH; assumption].
Qed.

(** The loop of [walk] over entries whose names were stripped of trailing
    slashes and have a last segment: once an entry named [p] has been seen,
    [files] holds an entry named [p] under the key [""], and no key of
    [dirs] is [""]. *)
Lemma classify_keeps_self (p : string) (entries : list Entry.t) :
  forall fd ds fs,
    (forall e, In e entries ->
               Py.rstrip "/" (Entry.name e) = Entry.name e
               /\ Py.rsplit_last "/" (Entry.name e) <> "") ->
    (forall n e, In (n, e) ds -> n <> "") ->
    (exists e0, In ("", e0) fs /\ Entry.name e0 = p)
    \/ (exists e, In e entries /\ Entry.name e = p) ->
    exists fd' ds' fs',
      classify p (map Info entries) fd ds fs = inr (fd', ds', fs')
      /\ (exists e0, In ("", e0) fs' /\ Entry.name e0 = p)
      /\ (forall n e, In (n, e) ds' -> n <> "").
Proof.
  induction entries as [|e entries IH]; intros fd ds fs Hgood Hds Hself.
  - destruct Hself as [Hfs|(e & [] & _)].
    exists fd, ds, fs. repeat split; assumption.
  - destruct (Hgood e (or_introl eq_refl)) as [Hstrip Hlast].
    assert (Hgood' : forall e', In e' entries ->
               Py.rstrip "/" (Entry.name e') = Entry.name e'
               /\ Py.rsplit_last "/" (Entry.name e') <> "").
    { intros e' Hin. apply Hgood. right. assumption. }
    cbn [map classify]. rewrite Hstrip.
    destruct (String.eqb_spec (Entry.name e) p) as [Ep|Ep].
    + (* the entry is the path itself *)
      cbn [negb]. rewrite andb_false_r.
      apply IH; [exact Hgood'|exact Hds|].
      left. exists e. split; [apply set_in_new|exact Ep].
    + assert (Hself' : (exists e0, In ("", e0) fs /\ Entry.name e0 = p)
                       \/ (exists e', In e' entries /\ Entry.name e' = p)).
      { destruct Hself as [Hfs|(e' & [E|Hin] & Hn)].
        - left. assumption.
        - subst e'. contradiction.
        - right. exists e'. split; assumption. }
      cbn [negb]. rewrite andb_true_r.
      destruct (Entry.type e =? "directory").
      * apply IH; [exact Hgood'| |exact Hself'].
        intros n x Hin. apply set_in in Hin.
        destruct Hin as [[En _]|Hin]; [subst n; exact Hlast|].
        eapply Hds. exact Hin.
      * apply IH; [exact Hgood'|exact Hds|].
        destruct Hself' as [(e0 & Hin & Hn)|Hrest]; [|right; assumption].
        left. exists e0. split; [|exact Hn].
        apply set_in_other; [exact Hin|].
        intros E. apply Hlast. symmetry. exact E.
Qed.

Lemma details_stripped (c : string) (x : Blob.t) :
  c <> "" -> Py.count "/" c = 0 -> Blob.container x = Some c ->
  Py.rstrip "/" (Entry.name (_details x true)) = Entry.name (_details x true)
  /\ Py.rsplit_last "/" (Entry.name (_details x true)) <> "".
Proof.
  intros Hne Hc Hx. unfold _details. rewrite Hx. cbn [Entry.name].
  split.
  - apply rstrip_idem.
  - apply rsplit_last_nonempty.
    + apply rstrip_nonempty; assumption.
    + apply endswith_rstrip.
Qed.

Lemma collect_keys (withdirs : bool) (evs : list event) :
  forall out path out' path',
    collect withdirs evs out path = inr (out', path') ->
    forall k, In k (Dict.keys out) -> In k (Dict.keys out').
Proof.
  induction evs as [|ev evs IH]; intros out path out' path' Hc k Hk.
  - cbn in Hc. inversion Hc; subst. assumption.
  - destruct ev as [q|[q ds fs|q ds fs]]; cbn [collect] in Hc.
    + eapply IH; eassumption.
    + eapply IH; [exact Hc|]. apply update_keys_old. assumption.
    + discriminate.
Qed.

(** The level that [walk] yields for a path naming one of several blobs
    under its key. *)
Lemma walk_level_several (c k : string) (blobs : list Blob.t) (sz : option Z)
      (bt : string) (inside : list Blob.t) :
  c <> "" -> Py.count "/" c = 0 ->
  _strip_protocol (c ++ "/" ++ k) = (c ++ "/" ++ k)%string ->
  Py.rstrip "/" (c ++ "/" ++ k) = (c ++ "/" ++ k)%string ->
  Py.mem k [""; "/"] = false ->
  walk_blobs c k = inr blobs ->
  2 <= List.length blobs ->
  In (Blob.mk Blob.BlobProperties k (Some c) sz (Some bt) inside) blobs ->
  Forall (fun x => Blob.container x = Some c) blobs ->
  exists fds ds fs,
    walk_level (c ++ "/" ++ k) true
    = ([Listed (c ++ "/" ++ k); Yielded (WalkDetail (c ++ "/" ++ k) ds fs)],
       inr fds)
    /\ (exists e0, In ("", e0) fs /\ Entry.name e0 = (c ++ "/" ++ k)%string)
    /\ (forall n e, In (n, e) ds -> n <> "").
Proof.
  intros Hne Hc Hpath Hr Hk Hblobs Hlen Hin Hall.
  destruct (mem_no_slash c Hne Hc) as [Hm _].
  assert (Hls : ls (c ++ "/" ++ k) true true
                = inr (Some (map Info (map (fun x => _details x true) blobs)))).
  { rewrite (ls_lists_blobs (c ++ "/" ++ k) true true c k).
    - rewrite Hblobs. destruct blobs as [|x [|y rest]]; cbn in Hlen; try lia.
      unfold render. rewrite map_map. reflexivity.
    - apply split_path_join; assumption.
    - rewrite Hk. apply andb_false_r.
    - exact Hm. }
  unfold walk_level. rewrite Hls.
  destruct (classify_keeps_self (c ++ "/" ++ k)
              (map (fun x => _details x true) blobs) [] [] [])
    as (fd & ds & fs & Hcl & Hself & Hds).
  - intros e He. apply in_map_iff in He. destruct He as (x & Ex & Hx).
    subst e. apply (details_stripped c x Hne Hc).
    rewrite Forall_forall in Hall. apply Hall. exact Hx.
  - intros n e [].
  - right. exists (_details (Blob.mk Blob.BlobProperties k (Some c) sz (Some bt)
                                     inside) true).
    split; [exact (in_map (fun x => _details x true) _ _ Hin)|].
    cbn. exact Hr.
  - rewrite Hcl. exists (Dict.keys fd), ds, fs.
    repeat split; assumption.
Qed.

(** What [find] collects from a walk that starts with such a level. *)
Lemma collect_self (withdirs : bool) (p : string) (ds fs : Dict.t Entry.t)
      (rest : list event) (out : Dict.t (option Entry.t)) (path : string) :
  (exists e0, In ("", e0) fs /\ Entry.name e0 = p) ->
  (forall n e, In (n, e) ds -> n <> "") ->
  collect withdirs (Listed p :: Yielded (WalkDetail p ds fs) :: rest) [] p
  = inr (out, path) ->
  In p (Dict.keys out).
Proof.
  intros (e0 & Hin & Hn) Hds Hc. cbn [collect] in Hc.
  eapply collect_keys; [exact Hc|].
  apply update_keys_new. apply update_keys_new.
  unfold Dict.keys. rewrite map_map. cbn [fst].
  apply in_map_iff. exists ("", e0). split; [exact Hn|].
  destruct withdirs; [|exact Hin].
  apply update_in_other; [exact Hin|exact Hds].
Qed.

Lemma collect_total (withdirs : bool) (evs : list event) :
  forall out path,
    (forall q ds fs, ~ In (Yielded (WalkNames q ds fs)) evs) ->
    exists out' path', collect withdirs evs out path = inr (out', path').
Proof.
  induction evs as [|ev evs IH]; intros out path Hn.
  - exists out, path. reflexivity.
  - assert (Hn' : forall q ds fs, ~ In (Yielded (WalkNames q ds fs)) evs).
    { intros q ds fs Hin. apply (Hn q ds fs). right. assumption. }
    destruct ev as [q|[q ds fs|q ds fs]]; cbn [collect].
    + apply IH. exact Hn'.
    + apply IH. exact Hn'.
    + exfalso. apply (Hn q ds fs). left. reflexivity.
Qed.

(** Where [find] does include the path.  Let the path [container/key]
    name a blob that the service lists under the key, among blobs of that
    container.  When there are several blobs under the key, or the blob is a
    block blob, or the inherited [isfile] says the path is a file, every
    result [find] returns contains the path.  [find] does return: [[path]]
    when the blob is alone under the key, and some result whenever the walk
    is capped at one level. *)
Theorem find_file (fuel : nat) (c k : string) (sz : option Z) (bt : string)
        (inside : list Blob.t) (blobs : list Blob.t)
        (maxdepth : option Z) (withdirs : bool)
        (Hne : c <> "") (Hc : Py.count "/" c = 0)
        (Hpath : _strip_protocol (c ++ "/" ++ k) = (c ++ "/" ++ k)%string)
        (Hr : Py.rstrip "/" (c ++ "/" ++ k) = (c ++ "/" ++ k)%string)
        (Hk : Py.mem k [""; "/"] = false)
        (Hblobs : walk_blobs c k = inr blobs)
        (Hin : In (Blob.mk Blob.BlobProperties k (Some c) sz (Some bt) inside)
                  blobs)
        (Hall : Forall (fun x => Blob.container x = Some c) blobs)
        (Hfile : 2 <= List.length blobs \/ bt = "BlockBlob"
                 \/ isfile (c ++ "/" ++ k) = true) :
  (forall r, find fuel (c ++ "/" ++ k) maxdepth withdirs false = Ok (Names r) ->
             In (c ++ "/" ++ k)%string r)
  /\ (blobs = [Blob.mk Blob.BlobProperties k (Some c) sz (Some bt) inside] ->
      find (S fuel) (c ++ "/" ++ k) maxdepth withdirs false
      = Ok (Names [(c ++ "/" ++ k)%string]))
  /\ (exists r, find (S fuel) (c ++ "/" ++ k) (Some 1%Z) withdirs false
                = Ok (Names r)).
Proof.
  assert (Hone : forall fuel' md,
            blobs = [Blob.mk Blob.BlobProperties k (Some c) sz (Some bt) inside] ->
            find (S fuel') (c ++ "/" ++ k) md withdirs false
            = Ok (Names [(c ++ "/" ++ k)%string])).
  { intros fuel' md Eb. rewrite Eb in Hblobs, Hfile.
    destruct (String.eqb_spec bt "BlockBlob") as [E|E].
    - subst bt.
      apply (find_block_blob fuel' c k sz inside md withdirs
               Hne Hc Hpath Hr Hk Hblobs).
    - destruct Hfile as [Hlen|[Ebt|Hisfile]];
        [cbn in Hlen; lia|contradiction|].
      rewrite (find_other_blob fuel' c k sz bt inside md withdirs
                 Hne Hc Hpath Hk Hblobs).
      + rewrite Hisfile. reflexivity.
      + apply String.eqb_neq. exact E. }
  destruct blobs as [|x [|y rest]].
  - contradiction.
  - (* the blob alone *)
    destruct Hin as [Ex|[]]. subst x.
    split; [|split].
    + intros r Hfind. destruct fuel as [|fuel']; [discriminate|].
      rewrite (Hone fuel' maxdepth eq_refl) in Hfind.
      inversion Hfind; subst r. left. reflexivity.
    + intros _. apply Hone. reflexivity.
    + eexists. apply Hone. reflexivity.
  - (* several blobs *)
    destruct (walk_level_several c k (x :: y :: rest) sz bt inside
                Hne Hc Hpath Hr Hk Hblobs ltac:(cbn; lia) Hin Hall)
      as (fds & ds & fs & Hlvl & Hself & Hds).
    split; [|split].
    + intros r Hfind. destruct fuel as [|fuel']; [discriminate|].
      unfold find in Hfind. rewrite Hpath, walk_S, Hpath, Hlvl in Hfind.
      assert (Hgen : forall evs' st,
                match collect withdirs
                        ([Listed (c ++ "/" ++ k);
                          Yielded (WalkDetail (c ++ "/" ++ k) ds fs)] ++ evs')
                        [] (c ++ "/" ++ k), st with
                | inl e, _ => Raise e
                | _, Raised e => Raise e
                | _, OutOfFuel => Timeout
                | inr (out, path), Done =>
                    Ok (Names
                          (Py.sorted
                             (Dict.keys
                                (if isfile path && negb (Dict.mem path out)
                                 then Dict.set path None out else out))))
                end = Ok (Names r) ->
                In (c ++ "/" ++ k)%string r).
      { intros evs' st Hres.
        destruct (collect withdirs _ [] (c ++ "/" ++ k))
          as [e|[out path]] eqn:Hcol; [discriminate|].
        destruct st; try discriminate.
        inversion Hres; subst r. apply sorted_in.
        pose proof (collect_self withdirs _ ds fs evs' out path Hself Hds Hcol)
          as Hkey.
        destruct (isfile path && negb (Dict.mem path out));
          [apply keys_set_old|]; exact Hkey. }
      destruct (next_depth maxdepth) as [md|].
      * destruct (walk_each (fun d => walk fuel' d md true) fds)
          as [evs' st] eqn:He.
        apply (Hgen evs' st). exact Hfind.
      * apply (Hgen [] Done). exact Hfind.
    + intros Eb. inversion Eb.
    + unfold find. rewrite Hpath, walk_S, Hpath, Hlvl.
      cbn [next_depth Z.sub Z.ltb Z.compare Z.add Z.opp Z.pos_sub].
      destruct (collect_total withdirs
                  [Listed (c ++ "/" ++ k);
                   Yielded (WalkDetail (c ++ "/" ++ k) ds fs)]
                  [] (c ++ "/" ++ k)) as (out & path & Hcol).
      { intros q ds' fs' [E|[E|[]]]; discriminate. }
      rewrite Hcol. eexists. reflexivity.
Qed.

End FindFile.

(** C6 fails on the code.  In a container holding the block blob ["f.txt"]
    and the append blob ["log"], the path ["c/log"] denotes a file: [info]
    returns a file of 7 bytes and [exists] says yes.  Listed alone under its
    key, a blob that is not a block blob makes [ls] raise
    [FileNotFoundError]; [walk] takes that for an empty directory, and with
    the inherited [isfile] answering no, [find] returns the empty list,
    whatever the depth.  The block blob beside it is found. *)
Theorem find_misses_lone_append_blob :
  @AzureBlobFileSystem.info Demo.append_account "c/log"
  = inr (Entry.mk "c/log" 7 "file")
  /\ @AzureBlobFileSystem.exists_ Demo.append_account "c/log" = true
  /\ @AzureBlobFileSystem.ls Demo.append_account "c/log" true true
     = inl Py.FileNotFoundError
  /\ (forall fuel maxdepth withdirs,
        @AzureBlobFileSystem.find Demo.append_account (S fuel) "c/log"
           maxdepth withdirs false
        = AzureBlobFileSystem.Ok (AzureBlobFileSystem.Names []))
  /\ @AzureBlobFileSystem.find Demo.append_account 1 "c/f.txt" None false
        false
     = AzureBlobFileSystem.Ok (AzureBlobFileSystem.Names ["c/f.txt"]).
Proof.
  split; [reflexivity|]. split; [reflexivity|]. split; [reflexivity|].
  split; [|reflexivity].
  intros fuel maxdepth withdirs.
  exact (@find_other_blob Demo.append_account fuel "c" "log" (Some 7%Z)
           "AppendBlob" [] maxdepth withdirs
           ltac:(discriminate) eq_refl eq_refl eq_refl eq_refl eq_refl).
Qed.


(** ** The theorems at work on the small account *)

Lemma forced_flush_is_terminal_witness :
  let w1 := snd (AzureBlobFile.flush true Demo.fresh_world) in
  let w2 := @AzureBlobFile.perform_all Demo.account
              [AzureBlobFile.CallClose; AzureBlobFile.CallFlush false] w1 in
  (exists msg,
      AzureBlobFile.write Demo.two_bytes w2 = (inl (Py.ValueError msg), w2))
  /\ (exists msg,
         AzureBlobFile.flush true w2 = (inl (Py.ValueError msg), w2)).
Proof.
  exact (@forced_flush_is_terminal Demo.account Demo.fresh_world
           (snd (AzureBlobFile.flush true Demo.fresh_world))
           [AzureBlobFile.CallClose; AzureBlobFile.CallFlush false]
           Demo.two_bytes eq_refl eq_refl).
Defined.

Lemma glob_literal_witness :
  @AzureBlobFileSystem.glob Demo.account 0 "/c/f.txt" false
  = AzureBlobFileSystem.Ok (AzureBlobFileSystem.Names ["c/f.txt"])
  /\ @AzureBlobFileSystem.glob Demo.account 0 "c/f.txt" false
     = AzureBlobFileSystem.Ok (AzureBlobFileSystem.Names ["c/f.txt"])
  /\ @AzureBlobFileSystem.glob Demo.account 0 "c/nope" false
     = AzureBlobFileSystem.Ok (AzureBlobFileSystem.Names []).
Proof.
  split; [|split].
  - exact (proj1 (@glob_literal Demo.account 0 "/c/f.txt" eq_refl eq_refl)).
  - exact (proj2 (@glob_literal Demo.account 0 "c/f.txt" eq_refl eq_refl)
                 eq_refl).
  - exact (proj2 (@glob_literal Demo.account 0 "c/nope" eq_refl eq_refl)
                 eq_refl).
Defined.


Lemma find_file_witness :
  @AzureBlobFileSystem.find Demo.account 1 "c/f.txt" None false false
  = AzureBlobFileSystem.Ok (AzureBlobFileSystem.Names ["c/f.txt"]).
Proof.
  refine (proj1 (proj2
            (@find_file Demo.account 0 "c" "f.txt" (Some 5%Z) "BlockBlob" []
               [Demo.file_blob "f.txt" 5] None false
               _ eq_refl eq_refl eq_refl eq_refl eq_refl
               (or_introl eq_refl) _ (or_intror (or_introl eq_refl))))
            eq_refl).
  - discriminate.
  - repeat constructor.
Defined.

Lemma ls_no_blobs_witness :
  @AzureBlobFileSystem.ls Demo.account "c/nope" false false
  = inl Py.FileNotFoundError
  /\ @AzureBlobFileSystem.ls Demo.account "c/nope" false true = inr (Some []).
Proof.
  destruct (@ls_no_blobs Demo.account "c/nope" false "c" "nope"
              eq_refl eq_refl eq_refl eq_refl) as (Hraise & Hglob & _).
  split; assumption.
Defined.

Lemma seek_bounds_witness :
  AzureDatalakeFile.seek (AzureDatalakeFile.mk "rb" 3 10) (-1) 0
  = inl (Py.ValueError "Seek before start of file")
  /\ AzureDatalakeFile.seek (AzureDatalakeFile.mk "rb" 3 10) 0 2
     = inr (AzureDatalakeFile.mk "rb" 10 10, 10%Z).
Proof.
  destruct (seek_bounds (AzureDatalakeFile.mk "rb" 3 10) eq_refl
              ltac:(cbn; lia))
    as (Hneg & _ & _ & _ & _ & Hend & _).
  split; assumption.
Defined.

Lemma ls_item_paged_raises_witness :
  @AzureBlobFileSystem.ls Demo.paged_account "c/p" true false
  = inl Py.TypeError.
Proof.
  exact (@ls_item_paged_raises Demo.paged_account "c/p" true false "c" "p"
           Demo.paged_blob "PageBlob"
           eq_refl eq_refl eq_refl eq_refl eq_refl eq_refl eq_refl).
Defined.

(** * Further properties of the module *)

(** ** Paths *)

Section Paths.

Import AzureBlobFileSystem.
Context `{Collaborators}.

Lemma lstrip_head (s : string) :
  match Py.lstrip "/" s with
  | String a _ => a <> "/"%char
  | EmptyString => True
  end.
Proof.
  induction s as [|a s IH]; [exact I|].
  cbn [Py.lstrip]. destruct (Ascii.eqb_spec a "/") as [E|E]; [exact IH|exact E].
Qed.

Lemma lstrip_idem (s : string) :
  Py.lstrip "/" (Py.lstrip "/" s) = Py.lstrip "/" s.
Proof.
  pose proof (lstrip_head s) as Hh.
  destruct (Py.lstrip "/" s) as [|a r]; [reflexivity|].
  cbn [Py.lstrip]. destruct (Ascii.eqb_spec a "/"); [contradiction|reflexivity].
Qed.

(** What [_strip_protocol] returns never starts with ["/"], whatever
    [infer_storage_options] makes of the path, and stripping its leading
    slashes again changes nothing. *)
Theorem strip_protocol_no_leading_slash (path : string) :
  match _strip_protocol path with
  | String a _ => a <> "/"%char
  | EmptyString => True
  end
  /\ Py.lstrip "/" (_strip_protocol path) = _strip_protocol path.
Proof.
  unfold _strip_protocol. split; [apply lstrip_head|apply lstrip_idem].
Qed.

Lemma find_from_none (s : string) :
  forall i, (0 <= i)%Z -> (Py.find_from "/" s i < 0)%Z -> Py.count "/" s = 0.
Proof.
  induction s as [|a s IH]; intros i Hi Hf; [reflexivity|].
  cbn [Py.find_from String.prefix] in Hf. cbn [Py.count].
  destruct (ascii_dec "/" a) as [E|E].
  - exfalso. destruct s; cbn [String.prefix] in Hf; lia.
  - destruct (Ascii.eqb_spec a "/") as [E'|E']; [congruence|].
    cbn. apply (IH (i + 1)%Z); [lia|exact Hf].
Qed.

Lemma contains_false_count (s : string) :
  Py.contains "/" s = false -> Py.count "/" s = 0.
Proof.
  unfold Py.contains, Py.find. intros Hc. apply Z.leb_gt in Hc.
  apply (find_from_none s 0); [lia|exact Hc].
Qed.

Lemma split_once_some (s : string) :
  forall a b, Py.split_once "/" s = Some (a, b) ->
              s = (a ++ "/" ++ b)%string /\ Py.count "/" a = 0.
Proof.
  induction s as [|x s IH]; intros a b Hs; [discriminate|].
  cbn [Py.split_once] in Hs.
  destruct (Ascii.eqb_spec x "/") as [E|E].
  - inversion Hs; subst. split; reflexivity.
  - destruct (Py.split_once "/" s) as [[a' b']|]; [|discriminate].
    inversion Hs; subst. destruct (IH a' b eq_refl) as [Es Ec].
    split.
    + cbn [String.append]. f_equal. exact Es.
    + cbn [Py.count]. destruct (Ascii.eqb_spec x "/"); [contradiction|exact Ec].
Qed.

Lemma split_once_none (s : string) :
  Py.split_once "/" s = None -> Py.count "/" s = 0.
Proof.
  induction s as [|x s IH]; intros Hs; [reflexivity|].
  cbn [Py.split_once] in Hs. cbn [Py.count].
  destruct (Ascii.eqb x "/"); [discriminate|].
  destruct (Py.split_once "/" s) as [[a b]|]; [discriminate|].
  apply IH. reflexivity.
Qed.

Lemma split_path_shape (path : string) :
  Py.count "/" (fst (split_path path)) = 0
  /\ (Py.mem path [""; "/"] = true -> split_path path = ("", ""))
  /\ (Py.mem path [""; "/"] = false ->
      (split_path path = (_strip_protocol path, "")
       /\ Py.count "/" (_strip_protocol path) = 0)
      \/ (fst (split_path path) ++ "/" ++ snd (split_path path))%string
         = _strip_protocol path).
Proof.
  unfold split_path.
  destruct (Py.mem path [""; "/"]) eqn:Hm.
  - repeat split; try reflexivity. discriminate.
  - assert (Hl : Py.lstrip "/" (_strip_protocol path) = _strip_protocol path)
      by (unfold _strip_protocol; apply lstrip_idem).
    rewrite Hl.
    destruct (Py.contains "/" (_strip_protocol path)) eqn:Hc; cbn [negb].
    + destruct (Py.split_once "/" (_strip_protocol path)) as [[c k]|] eqn:Hs.
      * destruct (split_once_some _ c k Hs) as [Es Ec]. cbn [fst snd].
        repeat split; [exact Ec|discriminate|].
        intros _. right. symmetry. exact Es.
      * pose proof (split_once_none _ Hs) as Ec. cbn [fst].
        repeat split; [exact Ec|discriminate|].
        intros _. left. split; [reflexivity|exact Ec].
    + pose proof (contains_false_count _ Hc) as Ec. cbn [fst].
      repeat split; [exact Ec|discriminate|].
      intros _. left. split; [reflexivity|exact Ec].
Qed.

(** [split_path]: the container never holds a ["/"]; either the key is
    empty and the container is the whole stripped path, or container and
    key joined by ["/"] give the stripped path back. *)
Theorem split_path_rejoin (path : string) :
  Py.count "/" (fst (split_path path)) = 0
  /\ (Py.mem path [""; "/"] = true -> split_path path = ("", ""))
  /\ (Py.mem path [""; "/"] = false ->
      (split_path path = (_strip_protocol path, "")
       /\ Py.count "/" (_strip_protocol path) = 0)
      \/ (fst (split_path path) ++ "/" ++ snd (split_path path))%string
         = _strip_protocol path).
Proof. exact (split_path_shape path). Qed.

End Paths.

(** ** Seeking on a Gen1 handle *)

Section SeekMore.

Import AzureDatalakeFile.
Local Open Scope Z_scope.

(** A seek that succeeds returns the new cursor, which is not negative,
    and leaves mode and size alone; an absolute seek followed by a relative
    one lands where one absolute seek to the sum does. *)
Theorem seek_composes (self : t) (a b : Z)
        (Hmode : mode self = "rb") (Ha : 0 <= a) (Hab : 0 <= a + b) :
  (forall loc0 whence self' r,
      seek self loc0 whence = inr (self', r) ->
      loc self' = r /\ 0 <= r /\ mode self' = mode self
      /\ size self' = size self)
  /\ (exists self1,
         seek self a 0 = inr (self1, a)
         /\ seek self1 b 1 = seek self (a + b) 0).
Proof.
  split.
  - intros loc0 whence self' r Hs. unfold seek in Hs.
    destruct (negb (mode self =? "rb")%string); [discriminate|].
    destruct (if whence =? 0 then inr loc0
              else if whence =? 1 then inr (loc self + loc0)
              else if whence =? 2 then inr (size self + loc0)
              else inl (Py.ValueError
                          ("invalid whence (" ++ Py.str_Z whence
                           ++ ", should be 0, 1 or 2)")%string))
      as [e|n]; [discriminate|].
    destruct (Z.ltb_spec n 0); [discriminate|].
    inversion Hs; subst. cbn. repeat split; try reflexivity. assumption.
  - exists (mk (mode self) a (size self)). unfold seek.
    rewrite Hmode. cbn [String.eqb Ascii.eqb Bool.eqb negb mode loc size
                        Z.eqb Pos.eqb].
    destruct (Z.ltb_spec a 0); [lia|].
    split; [reflexivity|].
    destruct (Z.ltb_spec (a + b) 0); [lia|reflexivity].
Qed.

End SeekMore.

Lemma split_path_rejoin_witness :
  @AzureBlobFileSystem.split_path Demo.account "c/d/x" = ("c", "d/x")
  /\ ("c" ++ "/" ++ "d/x")%string
     = @AzureBlobFileSystem._strip_protocol Demo.account "c/d/x".
Proof.
  destruct (@split_path_rejoin Demo.account "c/d/x") as (_ & _ & Hj).
  destruct (Hj eq_refl) as [[E _]|E].
  - discriminate E.
  - split; [reflexivity|exact E].
Defined.

Lemma seek_composes_witness :
  exists self1,
    AzureDatalakeFile.seek (AzureDatalakeFile.mk "rb" 0 10) 4 0 = inr (self1, 4%Z)
    /\ AzureDatalakeFile.seek self1 (-3) 1
       = AzureDatalakeFile.seek (AzureDatalakeFile.mk "rb" 0 10) (4 + -3) 0.
Proof.
  exact (proj2 (seek_composes (AzureDatalakeFile.mk "rb" 0 10) 4 (-3)
                  eq_refl ltac:(lia) ltac:(lia))).
Defined.

(** ** The writer: writes of any size *)

Section WriterAnySize.

Import AzureBlobFile Buffering.
Context `{Collaborators}.

Variables (path mode : string) (blocksize : nat) (r0 : remote)
          (inv : list string).
Hypothesis Hmode : write_mode mode = true.
Hypothesis Hdelete : delete_fails r0 = false.

Local Arguments Py.format_07d : simpl never.
Local Arguments written : simpl never.
Local Arguments block_ids : simpl never.
Local Arguments Nat.leb : simpl never.
Local Arguments Nat.ltb : simpl never.
Local Arguments flush : simpl never.
Local Arguments _initiate_upload : simpl never.
Local Arguments _upload_chunk : simpl never.

Lemma buffered_some (b0 : bytes) (bl : list bytes) (buf : bytes) :
  buffered path mode blocksize r0 inv (b0 :: bl, buf)
  = mk_world
      (mk path mode blocksize false false buf (Some (written (b0 :: bl)))
          (written (b0 :: bl) + List.length buf)
          (Some (block_ids (List.length (b0 :: bl)))))
      (mk_remote None
                 (rev (combine (block_ids (List.length (b0 :: bl))) (b0 :: bl))
                  ++ staged r0)%list
                 (committed r0) false)
      inv.
Proof. reflexivity. Qed.

Lemma snoc_cons {A} (l : list A) (x : A) : exists y l', (l ++ [x])%list = y :: l'.
Proof. destruct l; eexists; eexists; reflexivity. Qed.

Lemma write_buffered (st : list bytes * bytes) (d : bytes) :
  write d (buffered path mode blocksize r0 inv st)
  = (inr (List.length d),
     buffered path mode blocksize r0 inv (chunk blocksize st d)).
Proof.
  destruct st as [blocks buf]. unfold chunk. cbn [fst snd].
  destruct blocks as [|b0 bl].
  - unfold write, bind at 1 2 3 4, get, buffered, set_file.
    cbn. rewrite Hmode. cbn.
    destruct (Nat.leb_spec blocksize (List.length (buf ++ d))) as [Hle|Hlt].
    + unfold flush, bind at 1 2 3, get, set_file. cbn. rewrite Hmode. cbn.
      destruct (Nat.ltb_spec (List.length (buf ++ d)) blocksize); [lia|].
      unfold bind, get, set_file. cbn.
      rewrite initiate_upload_ok by assumption.
      erewrite upload_chunk_stage by reflexivity.
      cbn. unfold ret, with_buffer, with_offset, with_block_list, with_loc.
      cbn. unfold written, block_ids. cbn.
      rewrite length_app, Nat.add_0_r. reflexivity.
    + unfold ret, bind. cbn. unfold with_buffer, with_loc. cbn.
      rewrite length_app. reflexivity.
  - rewrite buffered_some.
    unfold write, bind at 1 2 3 4, get, set_file.
    cbn. rewrite Hmode. cbn.
    destruct (Nat.leb_spec blocksize (List.length (buf ++ d))) as [Hle|Hlt].
    + unfold flush, bind at 1 2 3, get, set_file. cbn. rewrite Hmode. cbn.
      destruct (Nat.ltb_spec (List.length (buf ++ d)) blocksize); [lia|].
      unfold bind, get, set_file. cbn.
      erewrite upload_chunk_stage by reflexivity.
      cbn. unfold ret, with_buffer, with_offset, with_block_list, with_loc.
      cbn.
      unfold buffered. cbn [fst snd app].
      change (b0 :: bl ++ [(buf ++ d)%list])%list
        with ((b0 :: bl) ++ [(buf ++ d)%list])%list.
      change (S (List.length (bl ++ [(buf ++ d)%list])))
        with (List.length ((b0 :: bl) ++ [(buf ++ d)%list])).
      change (S (List.length bl)) with (List.length (b0 :: bl)).
      set (ds := b0 :: bl). set (x := (buf ++ d)%list).
      assert (Eids : (block_ids (List.length ds)
                      ++ [Py.format_07d (List.length ds)])%list
                     = block_ids (List.length (ds ++ [x]))).
      { rewrite length_app, Nat.add_1_r, block_ids_S. reflexivity. }
      assert (Eloc : written ds + List.length buf + List.length d
                     = written ds + List.length x + 0).
      { subst x. rewrite length_app. lia. }
      rewrite block_ids_length, staged_step, written_app, Eids, Eloc.
      reflexivity.
    + unfold ret, bind. cbn. unfold with_buffer, with_loc. cbn.
      unfold buffered. cbn [fst snd].
      rewrite length_app, Nat.add_assoc. reflexivity.
Qed.


Lemma write_all_buffered (datas : list bytes) :
  forall st,
    write_all datas (buffered path mode blocksize r0 inv st)
    = (inr tt,
       buffered path mode blocksize r0 inv (fold_left (chunk blocksize) datas st)).
Proof.
  induction datas as [|d datas IH]; intros st; [reflexivity|].
  cbn [write_all fold_left]. unfold bind.
  rewrite write_buffered. apply IH.
Qed.

Lemma chunk_concat (st : list bytes * bytes) (d : bytes) :
  (concat (fst (chunk blocksize st d)) ++ snd (chunk blocksize st d))%list
  = ((concat (fst st) ++ snd st) ++ d)%list.
Proof.
  unfold chunk. destruct (blocksize <=? List.length (snd st ++ d))%nat;
    cbn [fst snd].
  - rewrite concat_app. cbn [concat]. rewrite !app_nil_r, app_assoc.
    reflexivity.
  - rewrite app_assoc. reflexivity.
Qed.

Lemma chunks_concat (datas : list bytes) :
  forall st,
    (concat (fst (fold_left (chunk blocksize) datas st))
     ++ snd (fold_left (chunk blocksize) datas st))%list
    = ((concat (fst st) ++ snd st) ++ concat datas)%list.
Proof.
  induction datas as [|d datas IH]; intros st; cbn [fold_left concat].
  - rewrite app_nil_r. reflexivity.
  - rewrite IH, chunk_concat, <- app_assoc. reflexivity.
Qed.

Lemma chunk_full (st : list bytes * bytes) (d : bytes) :
  Forall (fun b => blocksize <= List.length b) (fst st) ->
  Forall (fun b => blocksize <= List.length b) (fst (chunk blocksize st d))
  /\ (snd (chunk blocksize st d) = []
      \/ List.length (snd (chunk blocksize st d)) < blocksize).
Proof.
  intros Hfull. unfold chunk.
  destruct (Nat.leb_spec blocksize (List.length (snd st ++ d))) as [Hle|Hlt];
    cbn [fst snd].
  - split; [|left; reflexivity].
    apply Forall_app. split; [exact Hfull|]. constructor; [exact Hle|constructor].
  - split; [exact Hfull|right; exact Hlt].
Qed.

Lemma chunks_full (datas : list bytes) :
  forall st,
    Forall (fun b => blocksize <= List.length b) (fst st) ->
    snd st = [] \/ List.length (snd st) < blocksize ->
    Forall (fun b => blocksize <= List.length b)
           (fst (fold_left (chunk blocksize) datas st))
    /\ (snd (fold_left (chunk blocksize) datas st) = []
        \/ List.length (snd (fold_left (chunk blocksize) datas st)) < blocksize).
Proof.
  induction datas as [|d datas IH]; intros st Hfull Hbuf; cbn [fold_left].
  - split; assumption.
  - destruct (chunk_full st d Hfull) as [Hf Hb]. apply IH; assumption.
Qed.

Lemma assemble_last (ds : list bytes) (b : bytes) (old : list (string * bytes)) :
  assemble (block_ids (List.length ds) ++ [Py.format_07d (List.length ds)])%list
           ((Py.format_07d (List.length ds), b)
              :: rev (combine (block_ids (List.length ds)) ds) ++ old)
  = Some (concat ds ++ b)%list.
Proof.
  rewrite staged_step, <- block_ids_S.
  replace (S (List.length ds)) with (List.length (ds ++ [b]))
    by (rewrite length_app; cbn; lia).
  rewrite assemble_staged, concat_app. cbn [concat].
  rewrite app_nil_r. reflexivity.
Qed.

Lemma close_buffered (st : list bytes * bytes) :
  exists w',
    close (buffered path mode blocksize r0 inv st) = (inr tt, w')
    /\ closed (file w') = true
    /\ loc (file w') = List.length (concat (fst st) ++ snd st)
    /\ committed (store w') = Some (block_ids (S (List.length (fst st))))
    /\ object (store w') = Some (concat (fst st) ++ snd st)%list
    /\ invalidated w' = (inv ++ [path; _parent path])%list.
Proof.
  pose proof (write_mode_not_rb mode Hmode) as Hrb.
  destruct st as [[|b0 bl] buf].
  - unfold close, bind at 1 2, get, buffered. cbn.
    rewrite Hrb. cbn.
    unfold flush, bind at 1 2 3 4, get, set_file. cbn. rewrite Hmode. cbn.
    unfold bind, get, set_file. cbn.
    rewrite initiate_upload_ok by assumption.
    erewrite upload_chunk_final;
      [| reflexivity
       | cbn; rewrite String.eqb_refl; reflexivity ].
    cbn. eexists. split; [reflexivity|].
    cbn. rewrite app_nil_r. repeat split; try reflexivity.
    rewrite <- app_assoc. reflexivity.
  - rewrite buffered_some. cbn [fst snd].
    unfold close, bind at 1 2, get. cbn.
    rewrite Hrb. cbn.
    unfold flush, bind at 1 2 3 4, get, set_file. cbn. rewrite Hmode. cbn.
    unfold bind, get, set_file. cbn.
    change (S (List.length bl)) with (List.length (b0 :: bl)).
    erewrite upload_chunk_final;
      [| reflexivity
       | cbn [buffer with_forced staged];
         rewrite block_ids_length; apply assemble_last ].
    cbn. eexists. split; [reflexivity|].
    cbn. change (S (List.length bl)) with (List.length (b0 :: bl)).
    rewrite block_ids_length, block_ids_S.
    change (b0 ++ concat bl)%list with (concat (b0 :: bl)).
    rewrite length_app, <- written_concat.
    repeat split; try reflexivity.
    rewrite <- app_assoc. reflexivity.
Qed.

(** Whatever the sizes of the writes, closing a fresh write-mode handle
    commits an object that is all the data written, in order; the cursor
    counts its bytes, and the caches of the path and of its parent are
    invalidated. *)
Theorem writes_then_close (datas : list bytes) :
  exists w',
    bind (write_all datas) (fun _ => close)
         (mk_world (open_write path mode blocksize) r0 inv)
    = (inr tt, w')
    /\ object (store w') = Some (concat datas)
    /\ loc (file w') = List.length (concat datas)
    /\ closed (file w') = true
    /\ invalidated w' = (inv ++ [path; _parent path])%list.
Proof.
  pose (st0 := (@nil bytes, @nil Byte.byte)).
  destruct (close_buffered (fold_left (chunk blocksize) datas st0))
    as (w' & Hclose & Hclosed & Hloc & _ & Hobj & Hinv).
  exists w'. unfold bind.
  change (mk_world (open_write path mode blocksize) r0 inv)
    with (buffered path mode blocksize r0 inv st0).
  rewrite write_all_buffered.
  pose proof (chunks_concat datas st0) as Hc. cbn [fst snd concat app st0] in Hc.
  rewrite Hc in Hobj, Hloc.
  repeat split; assumption.
Qed.

(** Before the close, every block [write] has staged holds at least
    [blocksize] bytes, the blocks carry the IDs ["0000000"], ["0000001"], ...
    in the order they were staged, and blocks and buffer together are the
    data written; with a positive block size the buffer holds fewer than
    [blocksize] bytes. *)
Theorem writes_stage_full_blocks (datas : list bytes) :
  exists blocks w,
    write_all datas (mk_world (open_write path mode blocksize) r0 inv)
    = (inr tt, w)
    /\ Forall (fun b => blocksize <= List.length b) blocks
    /\ (0 < blocksize -> List.length (buffer (file w)) < blocksize)
    /\ (concat blocks ++ buffer (file w))%list = concat datas
    /\ staged (store w)
       = (rev (combine (map Py.format_07d (seq 0 (List.length blocks))) blocks)
          ++ staged r0)%list
    /\ committed (store w) = committed r0.
Proof.
  pose (st0 := (@nil bytes, @nil Byte.byte)).
  change (mk_world (open_write path mode blocksize) r0 inv)
    with (buffered path mode blocksize r0 inv st0).
  rewrite write_all_buffered.
  destruct (chunks_full datas st0 ltac:(constructor)
                        ltac:(left; reflexivity)) as [Hfull Hbuf].
  pose proof (chunks_concat datas st0) as Hc. cbn [fst snd concat app st0] in Hc.
  set (st := fold_left (chunk blocksize) datas st0) in *.
  exists (fst st), (buffered path mode blocksize r0 inv st).
  assert (Hb : buffer (file (buffered path mode blocksize r0 inv st)) = snd st).
  { unfold buffered. destruct (fst st); reflexivity. }
  rewrite Hb.
  split; [reflexivity|]. split; [exact Hfull|].
  split.
  { intros Hpos. destruct Hbuf as [E|Hlt]; [rewrite E; cbn; lia|exact Hlt]. }
  split; [exact Hc|].
  unfold buffered. destruct (fst st); split; reflexivity.
Qed.

(** As long as fewer than [blocksize] bytes have been written in all, the
    remote is not touched: nothing is deleted or staged, and the data sits
    in the buffer. *)
Theorem small_writes_only_buffer (datas : list bytes)
        (Hsmall : List.length (concat datas) < blocksize) :
  write_all datas (mk_world (open_write path mode blocksize) r0 inv)
  = (inr tt,
     mk_world (mk path mode blocksize false false (concat datas) None
                  (List.length (concat datas)) None)
              r0 inv).
Proof.
  pose (st0 := (@nil bytes, @nil Byte.byte)).
  change (mk_world (open_write path mode blocksize) r0 inv)
    with (buffered path mode blocksize r0 inv st0).
  rewrite write_all_buffered.
  destruct (chunks_full datas st0 ltac:(constructor)
                        ltac:(left; reflexivity)) as [Hfull _].
  pose proof (chunks_concat datas st0) as Hc. cbn [fst snd concat app st0] in Hc.
  destruct (fold_left (chunk blocksize) datas st0) as [[|b0 bl] buf];
    cbn [fst snd] in *.
  - cbn [concat app] in Hc. rewrite <- Hc. reflexivity.
  - exfalso. apply Forall_cons_iff in Hfull. destruct Hfull as [Hb0 _].
    rewrite <- Hc in Hsmall. cbn [concat] in Hsmall.
    rewrite !length_app in Hsmall. lia.
Qed.

End WriterAnySize.

Section WriterEdges.

Import AzureBlobFile.
Context `{Collaborators}.

Local Arguments Py.format_07d : simpl never.
Local Arguments Nat.leb : simpl never.
Local Arguments Nat.ltb : simpl never.

(** A close that returns leaves the handle closed; after it a second close
    does nothing, every flush raises [ValueError], and so does every
    write. *)
Theorem close_is_final (w w' : world) (Hclose : close w = (inr tt, w')) :
  closed (file w') = true
  /\ close w' = (inr tt, w')
  /\ (forall force,
        flush force w' = (inl (Py.ValueError "Flush on closed file"), w'))
  /\ (forall data, exists msg, write data w' = (inl (Py.ValueError msg), w')).
Proof.
  assert (Hclosed : closed (file w') = true).
  { unfold close, bind at 1, get in Hclose.
    destruct (closed (file w)) eqn:Hc.
    - inversion Hclose; subst. exact Hc.
    - unfold bind at 1 in Hclose.
      match type of Hclose with
      | (let (_, _) := ?c in _) = _ => destruct c as [[e|u] w1]
      end; [discriminate|].
      cbn in Hclose. inversion Hclose; subst. reflexivity. }
  split; [exact Hclosed|]. split; [|split].
  - unfold close, bind, get. rewrite Hclosed. reflexivity.
  - intros force. unfold flush, bind, get. rewrite Hclosed. reflexivity.
  - intros data. unfold write, bind, get. rewrite Hclosed.
    destruct (negb (write_mode (mode (file w')))); eexists; reflexivity.
Qed.

(** When the service refuses the delete that opens the upload, the write
    that first fills a block raises [RuntimeError]; nothing is staged and
    the data stays in the buffer.  The delete is not tried again: a close
    then stages the buffer as block ["0000000"] and commits it. *)
Theorem refused_delete_keeps_data (path mode : string) (blocksize : nat)
        (r0 : remote) (inv : list string) (data : bytes)
        (Hmode : write_mode mode = true)
        (Hdelete : delete_fails r0 = true)
        (Hfull : blocksize <= List.length data) :
  let w1 := mk_world (mk path mode blocksize false false data (Some 0)
                         (List.length data) (Some []))
                     r0 inv in
  write data (mk_world (open_write path mode blocksize) r0 inv)
  = (inl (Py.RuntimeError "Failed for"), w1)
  /\ exists w2,
       close w1 = (inr tt, w2)
       /\ object (store w2) = Some data
       /\ committed (store w2) = Some ["0000000"]
       /\ closed (file w2) = true.
Proof.
  pose proof (write_mode_not_rb mode Hmode) as Hrb.
  destruct r0 as [obj st com df]. cbn in Hdelete. subst df.
  split.
  - unfold write, bind at 1 2 3 4, get, open_write, set_file.
    cbn. rewrite Hmode. cbn.
    destruct (Nat.leb_spec blocksize (List.length data)); [|lia].
    unfold flush, bind at 1 2 3, get, set_file. cbn. rewrite Hmode. cbn.
    destruct (Nat.ltb_spec (List.length data) blocksize); [lia|].
    reflexivity.
  - unfold close, bind at 1 2, get. cbn. rewrite Hrb. cbn.
    unfold flush, bind at 1 2 3 4, get, set_file. cbn. rewrite Hmode. cbn.
    unfold _upload_chunk, commit_block_list, stage_block, bind, get, get_store,
      set_store, set_file.
    cbn. change (Py.format_07d 0) with "0000000". cbn.
    rewrite app_nil_r. eexists. repeat split; reflexivity.
Qed.

End WriterEdges.

Lemma writes_then_close_witness :
  exists w',
    AzureBlobFile.bind
      (AzureBlobFile.write_all [[Byte.x61]; Demo.two_bytes; [Byte.x63]])
      (fun _ => @AzureBlobFile.close Demo.account) Demo.fresh_world
    = (inr tt, w')
    /\ AzureBlobFile.object (AzureBlobFile.store w')
       = Some [Byte.x61; Byte.x61; Byte.x62; Byte.x63].
Proof.
  destruct (@writes_then_close Demo.account "c/new" "wb" 2 Demo.fresh_remote []
              eq_refl eq_refl [[Byte.x61]; Demo.two_bytes; [Byte.x63]])
    as (w' & Hrun & Hobj & _).
  exists w'. split; assumption.
Defined.

Lemma writes_stage_full_blocks_witness :
  exists blocks w,
    AzureBlobFile.write_all [[Byte.x61]; Demo.two_bytes; [Byte.x63]]
                            Demo.fresh_world
    = (inr tt, w)
    /\ Forall (fun b => 2 <= List.length b) blocks
    /\ (concat blocks ++ AzureBlobFile.buffer (AzureBlobFile.file w))%list
       = [Byte.x61; Byte.x61; Byte.x62; Byte.x63].
Proof.
  destruct (writes_stage_full_blocks "c/new" "wb" 2 Demo.fresh_remote []
              eq_refl eq_refl [[Byte.x61]; Demo.two_bytes; [Byte.x63]])
    as (blocks & w & Hrun & Hfull & _ & Hc & _).
  exists blocks, w. repeat split; assumption.
Defined.

Lemma small_writes_only_buffer_witness :
  AzureBlobFile.write_all [[Byte.x61]] Demo.fresh_world
  = (inr tt,
     AzureBlobFile.mk_world
       (AzureBlobFile.mk "c/new" "wb" 2 false false [Byte.x61] None 1 None)
       Demo.fresh_remote []).
Proof.
  exact (small_writes_only_buffer "c/new" "wb" 2 Demo.fresh_remote []
           eq_refl eq_refl [[Byte.x61]] ltac:(cbn; lia)).
Defined.

Lemma close_is_final_witness :
  let w' := snd (@AzureBlobFile.close Demo.account Demo.fresh_world) in
  AzureBlobFile.closed (AzureBlobFile.file w') = true
  /\ @AzureBlobFile.close Demo.account w' = (inr tt, w').
Proof.
  destruct (@close_is_final Demo.account Demo.fresh_world
              (snd (@AzureBlobFile.close Demo.account Demo.fresh_world))
              eq_refl) as (Hc & Hagain & _).
  split; assumption.
Defined.

Lemma refused_delete_keeps_data_witness :
  exists w2,
    @AzureBlobFile.close Demo.account
      (AzureBlobFile.mk_world
         (AzureBlobFile.mk "c/new" "wb" 2 false false Demo.two_bytes (Some 0)
                           2 (Some []))
         (AzureBlobFile.mk_remote (Some [Byte.x7a]) [] None true) [])
    = (inr tt, w2)
    /\ AzureBlobFile.object (AzureBlobFile.store w2) = Some Demo.two_bytes.
Proof.
  destruct (@refused_delete_keeps_data Demo.account "c/new" "wb" 2
              (AzureBlobFile.mk_remote (Some [Byte.x7a]) [] None true) []
              Demo.two_bytes eq_refl eq_refl ltac:(cbn; lia))
    as (_ & w2 & Hclose & Hobj & _).
  exists w2. split; assumption.
Defined.

(** ** What a walk hands out *)

Section WalkMore.

Import AzureBlobFileSystem.
Context `{Collaborators}.

Lemma keys_set_inv {V} (k : string) (v : V) (d : Dict.t V) (x : string) :
  In x (Dict.keys (Dict.set k v d)) -> x = k \/ In x (Dict.keys d).
Proof.
  induction d as [|[k' v'] d IH]; cbn.
  - intros [E|[]]. left. symmetry. exact E.
  - destruct (String.eqb_spec k' k) as [E|E]; cbn.
    + intros [E'|Hin]; [left; symmetry; exact E'|right; right; exact Hin].
    + intros [E'|Hin]; [right; left; exact E'|].
      destruct (IH Hin) as [Ex|Hx]; [left; exact Ex|right; right; exact Hx].
Qed.

(** The loop of [walk] sorts the entries: [full_dirs] and [dirs] get the
    directories other than the path, [files] everything else. *)
Lemma classify_sorts (path : string) (listing : list item) :
  forall fd ds fs fd' ds' fs',
    classify path listing fd ds fs = inr (fd', ds', fs') ->
    ~ In path (Dict.keys fd) ->
    (forall n i, In (n, i) ds ->
                 Entry.type i = "directory"
                 /\ Py.rstrip "/" (Entry.name i) <> path) ->
    (forall n i, In (n, i) fs ->
                 Entry.type i <> "directory"
                 \/ Py.rstrip "/" (Entry.name i) = path) ->
    ~ In path (Dict.keys fd')
    /\ (forall n i, In (n, i) ds' ->
                    Entry.type i = "directory"
                    /\ Py.rstrip "/" (Entry.name i) <> path)
    /\ (forall n i, In (n, i) fs' ->
                    Entry.type i <> "directory"
                    \/ Py.rstrip "/" (Entry.name i) = path).
Proof.
  induction listing as [|it rest IH]; intros fd ds fs fd' ds' fs' Hc Hfd Hds Hfs.
  - cbn in Hc. inversion Hc; subst. split; [|split]; assumption.
  - destruct it as [info|s]; [|discriminate].
    cbn [classify] in Hc.
    destruct (String.eqb_spec (Entry.type info) "directory") as [Et|Et];
      destruct (String.eqb_spec (Py.rstrip "/" (Entry.name info)) path)
        as [Ep|Ep]; cbn [negb andb] in Hc.
    + eapply IH; [exact Hc|exact Hfd|exact Hds|].
      intros n i Hin. apply set_in in Hin.
      destruct Hin as [[_ Ei]|Hin]; [subst i; right; exact Ep|].
      eapply Hfs. exact Hin.
    + eapply IH; [exact Hc| | |exact Hfs].
      * intros Hin. apply keys_set_inv in Hin.
        destruct Hin as [E|Hin]; [apply Ep; symmetry; exact E|].
        apply Hfd. exact Hin.
      * intros n i Hin. apply set_in in Hin.
        destruct Hin as [[_ Ei]|Hin]; [subst i; split; assumption|].
        eapply Hds. exact Hin.
    + eapply IH; [exact Hc|exact Hfd|exact Hds|].
      intros n i Hin. apply set_in in Hin.
      destruct Hin as [[_ Ei]|Hin]; [subst i; right; exact Ep|].
      eapply Hfs. exact Hin.
    + eapply IH; [exact Hc|exact Hfd|exact Hds|].
      intros n i Hin. apply set_in in Hin.
      destruct Hin as [[_ Ei]|Hin]; [subst i; left; exact Et|].
      eapply Hfs. exact Hin.
Qed.

(** A level of [walk] never asks to descend into its own path, even when
    the listing names that path as a directory; the directories of the tuple
    it yields are entries of type ["directory"] other than the path, and its
    files are the entries that are not directories, or are the path
    itself. *)
Theorem walk_level_never_self (path : string) (evs : list event)
        (fds : list string)
        (Hlevel : walk_level path true = (evs, inr fds)) :
  ~ In path fds
  /\ exists dirs files,
       tuples evs = [WalkDetail path dirs files]
       /\ (forall n i, In (n, i) dirs ->
                       Entry.type i = "directory"
                       /\ Py.rstrip "/" (Entry.name i) <> path)
       /\ (forall n i, In (n, i) files ->
                       Entry.type i <> "directory"
                       \/ Py.rstrip "/" (Entry.name i) = path).
Proof.
  unfold walk_level in Hlevel.
  destruct (match ls path true true with
            | inl e => if Py.is_os_error e then inr (Some []) else inl e
            | inr r => inr r
            end) as [e|[listing|]]; try discriminate.
  destruct (classify path listing [] [] []) as [e|[[fd ds] fs]] eqn:Hc;
    [discriminate|].
  inversion Hlevel; subst.
  destruct (classify_sorts path listing [] [] [] fd ds fs Hc)
    as (Hfd & Hds & Hfs).
  - intros [].
  - intros n i [].
  - intros n i [].
  - split; [exact Hfd|]. exists ds, fs.
    split; [reflexivity|]. split; assumption.
Qed.

End WalkMore.

Lemma walk_level_never_self_witness :
  ~ In "c" ["c/d"]
  /\ exists dirs files,
       AzureBlobFileSystem.tuples
         (fst (@AzureBlobFileSystem.walk_level Demo.account "c" true))
       = [AzureBlobFileSystem.WalkDetail "c" dirs files].
Proof.
  destruct (@walk_level_never_self Demo.account "c"
              (fst (@AzureBlobFileSystem.walk_level Demo.account "c" true))
              ["c/d"] eq_refl)
    as (Hself & dirs & files & Ht & _).
  split; [exact Hself|]. exists dirs, files. exact Ht.
Defined.

(** ** What find returns *)

Section FindMore.

Import AzureBlobFileSystem.
Context `{Collaborators}.

Lemma insert_sorted_hd (x y : string) (l : list string) :
  HdRel (fun a b => String.leb a b = true) y l ->
  String.leb y x = true ->
  HdRel (fun a b => String.leb a b = true) y (Py.insert_sorted x l).
Proof.
  intros Hhd Hyx. destruct l as [|z l]; cbn [Py.insert_sorted].
  - constructor. exact Hyx.
  - destruct (String.leb x z); constructor; [exact Hyx|].
    inversion Hhd; subst. assumption.
Qed.

Lemma insert_sorted_sorted (x : string) (l : list string) :
  Sorted (fun a b => String.leb a b = true) l ->
  Sorted (fun a b => String.leb a b = true) (Py.insert_sorted x l).
Proof.
  induction 1 as [|y l Hs IH Hhd]; cbn [Py.insert_sorted].
  - repeat constructor.
  - destruct (String.leb x y) eqn:Hxy.
    + constructor; [constructor; assumption|]. constructor. exact Hxy.
    + constructor; [exact IH|].
      apply insert_sorted_hd; [exact Hhd|].
      destruct (String.leb_total x y) as [E|E]; [congruence|exact E].
Qed.

Lemma sorted_sorted (l : list string) :
  Sorted (fun a b => String.leb a b = true) (Py.sorted l).
Proof.
  induction l as [|x l IH]; cbn [Py.sorted fold_right]; [constructor|].
  apply insert_sorted_sorted. exact IH.
Qed.

Lemma update_in {V} (d2 : Dict.t V) :
  forall (d : Dict.t V) k v,
    In (k, v) (Dict.update d d2) -> In (k, v) d \/ In (k, v) d2.
Proof.
  unfold Dict.update.
  induction d2 as [|[k2 v2] d2 IH]; intros d k v Hin; [left; exact Hin|].
  cbn [fold_left fst snd] in Hin.
  destruct (IH _ _ _ Hin) as [Hd|Hd2]; [|right; right; exact Hd2].
  apply set_in in Hd. destruct Hd as [[Ek Ev]|Hd]; [|left; exact Hd].
  subst. right. left. reflexivity.
Qed.

Lemma get_in {V} (d : Dict.t V) (k : string) (v : V) :
  Dict.get k d = Some v -> In (k, v) d.
Proof.
  induction d as [|[k' v'] d IH]; cbn [Dict.get]; [discriminate|].
  destruct (String.eqb_spec k' k) as [E|E].
  - intros Hv. inversion Hv; subst. left. reflexivity.
  - intros Hv. right. apply IH. exact Hv.
Qed.

(** Every details dict [find] collects sits under its own name. *)
Lemma collect_named (withdirs : bool) (evs : list event) :
  forall out path out' path',
    collect withdirs evs out path = inr (out', path') ->
    (forall k e, In (k, Some e) out -> Entry.name e = k) ->
    forall k e, In (k, Some e) out' -> Entry.name e = k.
Proof.
  induction evs as [|ev evs IH]; intros out path out' path' Hc Hout.
  - cbn in Hc. inversion Hc; subst. exact Hout.
  - destruct ev as [q|[q ds fs|q ds fs]]; cbn [collect] in Hc.
    + eapply IH; [exact Hc|exact Hout].
    + eapply IH; [exact Hc|].
      intros k e Hin. apply update_in in Hin.
      destruct Hin as [Hin|Hin]; [apply Hout; exact Hin|].
      apply update_in in Hin. destruct Hin as [[]|Hin].
      apply in_map_iff in Hin. destruct Hin as ([n i] & E & _).
      cbn [snd] in E. inversion E; subst. reflexivity.
    + discriminate.
Qed.

(** [find] returns its names in ascending order; asked for details, it
    returns a dict with exactly those names as keys, in that order, in which
    every non-empty value is a details dict carrying the name it is filed
    under. *)
Theorem find_sorted_and_named (fuel : nat) (path : string)
        (maxdepth : option Z) (withdirs : bool) (r : list string)
        (Hfind : find fuel path maxdepth withdirs false = Ok (Names r)) :
  Sorted (fun a b => String.leb a b = true) r
  /\ exists d,
       find fuel path maxdepth withdirs true = Ok (Details d)
       /\ Dict.keys d = r
       /\ forall k e, In (k, Some e) d -> Entry.name e = k.
Proof.
  unfold find in *.
  destruct (walk fuel (_strip_protocol path) maxdepth true) as [evs st].
  destruct (collect withdirs evs [] (_strip_protocol path))
    as [e|[out p']] eqn:Hc; [discriminate|].
  destruct st; try discriminate.
  inversion Hfind; subst r. split; [apply sorted_sorted|].
  eexists. split; [reflexivity|]. split.
  - unfold Dict.keys at 1. rewrite map_map. cbn [fst]. apply map_id.
  - intros k e Hin. apply in_map_iff in Hin. destruct Hin as (n & E & _).
    assert (Hout : forall k e, In (k, Some e) out -> Entry.name e = k).
    { eapply collect_named; [exact Hc|]. intros k0 e0 []. }
    injection E as En Ev. subst n.
    destruct (Dict.get k _) as [v|] eqn:Hg in Ev; [|discriminate].
    subst v. apply get_in in Hg.
    destruct (isfile p' && negb (Dict.mem p' out)).
    + apply set_in in Hg. destruct Hg as [[_ Ev]|Hg]; [discriminate|].
      apply Hout. exact Hg.
    + apply Hout. exact Hg.
Qed.

End FindMore.

Lemma find_sorted_and_named_witness :
  Sorted (fun a b => String.leb a b = true) ["c/d"; "c/d/x"; "c/f.txt"]
  /\ exists d,
       @AzureBlobFileSystem.find Demo.account 3 "c" None true true
       = AzureBlobFileSystem.Ok (AzureBlobFileSystem.Details d)
       /\ Dict.keys d = ["c/d"; "c/d/x"; "c/f.txt"].
Proof.
  destruct (@find_sorted_and_named Demo.account 3 "c" None true
              ["c/d"; "c/d/x"; "c/f.txt"] eq_refl)
    as (Hs & d & Hd & Hk & _).
  split; [exact Hs|]. exists d. split; assumption.
Defined.

(** ** What ls and info return *)

Section InfoMore.

Import AzureBlobFileSystem Shapes.
Context `{Collaborators}.

Lemma details_typed (b : Blob.t) (return_glob : bool) :
  typed (_details b return_glob).
Proof.
  unfold typed, _details.
  destruct return_glob, (Blob.container b) as [c|]; cbn [Entry.type Entry.size];
    try (left; split; reflexivity);
    destruct (Blob.size b) as [sz|]; try (left; split; reflexivity);
    destruct (Z.eqb_spec sz 0); [left|right|left|right]; split;
    solve [reflexivity | assumption].
Qed.

Lemma blob_paths_shape (blobs : list Blob.t) :
  forall r, blob_paths blobs = inr r ->
            Forall (fun i => exists p, i = Path p) r.
Proof.
  induction blobs as [|b bs IH]; intros r Hr; cbn [blob_paths] in Hr.
  - inversion Hr. constructor.
  - destruct (Blob.container b) as [c|]; [|discriminate].
    destruct (blob_paths bs) as [e|r']; [discriminate|].
    inversion Hr; subst. constructor; [eexists; reflexivity|].
    apply IH. reflexivity.
Qed.

Lemma map_details_shaped (g : bool) (blobs : list Blob.t) :
  Forall (shaped true) (map (fun b => Info (_details b g)) blobs).
Proof.
  apply Forall_forall. intros i Hi. apply in_map_iff in Hi.
  destruct Hi as (b & E & _). subst i. exists b, g. reflexivity.
Qed.

Lemma inr_some_inj {E A} (a b : A) :
  @inr E (option A) (Some a) = inr (Some b) -> a = b.
Proof. intros Hab. inversion Hab. reflexivity. Qed.

Lemma render_shaped (blobs : list Blob.t) (detail : bool) (out : list item) :
  render blobs detail false = inr (Some out) -> Forall (shaped detail) out.
Proof.
  unfold render. destruct detail.
  - intros Hr. apply inr_some_inj in Hr; subst out. apply map_details_shaped.
  - destruct (blob_paths blobs) as [e|r] eqn:Hb; [discriminate|].
    intros Hr. apply inr_some_inj in Hr; subst out. apply (blob_paths_shape _ _ Hb).
Qed.

Lemma ls_shaped (path : string) (detail : bool) (out : list item) :
  ls path detail false = inr (Some out) -> Forall (shaped detail) out.
Proof.
  intros Hls. unfold ls in Hls.
  destruct (split_path path) as [container key].
  destruct (Py.mem container [""; "."; "/"] && Py.mem key [""; "/"]).
  { destruct detail; apply inr_some_inj in Hls; subst out.
    - apply map_details_shaped.
    - apply Forall_forall. intros i Hi. apply in_map_iff in Hi.
      destruct Hi as (b & E & _). subst i. eexists. reflexivity. }
  destruct (negb (Py.mem container [""; "/"])); [|discriminate].
  destruct (walk_blobs container key) as [e|blobs]; [discriminate|].
  destruct blobs as [|b0 [|b1 rest]].
  - destruct (false || Py.mem key [""; "/"]); [|discriminate].
    apply inr_some_inj in Hls; subst out. constructor.
  - destruct ((Py.rstrip "/" (Blob.name b0) =? key)
              && negb (Blob.has_blob_type b0)).
    { destruct (walk_blobs container (Blob.name b0)) as [e|blobs];
        [discriminate|].
      apply (render_shaped _ _ _ Hls). }
    destruct (Blob.is_prefix b0).
    { destruct (Blob.children b0) as [|b cs]; [discriminate|].
      destruct detail.
      - apply inr_some_inj in Hls; subst out. constructor; [|constructor].
        exists b, false. reflexivity.
      - destruct (Blob.container b) as [c|]; [|discriminate].
        apply inr_some_inj in Hls; subst out. constructor; [|constructor].
        eexists. reflexivity. }
    destruct (Blob.blob_type b0) as [bt|]; [|discriminate].
    destruct (bt =? "BlockBlob").
    + destruct detail.
      * apply inr_some_inj in Hls; subst out. apply map_details_shaped.
      * destruct (blob_paths [b0]) as [e|r] eqn:Hb; [discriminate|].
        apply inr_some_inj in Hls; subst out. apply (blob_paths_shape _ _ Hb).
    + destruct (Blob.is_item_paged b0); discriminate.
  - apply (render_shaped _ _ _ Hls).
Qed.

(** [ls] called without [return_glob] returns dicts built by [_details]
    when [detail] is set and strings when it is not, never a mixture. *)
Theorem ls_detail_selects_shape (path : string) (detail : bool)
        (out : list item)
        (Hls : ls path detail false = inr (Some out)) :
  Forall (shaped detail) out.
Proof. exact (ls_shaped path detail out Hls). Qed.

Lemma ls_detail_typed (path : string) (out : list item) :
  ls_detail path = inr out ->
  forall e, In (Info e) out -> typed e.
Proof.
  unfold ls_detail. intros Hls e Hin.
  destruct (ls path true false) as [x|[l|]] eqn:El; try discriminate.
  inversion Hls; subst l.
  pose proof (ls_shaped _ _ _ El) as Hs.
  rewrite Forall_forall in Hs. destruct (Hs _ Hin) as (b & g & E).
  inversion E. apply details_typed.
Qed.

Lemma named_in (path : string) (out : list item) :
  forall r, named path out = inr r ->
            forall o, In o r ->
                      Py.rstrip "/" (Entry.name o) = path /\ In (Info o) out.
Proof.
  induction out as [|[e|p] out IH]; intros r Hr o Ho; cbn [named] in Hr.
  - inversion Hr; subst. contradiction.
  - destruct (named path out) as [x|r'] eqn:En; [discriminate|].
    inversion Hr; subst r. clear Hr.
    destruct (String.eqb_spec (Py.rstrip "/" (Entry.name e)) path) as [E|E].
    + destruct Ho as [Eo|Ho].
      * subst o. split; [exact E|left; reflexivity].
      * destruct (IH _ eq_refl _ Ho) as [Hn Hi]. split; [exact Hn|right; exact Hi].
    + destruct (IH _ eq_refl _ Ho) as [Hn Hi]. split; [exact Hn|right; exact Hi].
  - discriminate.
Qed.

Lemma typed_iff (x : Entry.t) :
  typed x ->
  (Entry.type x = "directory" <-> Entry.size x = 0%Z)
  /\ (Entry.type x = "file" <-> Entry.size x <> 0%Z).
Proof.
  intros [[Ety Esz]|[Ety Esz]]; rewrite Ety; split; split; intros Hx;
    try reflexivity; try assumption; try discriminate; contradiction.
Qed.

Lemma info_entry (path : string) (e : Entry.t) :
  info path = inr e ->
  Py.rstrip "/" (Entry.name e) = Py.rstrip "/" (_strip_protocol path)
  /\ typed e.
Proof.
  intros Hinfo. unfold info in Hinfo.
  set (p := _strip_protocol path) in *.
  destruct (ls_detail (_parent p)) as [x|out] eqn:El; [discriminate|].
  destruct (named p out) as [x|[|o r]] eqn:En; [discriminate| |].
  - destruct (ls_detail p) as [x|out'] eqn:El'; [discriminate|].
    destruct (named (Py.rstrip "/" p) out') as [x|out1] eqn:En';
      [discriminate|].
    assert (Hdir : forall x, x = Entry.mk (Py.rstrip "/" p) 0%Z "directory" ->
                     Py.rstrip "/" (Entry.name x) = Py.rstrip "/" p
                     /\ typed x).
    { intros x Ex. subst x. cbn [Entry.name].
      split; [apply rstrip_idem|]. left. split; reflexivity. }
    destruct out1 as [|o [|o' r]].
    + destruct ((1 <? List.length (@nil Entry.t))%nat
                || negb match out' with [] => true | _ => false end);
        [|discriminate].
      inversion Hinfo. apply Hdir. reflexivity.
    + inversion Hinfo; subst o.
      destruct (named_in _ _ _ En' e (or_introl eq_refl)) as [Hn Hi].
      split; [exact Hn|]. apply (ls_detail_typed _ _ El' _ Hi).
    + destruct ((1 <? List.length (o :: o' :: r))%nat
                || negb match out' with [] => true | _ => false end);
        [|discriminate].
      inversion Hinfo. apply Hdir. reflexivity.
  - inversion Hinfo; subst o.
    destruct (named_in _ _ _ En e (or_introl eq_refl)) as [Hn Hi].
    split; [rewrite <- Hn; symmetry; apply rstrip_idem|].
    apply (ls_detail_typed _ _ El _ Hi).
Qed.

(** The entry [info] returns is named like the path asked for, up to
    trailing slashes, and is a directory exactly when its size is 0. *)
Theorem info_names_the_path (path : string) (e : Entry.t)
        (Hinfo : info path = inr e) :
  Py.rstrip "/" (Entry.name e) = Py.rstrip "/" (_strip_protocol path)
  /\ (Entry.type e = "directory" <-> Entry.size e = 0%Z)
  /\ (Entry.type e = "file" <-> Entry.size e <> 0%Z).
Proof.
  destruct (info_entry _ _ Hinfo) as [Hn Ht].
  split; [exact Hn|apply typed_iff; exact Ht].
Qed.

End InfoMore.

Lemma ls_detail_selects_shape_witness :
  Forall (Shapes.shaped false) [AzureBlobFileSystem.Path "c/"]
  /\ Forall (Shapes.shaped true)
       [AzureBlobFileSystem.Info
          (AzureBlobFileSystem._details (Demo.file_blob "f.txt" 5) false)].
Proof.
  split.
  - exact (@ls_detail_selects_shape Demo.account "" false _ eq_refl).
  - exact (@ls_detail_selects_shape Demo.account "c/f.txt" true _ eq_refl).
Defined.

Lemma info_names_the_path_witness :
  @AzureBlobFileSystem.info Demo.account "c/f.txt"
  = inr (Entry.mk "c/f.txt" 5 "file")
  /\ Py.rstrip "/" (Entry.name (Entry.mk "c/f.txt" 5 "file"))
     = Py.rstrip "/" (@AzureBlobFileSystem._strip_protocol Demo.account
                        "c/f.txt").
Proof.
  split; [reflexivity|].
  exact (proj1 (@info_names_the_path Demo.account "c/f.txt"
                  (Entry.mk "c/f.txt" 5 "file") eq_refl)).
Defined.

(** ** Calls sent to the service *)

Section ServiceProps.

Import AzureBlobFileSystem ServiceCalls Shapes.
Context `{Collaborators}.
Variable service : call -> option Py.exn.

Lemma count_app (a b : string) :
  Py.count "/" (a ++ b) = Py.count "/" a + Py.count "/" b.
Proof.
  induction a as [|x a IH]; [reflexivity|].
  cbn [String.append Py.count]. rewrite IH. lia.
Qed.

Lemma append_slash_inj (a b : string) : (a ++ "/" = b ++ "/")%string -> a = b.
Proof.
  revert b. induction a as [|x a IH]; intros [|y b] E; cbn in E.
  - reflexivity.
  - inversion E as [[Ey Eb]]. destruct b; discriminate.
  - inversion E as [[Ex Ea]]. destruct a; discriminate.
  - inversion E as [[Ex Ea]]. f_equal. apply IH. exact Ea.
Qed.

Lemma ls_root_containers :
  ls_root = inr (map (fun c => Path (Blob.name c ++ "/")) list_containers).
Proof. reflexivity. Qed.

Lemma contains_item_paths (s : string) (names : list string) :
  contains_item s (map Path names) = Py.mem s names.
Proof.
  unfold contains_item, Py.mem.
  induction names as [|n names IH]; [reflexivity|].
  cbn [map existsb]. rewrite IH. rewrite (String.eqb_sym n s). reflexivity.
Qed.

Lemma mem_in (s : string) (l : list string) : Py.mem s l = true <-> In s l.
Proof.
  unfold Py.mem. rewrite existsb_exists. split.
  - intros (x & Hx & E). apply String.eqb_eq in E. subst. exact Hx.
  - intros Hin. exists s. split; [exact Hin|apply String.eqb_refl].
Qed.

Lemma root_listing (s : string) :
  contains_item s (map (fun c => Path (Blob.name c ++ "/")) list_containers)
  = Py.mem s (map (fun c => Blob.name c ++ "/") list_containers).
Proof. rewrite <- contains_item_paths, map_map. reflexivity. Qed.

(** No container of [split_path] is an element of [ls("")]. *)
Lemma container_not_listed (c : string) :
  Py.count "/" c = 0 ->
  Py.mem c (map (fun b => Blob.name b ++ "/") list_containers) = false.
Proof.
  intros Hc. destruct (Py.mem c _) eqn:Hm; [|reflexivity].
  apply mem_in in Hm. apply in_map_iff in Hm. destruct Hm as (b & E & _).
  subst c. rewrite count_app in Hc. cbn in Hc. lia.
Qed.

Lemma container_slash_listed (c : string) :
  Py.mem (c ++ "/") (map (fun b => Blob.name b ++ "/") list_containers)
  = Py.mem c (map Blob.name list_containers).
Proof.
  apply eq_true_iff_eq. rewrite !mem_in, !in_map_iff. split.
  - intros (b & E & Hb). exists b. split; [|exact Hb].
    apply append_slash_inj. exact E.
  - intros (b & E & Hb). exists b. split; [|exact Hb]. rewrite E. reflexivity.
Qed.

Lemma first_parts_paths (names : list string) :
  first_parts (map Path names)
  = inr (map (fun p => match Py.split_once "/" p with
                       | Some (x, _) => x
                       | None => p
                       end) names).
Proof.
  induction names as [|n names IH]; [reflexivity|].
  cbn [map first_parts]. rewrite IH. reflexivity.
Qed.

Lemma split_once_slash (n : string) :
  match Py.split_once "/" (n ++ "/") with
  | Some (x, _) => x
  | None => (n ++ "/")%string
  end
  = match Py.split_once "/" n with
    | Some (x, _) => x
    | None => n
    end.
Proof.
  induction n as [|a n IH]; [reflexivity|].
  cbn [String.append Py.split_once].
  destruct (Ascii.eqb a "/"); [reflexivity|].
  destruct (Py.split_once "/" (n ++ "/")) as [[x y]|] eqn:E1;
    destruct (Py.split_once "/" n) as [[x' y']|] eqn:E2; cbn in IH |- *.
  - f_equal. exact IH.
  - f_equal. exact IH.
  - exfalso. apply split_once_none in E1. rewrite count_app in E1.
    cbn in E1. lia.
  - exfalso. apply split_once_none in E1. rewrite count_app in E1.
    cbn in E1. lia.
Qed.

(** [mkdir(path, exists_ok=True)] sends nothing to the service and raises
    nothing, whatever the path and the account: the container name holds no
    ["/"], and every element of [ls("")] ends with one. *)
Theorem mkdir_exists_ok_sends_nothing (path : string) :
  mkdir service path true = ([], None).
Proof.
  unfold mkdir. pose proof (split_path_shape path) as [Hc _].
  destruct (split_path path) as [c k]. cbn [fst] in Hc. cbn [negb].
  rewrite ls_root_containers, root_listing, (container_not_listed _ Hc).
  reflexivity.
Qed.

(** [mkdir(path)] without [exists_ok]: for a path without key the
    container is created whether or not the account lists it; with a key an
    empty blob is uploaded when the container is the first segment of a
    listed name, and RuntimeError is raised before any call otherwise. *)
Theorem mkdir_new (path : string) :
  mkdir service path false
  = let '(c, k) := split_path path in
    if k =? "" then issue service (CreateContainer c)
    else if Py.mem c (map (fun b => match Py.split_once "/" (Blob.name b) with
                                    | Some (x, _) => x
                                    | None => Blob.name b
                                    end) list_containers)
         then issue service (UploadBlob c k)
         else ([], Some (Py.RuntimeError
                           ("Cannot create " ++ c ++ "/" ++ k ++ "."))).
Proof.
  unfold mkdir. pose proof (split_path_shape path) as [Hc _].
  destruct (split_path path) as [c k]. cbn [fst] in Hc. cbn [negb].
  rewrite ls_root_containers, root_listing, (container_not_listed _ Hc).
  cbn [negb andb].
  destruct (k =? ""); [reflexivity|].
  rewrite <- (map_map (fun b => (Blob.name b ++ "/")%string) Path).
  rewrite first_parts_paths, map_map. cbn [negb].
  rewrite andb_true_r.
  rewrite (map_ext _ _ (fun b => split_once_slash (Blob.name b))).
  reflexivity.
Qed.

(** [rmdir] deletes a container exactly when the path has no key and the
    account lists the container; in every other case it sends nothing and
    raises nothing, so a directory inside a container is never removed. *)
Theorem rmdir_only_listed_containers (path : string) :
  rmdir service path
  = let '(c, k) := split_path path in
    if Py.mem c (map Blob.name list_containers) && (k =? "")
    then issue service (DeleteContainer c)
    else ([], None).
Proof.
  unfold rmdir. destruct (split_path path) as [c k].
  rewrite ls_root_containers, root_listing, container_slash_listed.
  reflexivity.
Qed.

(** [rm_file] after [info] found an entry: an entry of another size than 0
    has its blob deleted; an entry of size 0 under a key is left alone,
    without any call or exception; an entry of size 0 without key has its
    container deleted when the account lists it.  The RuntimeError of the
    last branch is never raised. *)
Theorem rm_file_by_size (path : string) (e : Entry.t)
        (Hinfo : info path = inr e) :
  let '(c, k) := split_path path in
  (Entry.size e <> 0%Z -> fst (rm_file service path) = [DeleteBlob c k])
  /\ (Entry.size e = 0%Z -> k <> "" -> rm_file service path = ([], None))
  /\ (Entry.size e = 0%Z -> k = "" ->
      fst (rm_file service path)
      = if Py.mem c (map Blob.name list_containers)
        then [DeleteContainer c] else []).
Proof.
  destruct (info_entry _ _ Hinfo) as [_ [[Ety Esz]|[Ety Esz]]];
    unfold rm_file; rewrite Hinfo, Ety; cbn [String.eqb Ascii.eqb Bool.eqb];
    destruct (split_path path) as [c k];
    rewrite ?ls_root_containers, ?root_listing, ?container_slash_listed.
  - split; [intros Hne; contradiction|]. split.
    + intros _ Hk. apply String.eqb_neq in Hk. rewrite Hk, andb_false_r.
      reflexivity.
    + intros _ Hk. subst k. cbn [String.eqb]. rewrite andb_true_r.
      destruct (Py.mem c (map Blob.name list_containers)).
      * unfold issue. destruct (service (DeleteContainer c)) as [[]|];
          reflexivity.
      * reflexivity.
  - split; [|split; intros Hz; contradiction].
    intros _. unfold issue.
    destruct (service (DeleteBlob c k)) as [[]|]; reflexivity.
Qed.

(** [rm_file] swallows FileNotFoundError: it never raises it, and when
    [info] raises it nothing is sent. *)
Theorem rm_file_swallows_not_found (path : string) :
  snd (rm_file service path) <> Some Py.FileNotFoundError
  /\ (info path = inl Py.FileNotFoundError ->
      rm_file service path = ([], None)).
Proof.
  unfold rm_file. split.
  - match goal with
    | |- snd (match ?a with _ => _ end) <> _ => destruct a as [calls [[]|]]
    end; cbn [snd]; discriminate.
  - intros Hinfo. rewrite Hinfo. reflexivity.
Qed.

End ServiceProps.

Lemma rm_file_by_size_witness :
  fst (@ServiceCalls.rm_file Demo.account (fun _ => None) "c/f.txt")
  = [ServiceCalls.DeleteBlob "c" "f.txt"]
  /\ @ServiceCalls.rm_file Demo.account (fun _ => None) "c/d" = ([], None).
Proof.
  split.
  - exact (proj1 (@rm_file_by_size Demo.account (fun _ => None) "c/f.txt"
                    (Entry.mk "c/f.txt" 5 "file") eq_refl)
                 ltac:(discriminate)).
  - exact (proj1 (proj2 (@rm_file_by_size Demo.account (fun _ => None) "c/d"
                           (Entry.mk "c/d/" 0 "directory") eq_refl))
                 eq_refl ltac:(discriminate)).
Defined.

(** ** Paths expanded for deletion *)

Section ExpandProps.

Import AzureBlobFileSystem ServiceCalls.
Context `{Collaborators}.

Lemma mem_true_in (s : string) (l : list string) :
  Py.mem s l = true -> In s l.
Proof.
  unfold Py.mem. rewrite existsb_exists.
  intros (x & Hx & E). apply String.eqb_eq in E. subst. exact Hx.
Qed.

Lemma set_add_in (x : string) (s : list string) (y : string) :
  In y (set_add x s) <-> y = x \/ In y s.
Proof.
  unfold set_add. destruct (Py.mem x s) eqn:Hm.
  - split; [intros Hy; right; exact Hy|].
    intros [E|Hy]; [subst; apply mem_true_in; exact Hm|exact Hy].
  - rewrite in_app_iff. cbn [In]. split.
    + intros [Hy|[E|[]]]; [right; exact Hy|left; symmetry; exact E].
    + intros [E|Hy]; [right; left; symmetry; exact E|left; exact Hy].
Qed.

Lemma set_union_in (l : list string) :
  forall s y, In y s -> In y (set_union s l).
Proof.
  unfold set_union.
  induction l as [|x l IH]; intros s y Hy; [exact Hy|].
  cbn [fold_left]. apply IH. apply set_add_in. right. exact Hy.
Qed.

Lemma expand_path_S (fuel : nat) (path : paths) (recursive : bool)
      (maxdepth : option Z) :
  expand_path (S fuel) path recursive maxdepth
  = let out := match path with
               | One p => expand_path fuel (Many [p]) recursive maxdepth
               | Many ps => expand_loop fuel recursive ps []
               end in
    match out with
    | Ok [] => Raise Py.FileNotFoundError
    | Ok out => Ok (Py.sorted out)
    | other => other
    end.
Proof. destruct path; reflexivity. Qed.

Lemma expand_loop_keeps (fuel : nat) (recursive : bool) (ps : list string) :
  forall out o,
    expand_loop fuel recursive ps out = Ok o ->
    (forall x, In x out -> In x o)
    /\ (forall p, In p ps -> has_magic p = false -> In p o).
Proof.
  induction ps as [|p ps IH]; intros out o Hl; cbn [expand_loop] in Hl.
  - inversion Hl; subst. split; [intros x Hx; exact Hx|intros p []].
  - destruct (has_magic p) eqn:Hm.
    + destruct (glob fuel p false) as [bit|e|]; try discriminate.
      destruct recursive.
      * destruct (expand_path fuel (One p) false None); discriminate.
      * destruct (IH _ _ Hl) as [Hout Hps]. split.
        -- intros x Hx. apply Hout. apply set_union_in. exact Hx.
        -- intros q [E|Hq] Hq'; [congruence|apply Hps; assumption].
    + assert (Hstep : forall out',
                 expand_loop fuel recursive ps (set_add p out') = Ok o ->
                 (forall x, In x out -> In x out') ->
                 (forall x, In x out -> In x o)
                 /\ (forall q, In q (p :: ps) -> has_magic q = false ->
                               In q o)).
      { intros out' Hl' Hsub. destruct (IH _ _ Hl') as [Hout Hps]. split.
        - intros x Hx. apply Hout. apply set_add_in. right. apply Hsub.
          exact Hx.
        - intros q [E|Hq] Hq'; [|apply Hps; assumption].
          subst q. apply Hout. apply set_add_in. left. reflexivity. }
      destruct recursive.
      * destruct (find fuel p None true false) as [found|e|];
          try discriminate.
        apply (Hstep _ Hl). intros x Hx. apply set_union_in. exact Hx.
      * apply (Hstep _ Hl). intros x Hx. exact Hx.
Qed.

Lemma expand_loop_magic (fuel : nat) (ps : list string) (p : string) :
  In p ps -> has_magic p = true ->
  forall out o, expand_loop fuel true ps out <> Ok o.
Proof.
  intros Hin Hm. induction ps as [|q ps IH]; [contradiction|].
  intros out o. cbn [expand_loop].
  destruct Hin as [E|Hin].
  - subst q. rewrite Hm.
    destruct (glob fuel p false) as [bit|e|]; try discriminate.
    destruct (expand_path fuel (One p) false None); discriminate.
  - destruct (has_magic q).
    + destruct (glob fuel q false) as [bit|e|]; try discriminate.
      destruct (expand_path fuel (One q) false None); discriminate.
    + destruct (find fuel q None true false) as [found|e|];
        try discriminate.
      apply IH. exact Hin.
Qed.

(** A path without wildcard, expanded without [recursive], comes back as
    the one-element list of itself: [expand_path] never looks whether it
    exists, and [maxdepth] plays no part. *)
Theorem expand_path_plain (fuel : nat) (p : string) (maxdepth : option Z)
        (Hplain : has_magic p = false) :
  expand_path (S (S fuel)) (One p) false maxdepth = Ok [p]
  /\ expand_path (S fuel) (Many [p]) false maxdepth = Ok [p].
Proof.
  assert (Hmany : expand_path (S fuel) (Many [p]) false maxdepth = Ok [p]).
  { rewrite expand_path_S. cbn [expand_loop]. rewrite Hplain. reflexivity. }
  split; [|exact Hmany].
  rewrite expand_path_S. cbv zeta. rewrite Hmany. reflexivity.
Qed.

(** With [recursive] set, a path with a wildcard makes [expand_path] fail:
    whatever else is in the list and whatever the account holds, no list of
    paths is ever returned. *)
Theorem expand_path_magic_recursive (path : paths) (p : string)
        (maxdepth : option Z)
        (Hin : In p match path with One q => [q] | Many ps => ps end)
        (Hmagic : has_magic p = true) :
  forall fuel r, expand_path fuel path true maxdepth <> Ok r.
Proof.
  assert (Hmany : forall ps, In p ps ->
            forall fuel r, expand_path fuel (Many ps) true maxdepth <> Ok r).
  { intros ps Hps [|fuel] r; [discriminate|].
    rewrite expand_path_S. cbv zeta.
    pose proof (expand_loop_magic fuel ps p Hps Hmagic []) as Hl.
    destruct (expand_loop fuel true ps []) as [[|x o]|e|]; try discriminate.
    exfalso. apply (Hl (x :: o)). reflexivity. }
  destruct path as [q|ps]; [|apply Hmany; exact Hin].
  intros [|fuel] r; [discriminate|].
  rewrite expand_path_S. cbv zeta.
  pose proof (Hmany [q] Hin fuel) as Hq.
  destruct (expand_path fuel (Many [q]) true maxdepth) as [[|x o]|e|];
    try discriminate.
  exfalso. apply (Hq (x :: o)). reflexivity.
Qed.

(** What [expand_path] returns for a list of paths is in ascending order
    and holds every path of the list that has no wildcard, found or not. *)
Theorem expand_path_sorted_keeps (fuel : nat) (ps : list string)
        (recursive : bool) (maxdepth : option Z) (r : list string)
        (Hexp : expand_path fuel (Many ps) recursive maxdepth = Ok r) :
  Sorted (fun a b => String.leb a b = true) r
  /\ forall p, In p ps -> has_magic p = false -> In p r.
Proof.
  destruct fuel as [|fuel]; [discriminate|].
  rewrite expand_path_S in Hexp. cbv zeta in Hexp.
  destruct (expand_loop fuel recursive ps []) as [[|x o]|e|] eqn:Hl;
    try discriminate.
  assert (Er : Py.sorted (x :: o) = r) by congruence.
  clear Hexp. subst r. split; [apply sorted_sorted|].
  intros p Hp Hm. apply sorted_in.
  destruct (expand_loop_keeps _ _ _ _ _ Hl) as [_ Hps]. apply Hps; assumption.
Qed.

End ExpandProps.

Lemma expand_path_plain_witness :
  @ServiceCalls.expand_path Demo.account 2 (ServiceCalls.One "c/nope") false
     None
  = AzureBlobFileSystem.Ok ["c/nope"].
Proof.
  exact (proj1 (@expand_path_plain Demo.account 0 "c/nope" None eq_refl)).
Defined.

Lemma expand_path_magic_recursive_witness :
  @ServiceCalls.expand_path Demo.account 6 (ServiceCalls.One "c/*") true None
  <> AzureBlobFileSystem.Ok ["c/d"; "c/f.txt"].
Proof.
  exact (@expand_path_magic_recursive Demo.account (ServiceCalls.One "c/*")
           "c/*" None (or_introl eq_refl) eq_refl 6 ["c/d"; "c/f.txt"]).
Defined.

Lemma expand_path_sorted_keeps_witness :
  Sorted (fun a b => String.leb a b = true) ["c"; "c/d"; "c/d/x"; "c/f.txt"]
  /\ In "c" ["c"; "c/d"; "c/d/x"; "c/f.txt"].
Proof.
  destruct (@expand_path_sorted_keeps Demo.account 5 ["c"] true None
              ["c"; "c/d"; "c/d/x"; "c/f.txt"] eq_refl) as [Hs Hk].
  split; [exact Hs|]. apply Hk; [left; reflexivity|reflexivity].
Defined.

Lemma rm_file_swallows_not_found_witness :
  @ServiceCalls.rm_file Demo.account (fun _ => None) "c/nope" = ([], None).
Proof.
  exact (proj2 (@rm_file_swallows_not_found Demo.account (fun _ => None)
                  "c/nope") eq_refl).
Defined.

(** ** What a wildcard search returns *)

Section GlobMore.

Import AzureBlobFileSystem.
Context `{Collaborators}.

Lemma glob_plan_magic (ends : bool) (path : string) :
  has_magic path = true ->
  (exists root depth, glob_plan ends path = Search root depth path)
  \/ (exists e, glob_plan ends path = Fails e).
Proof.
  intros Hm. unfold glob_plan. rewrite Hm. cbn [negb].
  destruct (Py.contains "/" _).
  - destruct (Py.rindex "/" _) as [i|].
    + left. eexists. eexists. reflexivity.
    + right. eexists. reflexivity.
  - left. eexists. eexists. reflexivity.
Qed.

(** Every name [glob] returns for a path with a wildcard is matched by the
    regular expression compiled from the stripped path, once doubled
    slashes are merged and trailing ones removed; asked for details, it
    returns a dict with exactly those names as keys. *)
Theorem glob_names_match (fuel : nat) (path : string) (r : list string)
        (Hmagic : has_magic (_strip_protocol path) = true)
        (Hglob : glob fuel path false = Ok (Names r)) :
  (forall n, In n r ->
             re_match (glob_pattern (_strip_protocol path))
                      (Py.rstrip "/" (Py.replace "//" "/" n)) = true)
  /\ exists d, glob fuel path true = Ok (Details d) /\ Dict.keys d = r.
Proof.
  unfold glob in *.
  destruct (glob_plan_magic (Py.endswith "/" path) _ Hmagic)
    as [(root & depth & Ep)|(e & Ep)]; rewrite Ep in *; [|discriminate].
  destruct (find fuel root (Some depth) true true) as [[l|allpaths]|e|];
    try discriminate.
  cbn [negb] in Hglob. assert (Er : Dict.keys
    (filter (fun kv => re_match (glob_pattern (_strip_protocol path))
                         (Py.rstrip "/" (Py.replace "//" "/" (fst kv))))
            (map (fun p => (p, match Dict.get p allpaths with
                               | Some v => v
                               | None => None
                               end))
                 (Py.sorted (Dict.keys allpaths)))) = r) by congruence.
  clear Hglob. split.
  - intros n Hn. rewrite <- Er in Hn. unfold Dict.keys at 1 in Hn.
    apply in_map_iff in Hn. destruct Hn as ([k v] & Ek & Hin).
    cbn [fst] in Ek. subst k. apply filter_In in Hin.
    destruct Hin as [_ Hre]. exact Hre.
  - eexists. split; [reflexivity|exact Er].
Qed.

End GlobMore.

Lemma glob_names_match_witness :
  (forall n, In n ["c/d"; "c/f.txt"] ->
             @re_match Demo.wild_account
               (@AzureBlobFileSystem.glob_pattern "c/*")
               (Py.rstrip "/" (Py.replace "//" "/" n)) = true)
  /\ exists d,
       @AzureBlobFileSystem.glob Demo.wild_account 3 "c/*" true
       = AzureBlobFileSystem.Ok (AzureBlobFileSystem.Details d)
       /\ Dict.keys d = ["c/d"; "c/f.txt"].
Proof.
  exact (@glob_names_match Demo.wild_account 3 "c/*" ["c/d"; "c/f.txt"]
           eq_refl eq_refl).
Defined.
